(** * Boxo event calendar: sessions, authorization gate and event store

    A shallow embedding of the server side of the calendar
    (the [Database] class and the Express handlers of [server.js]) and the
    properties of its session lifecycle, its authorization middleware and
    its event table.

    Conventions of the embedding.
    - A table is the list of its rows in rowid order; an [AUTOINCREMENT]
      key is drawn from the table's [sqlite_sequence] counter.
    - A JavaScript string is a [string], its length the number of its
      characters; a JSON body field is [None] when it is absent (or null)
      and [Some s] when it is the string [s].  The password of a login is
      taken as any JSON value, since the handler hands it to [bcrypt.compare]
      unchecked.
    - Text columns hold the text that was bound.  The columns declared
      [DATE] and [TIME] have NUMERIC affinity: a bound text that spells a
      number is stored as that number, any other text (the forms
      [YYYY-MM-DD] and [HH:MM] among them) as it is.  Which number a literal
      spells, and how two numbers compare, is SQLite's to say: the model
      takes it as an interface ([Sqlite.Numbers]).  The [DATETIME] columns
      only ever receive the two timestamp forms used below, which spell no
      number.
    - Text is compared the way SQLite's BINARY collation does, byte by byte.
    - The clock is the number of milliseconds since the epoch, read once per
      request.
    - The driver's [err] callback argument is an input of each statement:
      [None] when SQLite performed the statement. *)

From Stdlib Require Import ZArith List String Ascii Bool Lia.
From Stdlib Require Import Sorted Permutation.
Import ListNotations.

Local Open Scope string_scope.
Local Open Scope Z_scope.

(** ** JSON values *)

Local Set Warnings "-register-all".

Inductive json : Type :=
| JNull
| JBool (b : bool)
| JNum (z : Z)
| JStr (s : string)
| JArr (items : list json)
| JObj (fields : list (string * json)).

Definition keys (j : json) : list string :=
  match j with
  | JObj fields => map fst fields
  | _ => []
  end.

Fixpoint assoc (k : string) (fields : list (string * json)) : option json :=
  match fields with
  | [] => None
  | (k', v) :: rest => if (k' =? k)%string then Some v else assoc k rest
  end.

Definition field (k : string) (j : json) : option json :=
  match j with
  | JObj fields => assoc k fields
  | _ => None
  end.

(** A nullable text or integer as JSON. *)
Definition jtext (x : option string) : json :=
  match x with Some s => JStr s | None => JNull end.
Definition jint (x : option Z) : json :=
  match x with Some z => JNum z | None => JNull end.

(** ** JavaScript strings and truthiness *)

Module Js.

(** [s.startsWith(p)] *)
Definition startsWith (s p : string) : bool := String.prefix p s.

(** [s.substring(n)]: the text from index [n] to the end. *)
Fixpoint substring (n : nat) (s : string) : string :=
  match n, s with
  | O, _ => s
  | S n', String _ s' => substring n' s'
  | S _, EmptyString => EmptyString
  end.

(** [s.includes(sub)] *)
Fixpoint includes (s sub : string) : bool :=
  String.prefix sub s ||
  match s with
  | EmptyString => false
  | String _ s' => includes s' sub
  end.

(** Truthiness of a value that is a string or undefined: [!x] is [true]
    for [undefined], [null] and the empty string. *)
Definition truthy (x : option string) : bool :=
  match x with
  | Some s => negb (s =? "")%string
  | None => false
  end.

Definition length (s : string) : Z := Z.of_nat (String.length s).

(** Truthiness of a body field that may hold any JSON value: [!x] is [true]
    for [undefined], [null], [false], [0] and the empty string; arrays and
    objects are truthy. *)
Definition truthy_json (x : option json) : bool :=
  match x with
  | None | Some JNull => false
  | Some (JBool b) => b
  | Some (JNum z) => negb (z =? 0)
  | Some (JStr s) => negb (s =? "")%string
  | Some (JArr _) | Some (JObj _) => true
  end.

End Js.

(** ** Wall-clock time and its two textual forms *)

Module Clock.

Definition MS_PER_SECOND : Z := 1000.
Definition MS_PER_DAY : Z := 86400000.

(** [24 * 60 * 60 * 1000], the lifetime the login handler gives a session. *)
Definition SESSION_LIFETIME : Z := 24 * 60 * 60 * 1000.

(** Proleptic Gregorian date (year, month, day) of a day number counted
    from 1970-01-01. *)
Definition civil_from_days (days : Z) : Z * Z * Z :=
  let z := days + 719468 in
  let era := z / 146097 in
  let doe := z - era * 146097 in
  let yoe := (doe - doe / 1460 + doe / 36524 - doe / 146096) / 365 in
  let doy := doe - (365 * yoe + yoe / 4 - yoe / 100) in
  let mp := (5 * doy + 2) / 153 in
  let d := doy - (153 * mp + 2) / 5 + 1 in
  let m := if mp <? 10 then mp + 3 else mp - 9 in
  let y := yoe + era * 400 + (if m <=? 2 then 1 else 0) in
  (y, m, d).

Definition digit (z : Z) : ascii := ascii_of_nat (48 + Z.to_nat (z mod 10)).

Definition pad2 (z : Z) : string :=
  String (digit (z / 10)) (String (digit z) "").

Definition pad3 (z : Z) : string := String (digit (z / 100)) (pad2 z).

Definition pad4 (z : Z) : string := String (digit (z / 1000)) (pad3 z).

Definition pad6 (z : Z) : string :=
  String (digit (z / 100000)) (String (digit (z / 10000)) (pad4 z)).

(** [YYYY-MM-DD] of a day number. *)
Definition ymd (days : Z) : string :=
  let '(y, m, d) := civil_from_days days in
  pad4 y ++ "-" ++ pad2 m ++ "-" ++ pad2 d.

(** [HH:MM:SS] of a number of milliseconds within a day. *)
Definition hms (ms : Z) : string :=
  let s := ms / MS_PER_SECOND in
  pad2 (s / 3600) ++ ":" ++ pad2 (s / 60 mod 60) ++ ":" ++ pad2 (s mod 60).

(** [new Date(t).toISOString()]: [YYYY-MM-DDTHH:mm:ss.sssZ], with the
    expanded six-digit signed year outside 0..9999. *)
Definition toISOString (t : Z) : string :=
  let days := t / MS_PER_DAY in
  let ms := t mod MS_PER_DAY in
  let '(y, m, d) := civil_from_days days in
  let date :=
    if (0 <=? y) && (y <=? 9999) then ymd days
    else (if y <? 0 then "-" else "+") ++ pad6 (Z.abs y)
         ++ "-" ++ pad2 m ++ "-" ++ pad2 d in
  date ++ "T" ++ hms ms ++ "." ++ pad3 (ms mod MS_PER_SECOND) ++ "Z".

(** Whether the year of [t] is written with four digits by [toISOString]. *)
Definition four_digit_year (t : Z) : bool :=
  let '(y, _, _) := civil_from_days (t / MS_PER_DAY) in
  (0 <=? y) && (y <=? 9999).

(** SQLite's [CURRENT_TIMESTAMP]: [YYYY-MM-DD HH:MM:SS], in UTC. *)
Definition CURRENT_TIMESTAMP (t : Z) : string :=
  ymd (t / MS_PER_DAY) ++ " " ++ hms (t mod MS_PER_DAY).

End Clock.

(** ** What the SQLite driver reports *)

Module Sqlite.

(** A failure of the driver that is not a constraint violation
    ([SQLITE_BUSY], [SQLITE_IOERR], ...). *)
Record fault := { code : string; msg : string }.

Inductive constraint :=
| NOT_NULL (column : string)
| CHECK (table : string)
| UNIQUE (column : string).

(** The errors a [Database] promise is rejected with. *)
Inductive error :=
| Constraint (c : constraint)
| Fault (f : fault)
| EventNotFound.

(** [error.message] *)
Definition message (e : error) : string :=
  match e with
  | Constraint (NOT_NULL c) =>
      "SQLITE_CONSTRAINT: NOT NULL constraint failed: " ++ c
  | Constraint (CHECK t) => "SQLITE_CONSTRAINT: CHECK constraint failed: " ++ t
  | Constraint (UNIQUE c) =>
      "SQLITE_CONSTRAINT: UNIQUE constraint failed: " ++ c
  | Fault f => code f ++ ": " ++ msg f
  | EventNotFound => "Event not found"
  end.

(** Comparison of two TEXT values under the BINARY collation. *)
Definition text_gt (a b : string) : bool := String.ltb b a.
Definition text_le (a b : string) : bool := String.leb a b.

(** The rowid an [AUTOINCREMENT] table gives its next row: one more than
    the largest rowid the table has ever held. *)
Definition next_rowid (seq : Z) (ids : list Z) : Z :=
  fold_right Z.max seq ids + 1.

(** *** Columns with NUMERIC affinity *)

(** Blank, tab, line feed, vertical tab, form feed, carriage return. *)
Definition is_space (c : ascii) : bool :=
  let n := nat_of_ascii c in
  (n =? 32)%nat || ((9 <=? n)%nat && (n <=? 13)%nat).

Definition is_digit (c : ascii) : bool :=
  let n := nat_of_ascii c in (48 <=? n)%nat && (n <=? 57)%nat.

(** What is left of a text after its leading characters of one kind. *)
Fixpoint skip (kind : ascii -> bool) (s : string) : string :=
  match s with
  | String c s' => if kind c then skip kind s' else s
  | EmptyString => s
  end.

Definition skip_sign (s : string) : string :=
  match s with
  | String c s' => if (c =? "+")%char || (c =? "-")%char then s' else s
  | EmptyString => s
  end.

(** How many characters [skip] took. *)
Definition taken (s rest : string) : nat :=
  (String.length s - String.length rest)%nat.

(** Whether a text is a well-formed integer or real literal, the test of
    [sqlite3AtoF]: blanks, a sign, digits, a point and digits, an exponent
    ([e] or [E], a sign, digits), blanks, and nothing else; the mantissa has
    at least one digit, and so has the exponent when there is one. *)
Definition spells_number (s : string) : bool :=
  let mantissa := skip_sign (skip is_space s) in
  let after_integer := skip is_digit mantissa in
  let fraction :=
    match after_integer with
    | String c s' => if (c =? ".")%char then s' else after_integer
    | EmptyString => after_integer
    end in
  let after_fraction := skip is_digit fraction in
  let digits :=
    (taken mantissa after_integer + taken fraction after_fraction)%nat in
  let '(exponent_ok, rest) :=
    match after_fraction with
    | String c s' =>
        if (c =? "e")%char || (c =? "E")%char then
          let exponent := skip_sign s' in
          let after_exponent := skip is_digit exponent in
          ((0 <? taken exponent after_exponent)%nat, after_exponent)
        else (true, after_fraction)
    | EmptyString => (true, after_fraction)
    end in
  (skip is_space rest =? "")%string && (0 <? digits)%nat && exponent_ok.

(** A value held in a column with NUMERIC affinity: a number (INTEGER or
    REAL), kept here as the literal that spelled it, or a text that spells
    none. *)
Inductive value :=
| Number (literal : string)
| Text (s : string).

(** What the column stores of a bound text. *)
Definition numeric (s : string) : value :=
  if spells_number s then Number s else Text s.

(** SQLite's reading of numeric literals: how the numbers two literals
    spell compare, a total preorder, and the JSON number the driver hands
    back for one. *)
Class Numbers := {
  number_compare : string -> string -> comparison;
  number_json : string -> json;
  number_compare_antisym :
    forall a b, number_compare b a = CompOpp (number_compare a b);
  number_compare_trans :
    forall a b c, number_compare a b <> Gt -> number_compare b c <> Gt ->
                  number_compare a c <> Gt
}.

(** The order [ORDER BY] gives such values: every number comes before every
    text; texts are compared byte by byte. *)
Definition value_compare {numbers : Numbers} (a b : value) : comparison :=
  match a, b with
  | Number x, Number y => number_compare x y
  | Number _, Text _ => Lt
  | Text _, Number _ => Gt
  | Text x, Text y => String.compare x y
  end.

(** The value as the driver hands it to JavaScript. *)
Definition value_json {numbers : Numbers} (v : value) : json :=
  match v with
  | Number literal => number_json literal
  | Text s => JStr s
  end.

End Sqlite.

(** The outcome of awaiting a promise. *)
Inductive promise (A : Type) : Type :=
| Resolved (a : A)
| Rejected (e : Sqlite.error).
Arguments Resolved {A} a.
Arguments Rejected {A} e.

(** Awaiting a promise that its executor may leave unsettled: an exception
    raised inside a driver callback is caught by nobody, the promise stays
    pending, the request that awaits it is never answered, and Node ends the
    process on the unhandled rejection. *)
Inductive awaited (A : Type) : Type :=
| Settled (p : promise A)
| Pending.
Arguments Settled {A} p.
Arguments Pending {A}.

(** ** HTTP responses *)

Record response := { status : Z; body : json }.

(** ** Rows of the three tables *)

Module User.
Record t := {
  id : Z;
  username : string;
  email : string;
  password_hash : string;
  full_name : string;
  role : string;
  created_at : string;
  last_login : option string;
  is_active : Z
}.
End User.

Module Session.
Record t := {
  id : Z;
  user_id : Z;
  token : string;
  expires_at : string;
  created_at : string
}.

(** A row of [SELECT s.*, u.username, u.full_name, u.role]. *)
Record view := {
  session : t;
  username : string;
  full_name : string;
  role : string
}.
End Session.

Module Event.
Record t := {
  id : Z;
  title : string;
  description : string;
  date : Sqlite.value;
  time : Sqlite.value;
  type : string;
  created_by : option Z;
  created_at : string;
  updated_at : string
}.

(** A row of [SELECT e.*, u.username as created_by_username]. *)
Record listed := {
  event : t;
  created_by_username : option string
}.

(** [{ title, description, date, time, type }] as taken from a request
    body: any of the five may be missing. *)
Record data := {
  d_title : option string;
  d_description : option string;
  d_date : option string;
  d_time : option string;
  d_type : option string
}.
End Event.

(** ** The database file *)

Record store := {
  users : list User.t;
  events : list Event.t;
  sessions : list Session.t;
  (* sqlite_sequence *)
  seq_users : Z;
  seq_events : Z;
  seq_sessions : Z
}.

Definition with_users (db : store) (us : list User.t) (seq : Z) : store :=
  {| users := us; events := events db; sessions := sessions db;
     seq_users := seq; seq_events := seq_events db;
     seq_sessions := seq_sessions db |}.

Definition with_events (db : store) (es : list Event.t) (seq : Z) : store :=
  {| users := users db; events := es; sessions := sessions db;
     seq_users := seq_users db; seq_events := seq;
     seq_sessions := seq_sessions db |}.

Definition with_sessions (db : store) (ss : list Session.t) (seq : Z) : store :=
  {| users := users db; events := events db; sessions := ss;
     seq_users := seq_users db; seq_events := seq_events db;
     seq_sessions := seq |}.

(** ** The password-hashing primitive

    [bcrypt.hash(data, saltRounds)] draws a salt of its own, which is an
    input here; [bcrypt.compare(data, encrypted)] answers whether [data]
    hashes to [encrypted].  The primitive is one-way: a digest is never the
    text it was computed from. *)

Class Bcrypt := {
  hash : string -> Z -> string -> string;
  compare : string -> string -> bool;
  hash_one_way : forall data rounds salt, hash data rounds salt <> data
}.

(** ** The [Database] class *)

Module Database.

Section Methods.

Context {bcrypt : Bcrypt} {numbers : Sqlite.Numbers}.

(** A statement the driver failed to perform rejects the promise and leaves
    the file as it was. *)
Definition run {A : Type} (err : option Sqlite.fault) (db : store)
    (statement : promise A * store) : promise A * store :=
  match err with
  | Some f => (Rejected (Sqlite.Fault f), db)
  | None => statement
  end.

(** *** User management *)

Record userData := {
  ud_username : string;
  ud_email : string;
  ud_password : string;
  ud_fullName : string
}.

(** What [createUser] resolves to: [{ id, username, email, fullName }]. *)
Record createdUser := {
  cu_id : Z;
  cu_username : string;
  cu_email : string;
  cu_fullName : string
}.

Definition saltRounds : Z := 10.

(** [INSERT INTO users (username, email, password_hash, full_name)]: the
    columns left out take their defaults, [role] 'admin', [created_at]
    [CURRENT_TIMESTAMP], [last_login] NULL and [is_active] 1.  SQLite tests
    the unique index of [email] before that of [username]: when both
    columns collide the email is the one reported. *)
Definition createUser (err : option Sqlite.fault) (now : Z) (salt : string)
    (db : store) (userData : userData) : promise createdUser * store :=
  let hashedPassword := hash (ud_password userData) saltRounds salt in
  run err db
    (if existsb (fun u => (User.email u =? ud_email userData)%string)
          (users db)
     then (Rejected (Sqlite.Constraint (Sqlite.UNIQUE "users.email")), db)
     else if existsb (fun u => (User.username u =? ud_username userData)%string)
               (users db)
     then (Rejected (Sqlite.Constraint (Sqlite.UNIQUE "users.username")), db)
     else
       let lastID :=
         Sqlite.next_rowid (seq_users db) (map User.id (users db)) in
       let row :=
         {| User.id := lastID;
            User.username := ud_username userData;
            User.email := ud_email userData;
            User.password_hash := hashedPassword;
            User.full_name := ud_fullName userData;
            User.role := "admin";
            User.created_at := Clock.CURRENT_TIMESTAMP now;
            User.last_login := None;
            User.is_active := 1 |} in
       (Resolved {| cu_id := lastID;
                    cu_username := ud_username userData;
                    cu_email := ud_email userData;
                    cu_fullName := ud_fullName userData |},
        with_users db (users db ++ [row]) lastID)).

(** [UPDATE users SET last_login = CURRENT_TIMESTAMP WHERE id = ?] *)
Definition stamp_last_login (now : Z) (id : Z) (u : User.t) : User.t :=
  if User.id u =? id then
    {| User.id := User.id u;
       User.username := User.username u;
       User.email := User.email u;
       User.password_hash := User.password_hash u;
       User.full_name := User.full_name u;
       User.role := User.role u;
       User.created_at := User.created_at u;
       User.last_login := Some (Clock.CURRENT_TIMESTAMP now);
       User.is_active := User.is_active u |}
  else u.

(** [await bcrypt.compare(password, user.password_hash)] inside the callback
    of [db.get]: [bcrypt.compare] rejects data that is not a string ('data
    and hash must be strings'), and nothing in the callback catches that. *)
Definition password_check (password : json) (password_hash : string)
    : option bool :=
  match password with
  | JStr data => Some (compare data password_hash)
  | _ => None
  end.

(** [SELECT * FROM users WHERE username = ? AND is_active = 1], then the
    password check; on a match the method itself issues the [last_login]
    update and resolves without waiting for it, so that a failure of that
    statement ([err_stamp]) does not reach the caller.  Resolves to the row
    as it was selected.  When the password check throws, the promise is
    never settled. *)
Definition validateUser (err err_stamp : option Sqlite.fault) (now : Z)
    (db : store) (username : string) (password : json)
    : awaited (option User.t) * store :=
  match err with
  | Some f => (Settled (Rejected (Sqlite.Fault f)), db)
  | None =>
      match filter (fun u => (User.username u =? username)%string
                             && (User.is_active u =? 1)) (users db) with
      | [] => (Settled (Resolved None), db)
      | user :: _ =>
          match password_check password (User.password_hash user) with
          | Some true =>
              (Settled (Resolved (Some user)),
               match err_stamp with
               | None =>
                   with_users db
                     (map (stamp_last_login now (User.id user)) (users db))
                     (seq_users db)
               | Some _ => db
               end)
          | Some false => (Settled (Resolved None), db)
          | None => (Pending, db)
          end
      end
  end.

(** *** Session management *)

(** [INSERT INTO sessions (user_id, token, expires_at)]; resolves to
    [{ id: this.lastID }]. *)
Definition createSession (err : option Sqlite.fault) (now : Z) (db : store)
    (userId : Z) (token expiresAt : string) : promise Z * store :=
  run err db
    (if existsb (fun s => (Session.token s =? token)%string) (sessions db)
     then (Rejected (Sqlite.Constraint (Sqlite.UNIQUE "sessions.token")), db)
     else
       let lastID :=
         Sqlite.next_rowid (seq_sessions db) (map Session.id (sessions db)) in
       let row :=
         {| Session.id := lastID;
            Session.user_id := userId;
            Session.token := token;
            Session.expires_at := expiresAt;
            Session.created_at := Clock.CURRENT_TIMESTAMP now |} in
       (Resolved lastID, with_sessions db (sessions db ++ [row]) lastID)).

(** The [WHERE] clause of [validateSession] on a joined pair. *)
Definition live (now : Z) (token : string) (s : Session.t) (u : User.t)
    : bool :=
  (Session.token s =? token)%string
  && Sqlite.text_gt (Session.expires_at s) (Clock.CURRENT_TIMESTAMP now)
  && (User.is_active u =? 1).

(** [FROM sessions s JOIN users u ON s.user_id = u.id WHERE ...] *)
Definition session_rows (now : Z) (token : string) (db : store)
    : list Session.view :=
  flat_map
    (fun s =>
       flat_map
         (fun u =>
            if (Session.user_id s =? User.id u) && live now token s u
            then [ {| Session.session := s;
                      Session.username := User.username u;
                      Session.full_name := User.full_name u;
                      Session.role := User.role u |} ]
            else [])
         (users db))
    (sessions db).

(** [db.get]: the first row of the result, or undefined. *)
Definition validateSession (err : option Sqlite.fault) (now : Z) (db : store)
    (token : string) : promise (option Session.view) * store :=
  run err db (Resolved (hd_error (session_rows now token db)), db).

(** [DELETE FROM sessions WHERE token = ?] *)
Definition deleteSession (err : option Sqlite.fault) (db : store)
    (token : string) : promise unit * store :=
  run err db
    (Resolved tt,
     with_sessions db
       (filter (fun s => negb (Session.token s =? token)%string)
          (sessions db))
       (seq_sessions db)).

(** *** Event management *)

(** [ON e.created_by = u.id]: a NULL creator equals no id. *)
Definition creator (e : Event.t) (u : User.t) : bool :=
  match Event.created_by e with
  | Some c => c =? User.id u
  | None => false
  end.

(** [FROM events e LEFT JOIN users u ON e.created_by = u.id]: an event
    without a matching user still yields one row, whose username is NULL. *)
Definition left_join (us : list User.t) (e : Event.t) : list Event.listed :=
  match filter (creator e) us with
  | [] => [ {| Event.event := e; Event.created_by_username := None |} ]
  | matched =>
      map (fun u => {| Event.event := e;
                       Event.created_by_username := Some (User.username u) |})
        matched
  end.

(** [ORDER BY e.date ASC, e.time ASC], on the values the two columns
    hold. *)
Definition date_time_le (a b : Event.listed) : bool :=
  match Sqlite.value_compare (Event.date (Event.event a))
                             (Event.date (Event.event b)) with
  | Lt => true
  | Gt => false
  | Eq =>
      match Sqlite.value_compare (Event.time (Event.event a))
                                 (Event.time (Event.event b)) with
      | Gt => false
      | _ => true
      end
  end.

Fixpoint insert_ordered (x : Event.listed) (l : list Event.listed)
    : list Event.listed :=
  match l with
  | [] => [x]
  | y :: l' =>
      if date_time_le x y then x :: y :: l' else y :: insert_ordered x l'
  end.

(** Rows with the same date and time keep the order of the scan. *)
Definition order_by_date_time (l : list Event.listed) : list Event.listed :=
  fold_right insert_ordered [] l.

Definition getAllEvents (err : option Sqlite.fault) (db : store)
    : promise (list Event.listed) * store :=
  run err db
    (Resolved (order_by_date_time (flat_map (left_join (users db)) (events db))),
     db).

Definition EVENT_TYPES : list string := ["assignment"; "webinar"; "workshop"].

(** The five bound values once they passed the constraints of the table. *)
Record accepted := {
  a_title : string;
  a_description : string;
  a_date : string;
  a_time : string;
  a_type : string
}.

(** The column constraints of [events] on the five bound values: the
    [NOT NULL] ones in column order, then
    [CHECK(type IN ('assignment', 'webinar', 'workshop'))]. *)
Definition constraints (d : Event.data) : Sqlite.constraint + accepted :=
  match Event.d_title d with
  | None => inl (Sqlite.NOT_NULL "events.title")
  | Some title =>
  match Event.d_description d with
  | None => inl (Sqlite.NOT_NULL "events.description")
  | Some description =>
  match Event.d_date d with
  | None => inl (Sqlite.NOT_NULL "events.date")
  | Some date =>
  match Event.d_time d with
  | None => inl (Sqlite.NOT_NULL "events.time")
  | Some time =>
  match Event.d_type d with
  | None => inl (Sqlite.NOT_NULL "events.type")
  | Some type =>
      if existsb (String.eqb type) EVENT_TYPES
      then inr {| a_title := title; a_description := description;
                  a_date := date; a_time := time; a_type := type |}
      else inl (Sqlite.CHECK "events")
  end end end end end.

(** What [createEvent] resolves to. *)
Record createdEvent := {
  ce_id : Z;
  ce_data : accepted;
  ce_created_by : Z;
  ce_created_at : string
}.

(** [INSERT INTO events (title, description, date, time, type, created_by)];
    the [date] and [time] columns store the bound texts under their NUMERIC
    affinity, the promise resolves to the texts as they were bound. *)
Definition createEvent (err : option Sqlite.fault) (now : Z) (db : store)
    (eventData : Event.data) (createdBy : Z) : promise createdEvent * store :=
  run err db
    (match constraints eventData with
     | inl c => (Rejected (Sqlite.Constraint c), db)
     | inr a =>
         let lastID :=
           Sqlite.next_rowid (seq_events db) (map Event.id (events db)) in
         let row :=
           {| Event.id := lastID;
              Event.title := a_title a;
              Event.description := a_description a;
              Event.date := Sqlite.numeric (a_date a);
              Event.time := Sqlite.numeric (a_time a);
              Event.type := a_type a;
              Event.created_by := Some createdBy;
              Event.created_at := Clock.CURRENT_TIMESTAMP now;
              Event.updated_at := Clock.CURRENT_TIMESTAMP now |} in
         (Resolved {| ce_id := lastID; ce_data := a;
                      ce_created_by := createdBy;
                      ce_created_at := Clock.toISOString now |},
          with_events db (events db ++ [row]) lastID)
     end).

(** [SET title = ?, description = ?, date = ?, time = ?, type = ?,
    updated_at = CURRENT_TIMESTAMP] on one row. *)
Definition overwrite (now : Z) (a : accepted) (e : Event.t) : Event.t :=
  {| Event.id := Event.id e;
     Event.title := a_title a;
     Event.description := a_description a;
     Event.date := Sqlite.numeric (a_date a);
     Event.time := Sqlite.numeric (a_time a);
     Event.type := a_type a;
     Event.created_by := Event.created_by e;
     Event.created_at := Event.created_at e;
     Event.updated_at := Clock.CURRENT_TIMESTAMP now |}.

(** [UPDATE events SET ... WHERE id = ?].  The constraints are checked on
    the rows the statement touches; when it touches none, [this.changes] is
    0 and the promise is rejected with [new Error('Event not found')].
    Resolves to [{ id: eventId, title, description, date, time, type }]. *)
Definition updateEvent (err : option Sqlite.fault) (now : Z) (db : store)
    (eventId : Z) (eventData : Event.data) : promise (Z * accepted) * store :=
  run err db
    (if existsb (fun e => Event.id e =? eventId) (events db) then
       match constraints eventData with
       | inl c => (Rejected (Sqlite.Constraint c), db)
       | inr a =>
           (Resolved (eventId, a),
            with_events db
              (map (fun e => if Event.id e =? eventId
                             then overwrite now a e else e) (events db))
              (seq_events db))
       end
     else (Rejected Sqlite.EventNotFound, db)).

(** [DELETE FROM events WHERE id = ?] *)
Definition deleteEvent (err : option Sqlite.fault) (db : store)
    (eventId : Z) : promise unit * store :=
  run err db
    (if existsb (fun e => Event.id e =? eventId) (events db) then
       (Resolved tt,
        with_events db
          (filter (fun e => negb (Event.id e =? eventId)) (events db))
          (seq_events db))
     else (Rejected Sqlite.EventNotFound, db)).

(** [SELECT ... FROM events e LEFT JOIN users u ON e.created_by = u.id
    WHERE e.type = ? ORDER BY e.date ASC, e.time ASC] *)
Definition getEventsByType (err : option Sqlite.fault) (db : store)
    (type : string) : promise (list Event.listed) * store :=
  run err db
    (Resolved
       (order_by_date_time
          (filter (fun r => (Event.type (Event.event r) =? type)%string)
             (flat_map (left_join (users db)) (events db)))),
     db).

(** *** Maintenance *)

(** The [WHERE] clause of the sweep. *)
Definition expired (now : Z) (s : Session.t) : bool :=
  Sqlite.text_le (Session.expires_at s) (Clock.CURRENT_TIMESTAMP now).

(** [DELETE FROM sessions WHERE expires_at <= CURRENT_TIMESTAMP]; resolves
    to [this.changes]. *)
Definition cleanupExpiredSessions (err : option Sqlite.fault) (now : Z)
    (db : store) : promise Z * store :=
  run err db
    (Resolved (Z.of_nat (List.length (filter (expired now) (sessions db)))),
     with_sessions db
       (filter (fun s => negb (expired now s)) (sessions db))
       (seq_sessions db)).

End Methods.

End Database.

(** ** The Express handlers of [server.js] *)

Module Server.

Section Handlers.

Context {bcrypt : Bcrypt} {numbers : Sqlite.Numbers}.

(** [res.status(st).json(b)]; [res.json(b)] answers 200. *)
Definition respond (st : Z) (b : json) : response :=
  {| status := st; body := b |}.

Definition error (m : string) : json := JObj [("error", JStr m)].

(** The text of a value that was found truthy. *)
Definition str (x : option string) : string :=
  match x with Some s => s | None => "" end.

(** [req.user] *)
Record reqUser := {
  ru_id : Z;
  ru_username : string;
  ru_fullName : string;
  ru_role : string
}.

Definition reqUser_json (u : reqUser) : json :=
  JObj [("id", JNum (ru_id u)); ("username", JStr (ru_username u));
        ("fullName", JStr (ru_fullName u)); ("role", JStr (ru_role u))].

(** A middleware either answers the request or calls [next()]. *)
Inductive gate :=
| Respond (r : response)
| Next (user : reqUser).

(** [authenticateAdmin], on the value of [req.headers.authorization]. *)
Definition authenticateAdmin (err : option Sqlite.fault) (now : Z)
    (db : store) (authorization : option string) : gate :=
  if negb (Js.truthy authorization)
     || negb (Js.startsWith (str authorization) "Bearer ")
  then Respond (respond 401 (error "Access denied. No token provided."))
  else
    let token := Js.substring 7 (str authorization) in
    match fst (Database.validateSession err now db token) with
    | Resolved (Some session) =>
        Next {| ru_id := Session.user_id (Session.session session);
                ru_username := Session.username session;
                ru_fullName := Session.full_name session;
                ru_role := Session.role session |}
    | Resolved None =>
        Respond (respond 401 (error "Invalid or expired token."))
    | Rejected _ => Respond (respond 500 (error "Authentication failed"))
    end.

(** *** Authentication routes *)

Record registerBody := {
  r_fullName : option string;
  r_email : option string;
  r_username : option string;
  r_password : option string
}.

(** [POST /api/auth/register] *)
Definition post_register (err : option Sqlite.fault) (now : Z)
    (salt : string) (db : store) (b : registerBody) : response * store :=
  if negb (Js.truthy (r_fullName b)) || negb (Js.truthy (r_email b))
     || negb (Js.truthy (r_username b)) || negb (Js.truthy (r_password b))
  then (respond 400 (error "All fields are required"), db)
  else if Js.length (str (r_password b)) <? 6
  then (respond 400 (error "Password must be at least 6 characters long"), db)
  else
    match Database.createUser err now salt db
            {| Database.ud_username := str (r_username b);
               Database.ud_email := str (r_email b);
               Database.ud_password := str (r_password b);
               Database.ud_fullName := str (r_fullName b) |} with
    | (Resolved user, db') =>
        (respond 201
           (JObj [("success", JBool true);
                  ("message", JStr "Account created successfully");
                  ("user",
                   JObj [("id", JNum (Database.cu_id user));
                         ("username", JStr (Database.cu_username user));
                         ("email", JStr (Database.cu_email user));
                         ("fullName", JStr (Database.cu_fullName user))])]),
         db')
    | (Rejected e, db') =>
        (if Js.includes (Sqlite.message e) "UNIQUE constraint failed" then
           if Js.includes (Sqlite.message e) "username"
           then respond 400 (error "Username already exists")
           else if Js.includes (Sqlite.message e) "email"
           then respond 400 (error "Email already exists")
           else respond 400 (error "User already exists")
         else respond 500 (error "Registration failed"),
         db')
    end.

Record loginBody := {
  l_username : option string;
  l_password : option json
}.

(** The value of a field that was found truthy. *)
Definition val (x : option json) : json :=
  match x with Some j => j | None => JNull end.

(** [POST /api/auth/login]; [token] is what [generateToken()] draws, the
    three [err] inputs are those of the select, of the [last_login] stamp and
    of the session insert.  The answer is [None] when the request is never
    answered: the promise of [validateUser] stays pending, which the
    [try]/[catch] of the handler does not see. *)
Definition post_login (err err_stamp err_insert : option Sqlite.fault)
    (now : Z) (token : string) (db : store) (b : loginBody)
    : option response * store :=
  if negb (Js.truthy (l_username b)) || negb (Js.truthy_json (l_password b))
  then (Some (respond 400 (error "Username and password are required")), db)
  else
    match Database.validateUser err err_stamp now db
            (str (l_username b)) (val (l_password b)) with
    | (Pending, db1) => (None, db1)
    | (Settled (Rejected _), db1) =>
        (Some (respond 500 (error "Login failed")), db1)
    | (Settled (Resolved None), db1) =>
        (Some (respond 401 (error "Invalid credentials")), db1)
    | (Settled (Resolved (Some user)), db1) =>
        let expiresAt := now + 24 * 60 * 60 * 1000 in
        match Database.createSession err_insert now db1 (User.id user) token
                (Clock.toISOString expiresAt) with
        | (Rejected _, db2) => (Some (respond 500 (error "Login failed")), db2)
        | (Resolved _, db2) =>
            (Some
               (respond 200
                  (JObj [("success", JBool true);
                         ("token", JStr token);
                         ("user",
                          JObj [("id", JNum (User.id user));
                                ("username", JStr (User.username user));
                                ("fullName", JStr (User.full_name user));
                                ("email", JStr (User.email user))]);
                         ("message", JStr "Login successful")])),
             db2)
        end
    end.

(** A route behind [authenticateAdmin]. *)
Definition protected (err_gate : option Sqlite.fault) (now : Z) (db : store)
    (authorization : option string) (handler : reqUser -> response * store)
    : response * store :=
  match authenticateAdmin err_gate now db authorization with
  | Respond r => (r, db)
  | Next user => handler user
  end.

(** [GET /api/auth/verify] *)
Definition get_verify (err_gate : option Sqlite.fault) (now : Z) (db : store)
    (authorization : option string) : response * store :=
  protected err_gate now db authorization
    (fun user =>
       (respond 200
          (JObj [("success", JBool true); ("message", JStr "Token is valid");
                 ("user", reqUser_json user)]),
        db)).

(** [POST /api/auth/logout] *)
Definition post_logout (err_gate err : option Sqlite.fault) (now : Z)
    (db : store) (authorization : option string) : response * store :=
  protected err_gate now db authorization
    (fun _ =>
       let token := Js.substring 7 (str authorization) in
       match Database.deleteSession err db token with
       | (Resolved _, db') =>
           (respond 200
              (JObj [("success", JBool true);
                     ("message", JStr "Logged out successfully")]),
            db')
       | (Rejected _, db') => (respond 500 (error "Logout failed"), db')
       end).

(** *** Event routes *)

Definition listed_json (r : Event.listed) : json :=
  let e := Event.event r in
  JObj [("id", JNum (Event.id e)); ("title", JStr (Event.title e));
        ("description", JStr (Event.description e));
        ("date", Sqlite.value_json (Event.date e));
        ("time", Sqlite.value_json (Event.time e));
        ("type", JStr (Event.type e));
        ("created_by", jint (Event.created_by e));
        ("created_at", JStr (Event.created_at e));
        ("updated_at", JStr (Event.updated_at e));
        ("created_by_username", jtext (Event.created_by_username r))].

(** [GET /api/events], which takes no token. *)
Definition get_events (err : option Sqlite.fault) (db : store)
    : response * store :=
  match Database.getAllEvents err db with
  | (Resolved events, db') => (respond 200 (JArr (map listed_json events)), db')
  | (Rejected _, db') => (respond 500 (error "Failed to fetch events"), db')
  end.

(** [GET /api/events/type/:type], which takes no token either. *)
Definition get_events_type (err : option Sqlite.fault) (db : store)
    (type : string) : response * store :=
  match Database.getEventsByType err db type with
  | (Resolved events, db') => (respond 200 (JArr (map listed_json events)), db')
  | (Rejected _, db') => (respond 500 (error "Failed to fetch events"), db')
  end.

Definition accepted_fields (a : Database.accepted) : list (string * json) :=
  [("title", JStr (Database.a_title a));
   ("description", JStr (Database.a_description a));
   ("date", JStr (Database.a_date a)); ("time", JStr (Database.a_time a));
   ("type", JStr (Database.a_type a))].

(** [POST /api/events] *)
Definition post_events (err_gate err : option Sqlite.fault) (now : Z)
    (db : store) (authorization : option string) (b : Event.data)
    : response * store :=
  protected err_gate now db authorization
    (fun user =>
       match Database.createEvent err now db b (ru_id user) with
       | (Resolved event, db') =>
           (respond 201
              (JObj (("id", JNum (Database.ce_id event))
                     :: accepted_fields (Database.ce_data event)
                     ++ [("created_by", JNum (Database.ce_created_by event));
                         ("created_at",
                          JStr (Database.ce_created_at event))])),
            db')
       | (Rejected _, db') =>
           (respond 500 (error "Failed to create event"), db')
       end).

(** [PUT /api/events/:id]; [id] is the rowid the URL parameter spells. *)
Definition put_events (err_gate err : option Sqlite.fault) (now : Z)
    (db : store) (authorization : option string) (id : Z) (b : Event.data)
    : response * store :=
  protected err_gate now db authorization
    (fun _ =>
       match Database.updateEvent err now db id b with
       | (Resolved (eventId, a), db') =>
           (respond 200 (JObj (("id", JNum eventId) :: accepted_fields a)),
            db')
       | (Rejected e, db') =>
           (if (Sqlite.message e =? "Event not found")%string
            then respond 404 (error "Event not found")
            else respond 500 (error "Failed to update event"),
            db')
       end).

(** [DELETE /api/events/:id] *)
Definition delete_events (err_gate err : option Sqlite.fault) (now : Z)
    (db : store) (authorization : option string) (id : Z)
    : response * store :=
  protected err_gate now db authorization
    (fun _ =>
       match Database.deleteEvent err db id with
       | (Resolved _, db') =>
           (respond 200 (JObj [("message", JStr "Event deleted successfully")]),
            db')
       | (Rejected e, db') =>
           (if (Sqlite.message e =? "Event not found")%string
            then respond 404 (error "Event not found")
            else respond 500 (error "Failed to delete event"),
            db')
       end).

(** *** Background task *)

(** The hourly [setInterval] callback: the sweep, whose count is only
    logged and whose failure is only logged. *)
Definition cleanup_task (err : option Sqlite.fault) (now : Z) (db : store)
    : store :=
  snd (Database.cleanupExpiredSessions err now db).

End Handlers.

End Server.

(** ** Vocabulary of the statements *)

Section Vocabulary.

Context {bcrypt : Bcrypt} {numbers : Sqlite.Numbers}.

(** The three ways an attempt can fail to match an identity. *)
Definition unknown_username (db : store) (username : string) : Prop :=
  forall u, In u (users db) -> User.username u <> username.

Definition inactive_identity (db : store) (username : string) : Prop :=
  forall u, In u (users db) -> User.username u = username ->
            User.is_active u <> 1.

Definition wrong_password (db : store) (username password : string) : Prop :=
  forall u, In u (users db) -> User.username u = username ->
            compare password (User.password_hash u) = false.

Definition no_match (db : store) (username password : string) : Prop :=
  unknown_username db username \/ inactive_identity db username
  \/ wrong_password db username password.

(** An attempt whose two fields are non-empty strings. *)
Definition supplies (b : Server.loginBody) (username password : string)
    : Prop :=
  Server.l_username b = Some username /\ username <> ""
  /\ Server.l_password b = Some (JStr password) /\ password <> "".

Definition InvalidCredentials : response :=
  Server.respond 401 (Server.error "Invalid credentials").

Definition ValidationError : response :=
  Server.respond 400 (Server.error "Username and password are required").

(** The rows of [users] before and after the [last_login] stamp of the
    identity [id], pairwise: a row under another id is the same row; the row
    under [id] has [last_login] set to [now] and every other column as it
    was. *)
Definition stamped (now id : Z) (u u' : User.t) : Prop :=
  (User.id u <> id /\ u' = u)
  \/ (User.id u = id /\ User.id u' = id
      /\ User.username u' = User.username u
      /\ User.email u' = User.email u
      /\ User.password_hash u' = User.password_hash u
      /\ User.full_name u' = User.full_name u
      /\ User.role u' = User.role u
      /\ User.created_at u' = User.created_at u
      /\ User.is_active u' = User.is_active u
      /\ User.last_login u' = Some (Clock.CURRENT_TIMESTAMP now)).

(** The rows of [events] before and after an update, pairwise: a row under
    another id is the same row; a row under [id] keeps its id, creator and
    creation time, holds the five bound values (the date and the time as
    their columns store them), and is stamped [now]. *)
Definition updated (now id : Z) (d : Event.data) (e e' : Event.t) : Prop :=
  (Event.id e <> id /\ e' = e)
  \/ (Event.id e = id /\ Event.id e' = id
      /\ Event.created_by e' = Event.created_by e
      /\ Event.created_at e' = Event.created_at e
      /\ Event.d_title d = Some (Event.title e')
      /\ Event.d_description d = Some (Event.description e')
      /\ option_map Sqlite.numeric (Event.d_date d) = Some (Event.date e')
      /\ option_map Sqlite.numeric (Event.d_time d) = Some (Event.time e')
      /\ Event.d_type d = Some (Event.type e')
      /\ Event.updated_at e' = Clock.CURRENT_TIMESTAMP now).

(** Date ascending, then time ascending, in the order of the stored
    values. *)
Definition date_then_time (a b : Event.listed) : Prop :=
  Sqlite.value_compare (Event.date (Event.event a))
    (Event.date (Event.event b)) = Lt
  \/ (Sqlite.value_compare (Event.date (Event.event a))
        (Event.date (Event.event b)) = Eq
      /\ Sqlite.value_compare (Event.time (Event.event a))
           (Event.time (Event.event b)) <> Gt).

(** An event whose date and time are held as text. *)
Definition held_as_text (e : Event.t) : Prop :=
  exists date time,
    Event.date e = Sqlite.Text date /\ Event.time e = Sqlite.Text time.

(** Date ascending, then time ascending, both compared as text, character
    by character. *)
Definition lexicographic (a b : Event.listed) : Prop :=
  exists date_a time_a date_b time_b,
    Event.date (Event.event a) = Sqlite.Text date_a
    /\ Event.time (Event.event a) = Sqlite.Text time_a
    /\ Event.date (Event.event b) = Sqlite.Text date_b
    /\ Event.time (Event.event b) = Sqlite.Text time_b
    /\ (String.compare date_a date_b = Lt
        \/ (date_a = date_b /\ String.compare time_a time_b <> Gt)).

(** The creator's username of an event, when a user row has that id. *)
Definition creator_username (us : list User.t) (e : Event.t)
    : option string :=
  option_map User.username (find (Database.creator e) us).

Definition with_creator (us : list User.t) (e : Event.t) : Event.listed :=
  {| Event.event := e; Event.created_by_username := creator_username us e |}.

(** What the schema promises of the file: the primary keys, the [UNIQUE]
    columns, the [CHECK] on the event type, and the [AUTOINCREMENT]
    counters, which no rowid in use exceeds. *)
Record consistent (db : store) : Prop := {
  users_key : NoDup (map User.id (users db));
  users_unique_username : NoDup (map User.username (users db));
  users_unique_email : NoDup (map User.email (users db));
  users_sequence : Forall (fun u => User.id u <= seq_users db) (users db);
  sessions_key : NoDup (map Session.id (sessions db));
  sessions_unique_token : NoDup (map Session.token (sessions db));
  sessions_sequence :
    Forall (fun s => Session.id s <= seq_sessions db) (sessions db);
  events_key : NoDup (map Event.id (events db));
  events_check :
    Forall (fun e => In (Event.type e) Database.EVENT_TYPES) (events db);
  events_sequence : Forall (fun e => Event.id e <= seq_events db) (events db)
}.

End Vocabulary.

(** ** A concrete deployment, for running the handlers

    A stand-in for bcrypt that keeps the shape of its interface (the salt
    enters the digest, the comparison recomputes it from the stored text), and
    the database file as it is after the bootstrap seeded the administrator. *)

Module Demo.

Fixpoint ends_with (s suffix : string) : bool :=
  (s =? suffix)%string ||
  match s with
  | EmptyString => false
  | String _ s' => ends_with s' suffix
  end.

Definition demo_hash (data : string) (rounds : Z) (salt : string) : string :=
  "$2b$10$" ++ salt ++ "$" ++ data.

Definition demo_compare (data encrypted : string) : bool :=
  ends_with encrypted ("$" ++ data).

Lemma length_append (a b : string) :
  String.length (a ++ b) = (String.length a + String.length b)%nat.
Proof.
  induction a as [|c a IH]; simpl; [reflexivity | now rewrite IH].
Qed.

Lemma demo_hash_one_way (data : string) (rounds : Z) (salt : string) :
  demo_hash data rounds salt <> data.
Proof.
  intro H. apply (f_equal String.length) in H.
  unfold demo_hash in H.
  rewrite (length_append "$2b$10$"), (length_append salt) in H.
  simpl in H. lia.
Qed.

Definition bcrypt : Bcrypt :=
  {| hash := demo_hash; compare := demo_compare;
     hash_one_way := demo_hash_one_way |}.

(** A stand-in for SQLite's reading of numeric literals, exact on integer
    literals: the integer the leading digits spell, with its sign. *)
Fixpoint leading_digits (acc : Z) (s : string) : Z :=
  match s with
  | String c s' =>
      if Sqlite.is_digit c
      then leading_digits (10 * acc + Z.of_nat (nat_of_ascii c - 48)) s'
      else acc
  | EmptyString => acc
  end.

Definition demo_number (literal : string) : Z :=
  match Sqlite.skip Sqlite.is_space literal with
  | String "-" s' => - leading_digits 0 s'
  | s => leading_digits 0 (Sqlite.skip_sign s)
  end.

Lemma demo_number_antisym (a b : string) :
  (demo_number b ?= demo_number a) = CompOpp (demo_number a ?= demo_number b).
Proof. apply Z.compare_antisym. Qed.

Lemma demo_number_trans (a b c : string) :
  (demo_number a ?= demo_number b) <> Gt ->
  (demo_number b ?= demo_number c) <> Gt ->
  (demo_number a ?= demo_number c) <> Gt.
Proof. rewrite !Z.compare_le_iff. lia. Qed.

Definition numbers : Sqlite.Numbers :=
  {| Sqlite.number_compare := fun a b => demo_number a ?= demo_number b;
     Sqlite.number_json := fun a => JNum (demo_number a);
     Sqlite.number_compare_antisym := demo_number_antisym;
     Sqlite.number_compare_trans := demo_number_trans |}.

Definition admin : User.t :=
  {| User.id := 1;
     User.username := "admin";
     User.email := "admin@boxo.com";
     User.password_hash := demo_hash "boxo2025" 10 "N9qo8uLOickgx2ZMRZoMye";
     User.full_name := "System Administrator";
     User.role := "admin";
     User.created_at := "2025-08-31 08:00:00";
     User.last_login := None;
     User.is_active := 1 |}.

Definition seeded : store :=
  {| users := [admin]; events := []; sessions := [];
     seq_users := 1; seq_events := 0; seq_sessions := 0 |}.

Definition credentials : Server.loginBody :=
  {| Server.l_username := Some "admin";
     Server.l_password := Some (JStr "boxo2025") |}.

(** Two attempts with a password that is not the administrator's. *)
Definition wrong_attempt : Server.loginBody :=
  {| Server.l_username := Some "admin";
     Server.l_password := Some (JStr "letmein") |}.

Definition empty_attempt : Server.loginBody :=
  {| Server.l_username := Some "admin"; Server.l_password := Some (JStr "") |}.

(** An attempt under a username no identity has. *)
Definition unknown_attempt : Server.loginBody :=
  {| Server.l_username := Some "nobody";
     Server.l_password := Some (JStr "boxo2025") |}.

(** Two attempts whose password is the number 123456. *)
Definition numeric_attempt : Server.loginBody :=
  {| Server.l_username := Some "admin";
     Server.l_password := Some (JNum 123456) |}.

Definition numeric_unknown_attempt : Server.loginBody :=
  {| Server.l_username := Some "nobody";
     Server.l_password := Some (JNum 123456) |}.

Definition token : string :=
  "9f86d081884c7d659a2feaa0c55ad015a3bf4f1b2b0b822cd15d6c15b0f00a08".

(** 2025-09-01T09:00:00.000Z *)
Definition t0 : Z := 1756717200000.

(** The file after the administrator logged in at [t0]. *)
Definition logged_in : store :=
  snd (@Server.post_login bcrypt None None None t0 token seeded credentials).

(** The answer to that login. *)
Definition welcome : response :=
  Server.respond 200
    (JObj [("success", JBool true); ("token", JStr token);
           ("user", JObj [("id", JNum 1); ("username", JStr "admin");
                          ("fullName", JStr "System Administrator");
                          ("email", JStr "admin@boxo.com")]);
           ("message", JStr "Login successful")]).

(** The row that login wrote. *)
Definition session : Session.t :=
  {| Session.id := 1; Session.user_id := 1; Session.token := token;
     Session.expires_at := "2025-09-02T09:00:00.000Z";
     Session.created_at := "2025-09-01 09:00:00" |}.

Definition authorization : option string := Some ("Bearer " ++ token).

Definition quiz : Event.data :=
  {| Event.d_title := Some "Quiz"; Event.d_description := Some "Ch.1";
     Event.d_date := Some "2025-09-01"; Event.d_time := Some "09:00";
     Event.d_type := Some "assignment" |}.

(** A create request that leaves the type out, and one that names an
    unlisted type and leaves the title out. *)
Definition untyped : Event.data :=
  {| Event.d_title := Some "Quiz"; Event.d_description := Some "Ch.1";
     Event.d_date := Some "2025-09-01"; Event.d_time := Some "09:00";
     Event.d_type := None |}.

Definition untitled_party : Event.data :=
  {| Event.d_title := None; Event.d_description := Some "Ch.1";
     Event.d_date := Some "2025-09-01"; Event.d_time := Some "09:00";
     Event.d_type := Some "party" |}.

Definition party : Event.data :=
  {| Event.d_title := Some "Quiz"; Event.d_description := Some "Ch.1";
     Event.d_date := Some "2025-09-01"; Event.d_time := Some "09:00";
     Event.d_type := Some "party" |}.

(** An update that renames an event and gives it an unlisted type. *)
Definition new_year_party : Event.data :=
  {| Event.d_title := Some "Party"; Event.d_description := Some "New year";
     Event.d_date := Some "2025-12-31"; Event.d_time := Some "23:00";
     Event.d_type := Some "party" |}.

(** Two create requests whose date spells a number. *)
Definition dated (date : string) : Event.data :=
  {| Event.d_title := Some "Quiz"; Event.d_description := Some "Ch.1";
     Event.d_date := Some date; Event.d_time := Some "09:00";
     Event.d_type := Some "webinar" |}.

Definition event (id : Z) (date time : string) (created_by : option Z)
    : Event.t :=
  {| Event.id := id; Event.title := "Quiz"; Event.description := "Ch.1";
     Event.date := Sqlite.Text date; Event.time := Sqlite.Text time;
     Event.type := "webinar";
     Event.created_by := created_by;
     Event.created_at := "2025-08-31 08:00:00";
     Event.updated_at := "2025-08-31 08:00:00" |}.

(** Three events out of date order: one by the administrator, one whose
    creator id names no user, one without a creator. *)
Definition with_events : store :=
  {| users := users logged_in;
     events := [event 1 "2025-09-03" "10:00" (Some 1);
                event 2 "2025-09-01" "14:30" (Some 7);
                event 3 "2025-09-01" "09:00" None];
     sessions := sessions logged_in;
     seq_users := 1; seq_events := 3; seq_sessions := 1 |}.

(** The file after the administrator created an event dated "10" and then
    one dated "9". *)
Definition numbered : store :=
  snd (Server.post_events None None (t0 + 120000)
         (snd (Server.post_events None None (t0 + 60000) logged_in
                 authorization (dated "10")))
         authorization (dated "9")).

Definition alice : Server.registerBody :=
  {| Server.r_fullName := Some "Alice A"; Server.r_email := Some "a@x.com";
     Server.r_username := Some "alice"; Server.r_password := Some "secret1" |}.

(** Alice registers at [t0], logs in a minute later, creates the quiz,
    lists the events, tries to delete the quiz under another token and then
    deletes it under her own: the status of each answer, and the events left
    in the end. *)
Definition scenario : list (option Z) * list Event.t :=
  let '(r1, db1) :=
    @Server.post_register bcrypt None t0 "N9qo8uLOickgx2ZMRZoMye" seeded
      alice in
  let '(r2, db2) :=
    @Server.post_login bcrypt None None None (t0 + 60000) token db1
      {| Server.l_username := Some "alice";
         Server.l_password := Some (JStr "secret1") |} in
  let '(r3, db3) :=
    Server.post_events None None (t0 + 120000) db2 authorization quiz in
  let '(r4, db4) := @Server.get_events numbers None db3 in
  let '(r5, db5) :=
    Server.delete_events None None (t0 + 180000) db4 (Some "Bearer 00") 1 in
  let '(r6, db6) :=
    Server.delete_events None None (t0 + 180000) db5 authorization 1 in
  (map (option_map status) [Some r1; r2; Some r3; Some r4; Some r5; Some r6],
   events db6).

End Demo.

(** * Properties *)

(** ** The order on TEXT values *)

Lemma ascii_compare_refl (c : ascii) : Ascii.compare c c = Eq.
Proof. unfold Ascii.compare. apply N.compare_refl. Qed.

Lemma compare_refl (s : string) : String.compare s s = Eq.
Proof.
  induction s as [|c s IH]; simpl; [reflexivity|].
  now rewrite ascii_compare_refl.
Qed.

(** A common prefix does not take part in the comparison. *)
Lemma compare_common_prefix (p a b : string) :
  String.compare (p ++ a) (p ++ b) = String.compare a b.
Proof.
  induction p as [|c p IH]; simpl; [reflexivity|].
  now rewrite ascii_compare_refl.
Qed.

(** The two timestamp forms part at their eleventh character, where the
    ISO form has the letter T and SQLite's form a blank: on one calendar
    day every ISO timestamp is above every SQLite timestamp, whatever the
    two times of day are. *)
Lemma iso_above_timestamp_of_same_day (e t : Z) :
  Clock.four_digit_year e = true ->
  t / Clock.MS_PER_DAY = e / Clock.MS_PER_DAY ->
  Sqlite.text_gt (Clock.toISOString e) (Clock.CURRENT_TIMESTAMP t) = true.
Proof.
  intros Hyear Hday.
  unfold Sqlite.text_gt, String.ltb, Clock.CURRENT_TIMESTAMP, Clock.toISOString.
  unfold Clock.four_digit_year in Hyear.
  rewrite Hday.
  destruct (Clock.civil_from_days (e / Clock.MS_PER_DAY)) as [[y m] d].
  rewrite Hyear.
  rewrite compare_common_prefix. reflexivity.
Qed.

Lemma iso_not_below_timestamp_of_same_day (e t : Z) :
  Clock.four_digit_year e = true ->
  t / Clock.MS_PER_DAY = e / Clock.MS_PER_DAY ->
  Sqlite.text_le (Clock.toISOString e) (Clock.CURRENT_TIMESTAMP t) = false.
Proof.
  intros Hyear Hday.
  pose proof (iso_above_timestamp_of_same_day e t Hyear Hday) as H.
  unfold Sqlite.text_gt, String.ltb in H. unfold Sqlite.text_le, String.leb.
  rewrite String.compare_antisym.
  destruct (String.compare (Clock.CURRENT_TIMESTAMP t) (Clock.toISOString e));
    simpl; congruence.
Qed.

(** ** Inversion of the statements *)

Section Inversion.

Context {bcrypt : Bcrypt}.

Lemma hd_error_In {A : Type} (l : list A) (x : A) :
  hd_error l = Some x -> In x l.
Proof. destruct l; simpl; [discriminate | intros [= ->]; now left]. Qed.

Lemma In_hd_error {A : Type} (l : list A) (x : A) :
  In x l -> exists y, hd_error l = Some y.
Proof. destruct l as [|y l]; simpl; [contradiction | now exists y]. Qed.

Lemma filter_head_In {A : Type} (f : A -> bool) (l rest : list A) (x : A) :
  filter f l = x :: rest -> In x l /\ f x = true.
Proof.
  intro H. apply filter_In. rewrite H. now left.
Qed.

(** The [last_login] stamp touches nothing but [last_login]. *)
Lemma stamp_last_login_frame (now id : Z) (u : User.t) :
  let u' := Database.stamp_last_login now id u in
  User.id u' = User.id u /\ User.username u' = User.username u
  /\ User.email u' = User.email u
  /\ User.password_hash u' = User.password_hash u
  /\ User.full_name u' = User.full_name u /\ User.role u' = User.role u
  /\ User.created_at u' = User.created_at u
  /\ User.is_active u' = User.is_active u.
Proof.
  unfold Database.stamp_last_login.
  destruct (User.id u =? id); simpl; repeat split; reflexivity.
Qed.

(** What a successful [validateUser] tells: the row it resolves to is an
    active row of the table under that username whose digest matches, and
    the file afterwards differs at most by the stamp. *)
Lemma validateUser_resolved_some err err_stamp now db username password
    user db1 :
  Database.validateUser err err_stamp now db username password
    = (Settled (Resolved (Some user)), db1) ->
  In user (users db) /\ User.username user = username
  /\ User.is_active user = 1
  /\ Database.password_check password (User.password_hash user) = Some true
  /\ events db1 = events db /\ sessions db1 = sessions db
  /\ seq_sessions db1 = seq_sessions db
  /\ (users db1 = users db
      \/ users db1
         = map (Database.stamp_last_login now (User.id user)) (users db)).
Proof.
  unfold Database.validateUser.
  destruct err; [discriminate|].
  destruct (filter _ (users db)) as [|u rest] eqn:Hf; [discriminate|].
  destruct (Database.password_check password (User.password_hash u))
    as [[|]|] eqn:Hc; try discriminate.
  intros [= -> <-].
  apply filter_head_In in Hf. destruct Hf as [Hin Hcond].
  apply andb_true_iff in Hcond. destruct Hcond as [Hname Hact].
  apply String.eqb_eq in Hname. apply Z.eqb_eq in Hact.
  repeat split; try assumption;
    destruct err_stamp; simpl; auto.
Qed.

(** Without a row to match, or with a digest that does not, [validateUser]
    resolves to null and writes nothing. *)
Lemma validateUser_resolved_none err_stamp now db username password :
  (forall u, In u (users db) -> User.username u = username ->
             User.is_active u = 1 ->
             Database.password_check password (User.password_hash u)
             = Some false) ->
  Database.validateUser None err_stamp now db username password
    = (Settled (Resolved None), db).
Proof.
  intro Hrej. unfold Database.validateUser.
  destruct (filter _ (users db)) as [|u rest] eqn:Hf; [reflexivity|].
  apply filter_head_In in Hf. destruct Hf as [Hin Hcond].
  apply andb_true_iff in Hcond. destruct Hcond as [Hname Hact].
  apply String.eqb_eq in Hname. apply Z.eqb_eq in Hact.
  now rewrite (Hrej u Hin Hname Hact).
Qed.

(** A check that does not resolve to an identity writes nothing. *)
Lemma validateUser_no_identity err err_stamp now db username password
    outcome db1 :
  Database.validateUser err err_stamp now db username password
    = (outcome, db1) ->
  (forall user, outcome <> Settled (Resolved (Some user))) ->
  db1 = db.
Proof.
  intros Hv Hnone. unfold Database.validateUser in Hv.
  destruct err; [now injection Hv as _ <-|].
  destruct (filter _ (users db)) as [|u rest];
    [now injection Hv as _ <-|].
  destruct (Database.password_check password (User.password_hash u))
    as [[|]|]; try (now injection Hv as _ <-).
  injection Hv as <- _. now destruct (Hnone u).
Qed.

Lemma createSession_resolved err now db userId token expiresAt k db' :
  Database.createSession err now db userId token expiresAt
    = (Resolved k, db') ->
  users db' = users db /\ events db' = events db
  /\ (forall s, In s (sessions db) -> Session.token s <> token)
  /\ exists row,
       sessions db' = (sessions db ++ [row])%list
       /\ Session.user_id row = userId /\ Session.token row = token
       /\ Session.expires_at row = expiresAt.
Proof.
  unfold Database.createSession, Database.run.
  destruct err; [discriminate|].
  destruct (existsb _ (sessions db)) eqn:Hex; [discriminate|].
  intros [= <- <-]. simpl. repeat split.
  - intros s Hin Htok.
    assert (existsb (fun s => (Session.token s =? token)%string) (sessions db)
            = true) as Habs.
    { apply existsb_exists. exists s. split; [assumption|].
      now apply String.eqb_eq. }
    congruence.
  - eexists. split; [reflexivity|]. simpl. auto.
Qed.

(** What a 200 from the login handler tells. *)
Lemma post_login_200 err err_stamp err_insert now token db b resp db' :
  Server.post_login err err_stamp err_insert now token db b
  = (Some resp, db') ->
  status resp = 200 ->
  exists user db1 k,
    Database.validateUser err err_stamp now db
      (Server.str (Server.l_username b)) (Server.val (Server.l_password b))
      = (Settled (Resolved (Some user)), db1)
    /\ Database.createSession err_insert now db1 (User.id user) token
         (Clock.toISOString (now + 24 * 60 * 60 * 1000))
       = (Resolved k, db').
Proof.
  unfold Server.post_login.
  destruct (_ || _); [intros [= <- _]; discriminate|].
  destruct (Database.validateUser _ _ _ _ _ _) as [[[[user|]|e]|] db1] eqn:Hv;
    try (intros [= <- _]; discriminate); try discriminate.
  destruct (Database.createSession _ _ _ _ _ _) as [[k|e] db2] eqn:Hc;
    try (intros [= <- _]; discriminate).
  intros [= <- <-] _. now exists user, db1, k.
Qed.

End Inversion.

(** ** Session lifecycle *)

Section Sessions.

Context {bcrypt : Bcrypt}.

(** Every row [validateSession] can resolve to pairs a session row of the
    table that carries the token and passes the expiry test with a user. *)
Lemma session_rows_In now token db v :
  In v (Database.session_rows now token db) ->
  In (Session.session v) (sessions db)
  /\ Session.token (Session.session v) = token
  /\ Sqlite.text_gt (Session.expires_at (Session.session v))
       (Clock.CURRENT_TIMESTAMP now) = true.
Proof.
  unfold Database.session_rows. intro H.
  apply in_flat_map in H. destruct H as [s [Hs H]].
  apply in_flat_map in H. destruct H as [u [Hu H]].
  destruct (_ && _) eqn:Hcond; [|contradiction].
  destruct H as [<-|[]]. simpl.
  apply andb_true_iff in Hcond. destruct Hcond as [_ Hlive].
  unfold Database.live in Hlive.
  apply andb_true_iff in Hlive. destruct Hlive as [Hlive _].
  apply andb_true_iff in Hlive. destruct Hlive as [Htok Hexp].
  apply String.eqb_eq in Htok. auto.
Qed.

(** A session row whose owner is an active user is among the rows of the
    join as soon as it passes the expiry test. *)
Lemma session_rows_intro now token db s u :
  In s (sessions db) -> In u (users db) ->
  Session.user_id s = User.id u -> User.is_active u = 1 ->
  Session.token s = token ->
  Sqlite.text_gt (Session.expires_at s) (Clock.CURRENT_TIMESTAMP now) = true ->
  exists v, In v (Database.session_rows now token db)
            /\ Session.session v = s.
Proof.
  intros Hs Hu Hid Hact Htok Hexp.
  eexists. split.
  - unfold Database.session_rows.
    apply in_flat_map. exists s. split; [assumption|].
    apply in_flat_map. exists u. split; [assumption|].
    unfold Database.live.
    rewrite Hid, Z.eqb_refl, Htok, String.eqb_refl, Hexp, Hact. simpl.
    left. reflexivity.
  - reflexivity.
Qed.

(** After a successful login the owner of the new session is an active row
    of [users]. *)
Lemma login_owner_active err err_stamp now db username password user db1 :
  Database.validateUser err err_stamp now db username password
    = (Settled (Resolved (Some user)), db1) ->
  exists u, In u (users db1) /\ User.id u = User.id user
            /\ User.is_active u = 1.
Proof.
  intro Hv. apply validateUser_resolved_some in Hv.
  destruct Hv as (Hin & _ & Hact & _ & _ & _ & _ & [Hus|Hus]).
  - exists user. rewrite Hus. auto.
  - exists (Database.stamp_last_login now (User.id user) user).
    rewrite Hus. split; [now apply in_map|].
    pose proof (stamp_last_login_frame now (User.id user) user) as F.
    simpl in F. destruct F as (Fid & _ & _ & _ & _ & _ & _ & Fact).
    split; congruence.
Qed.

(** C1 (the code departs from the claim).  The claim: a token returned by
    login stops validating strictly after its expiry, creation + 24 hours,
    so that validate returns none at expiry + 1s.  The code: the expiry is
    stored in ISO form and tested as text against [CURRENT_TIMESTAMP], so the
    session of every successful login still validates at every instant [t]
    after its expiry that falls on the calendar day (UTC) of the expiry. *)
Theorem login_session_outlives_expiry
    err err_stamp err_insert now token db b resp db' t :
  Server.post_login err err_stamp err_insert now token db b
  = (Some resp, db') ->
  status resp = 200 ->
  Clock.four_digit_year (now + Clock.SESSION_LIFETIME) = true ->
  now + Clock.SESSION_LIFETIME < t ->
  t / Clock.MS_PER_DAY = (now + Clock.SESSION_LIFETIME) / Clock.MS_PER_DAY ->
  exists v,
    fst (Database.validateSession None t db' token) = Resolved (Some v)
    /\ Session.expires_at (Session.session v)
       = Clock.toISOString (now + Clock.SESSION_LIFETIME).
Proof.
  intros Hlogin H200 Hyear Hlate Hday.
  destruct (post_login_200 _ _ _ _ _ _ _ _ _ Hlogin H200)
    as (user & db1 & k & Hv & Hc).
  destruct (login_owner_active _ _ _ _ _ _ _ _ Hv) as (u & Hu & Huid & Hact).
  apply createSession_resolved in Hc.
  destruct Hc as (Husers & _ & Hfresh & row & Hrows & Hrid & Hrtok & Hrexp).
  change (24 * 60 * 60 * 1000) with Clock.SESSION_LIFETIME in Hrexp.
  assert (In row (sessions db')) as Hrow.
  { rewrite Hrows. apply in_or_app. right. now left. }
  destruct (session_rows_intro t token db' row u) as (v0 & Hv0 & _);
    try assumption; try congruence.
  { rewrite Hrexp. now apply iso_above_timestamp_of_same_day. }
  destruct (In_hd_error _ _ Hv0) as (v & Hhd).
  exists v. split.
  - unfold Database.validateSession, Database.run. simpl. now rewrite Hhd.
  - apply hd_error_In in Hhd. apply session_rows_In in Hhd.
    destruct Hhd as (Hs & Htok & _).
    rewrite Hrows in Hs. apply in_app_or in Hs. destruct Hs as [Hs|[<-|[]]].
    + exfalso. exact (Hfresh _ Hs Htok).
    + assumption.
Qed.

End Sessions.

(** ** Sweep and revocation *)

Lemma filter_all {A : Type} (f : A -> bool) (l : list A) :
  (forall x, In x l -> f x = true) -> filter f l = l.
Proof.
  induction l as [|x l IH]; simpl; intro H; [reflexivity|].
  rewrite (H x (or_introl eq_refl)). f_equal. apply IH. auto.
Qed.

Lemma filter_none {A : Type} (f : A -> bool) (l : list A) :
  (forall x, In x l -> f x = false) -> filter f l = [].
Proof.
  induction l as [|x l IH]; simpl; intro H; [reflexivity|].
  rewrite (H x (or_introl eq_refl)). apply IH. auto.
Qed.

Lemma filter_idempotent {A : Type} (f : A -> bool) (l : list A) :
  filter f (filter f l) = filter f l.
Proof.
  apply filter_all. intros x Hx. now apply filter_In in Hx.
Qed.

Lemma with_sessions_same (db : store) :
  with_sessions db (sessions db) (seq_sessions db) = db.
Proof. now destruct db. Qed.

(** The sweep as a statement: it removes the rows its [WHERE] clause
    selects, counts them, and touches neither the other rows nor the other
    tables; when the clause selects nothing the file is left as it was. *)
Lemma cleanupExpiredSessions_effect (now : Z) (db : store) :
  let db' := snd (Database.cleanupExpiredSessions None now db) in
  fst (Database.cleanupExpiredSessions None now db)
    = Resolved (Z.of_nat (List.length (sessions db))
                - Z.of_nat (List.length (sessions db')))
  /\ (forall s, In s (sessions db') <->
                In s (sessions db) /\ Database.expired now s = false)
  /\ users db' = users db /\ events db' = events db
  /\ ((forall s, In s (sessions db) -> Database.expired now s = false) ->
      Database.cleanupExpiredSessions None now db = (Resolved 0, db)).
Proof.
  unfold Database.cleanupExpiredSessions, Database.run. simpl.
  split; [|split; [|split; [|split]]].
  - f_equal.
    rewrite <- (filter_length (Database.expired now) (sessions db)). lia.
  - intro s. rewrite filter_In, negb_true_iff. tauto.
  - reflexivity.
  - reflexivity.
  - intro Hnone.
    rewrite (filter_none _ _ Hnone).
    rewrite filter_all.
    + simpl. now rewrite with_sessions_same.
    + intros s Hs. apply negb_true_iff. auto.
Qed.

(** C2 (the code departs from the claim).  The claim: the sweep deletes
    exactly the session rows whose expiry is at or before the current time.
    The code: the [WHERE] clause compares the stored ISO text with
    [CURRENT_TIMESTAMP] as text, so a session that expired earlier on the
    current calendar day (UTC) is not selected and survives the sweep; when
    the table holds only such sessions the sweep resolves to 0. *)
Theorem sweep_keeps_sessions_expired_today (now : Z) (db : store) :
  forall s e,
    In s (sessions db) ->
    Session.expires_at s = Clock.toISOString e ->
    Clock.four_digit_year e = true ->
    e <= now ->
    now / Clock.MS_PER_DAY = e / Clock.MS_PER_DAY ->
    Database.expired now s = false
    /\ In s (sessions (snd (Database.cleanupExpiredSessions None now db)))
    /\ (sessions db = [s] ->
        Database.cleanupExpiredSessions None now db = (Resolved 0, db)).
Proof.
  intros s e Hin Hexp Hyear Hpast Hday.
  assert (Database.expired now s = false) as Hkept.
  { unfold Database.expired. rewrite Hexp.
    now apply iso_not_below_timestamp_of_same_day. }
  pose proof (cleanupExpiredSessions_effect now db) as E. simpl in E.
  destruct E as (_ & Hrows & _ & _ & Hnoop).
  split; [assumption|]. split.
  - apply Hrows. auto.
  - intro Hone. apply Hnoop. intros s' Hs'. rewrite Hone in Hs'.
    destruct Hs' as [<-|[]]. assumption.
Qed.

(** C4.  Revoking a token and then validating it yields none, at any time;
    revoking a token no session row carries changes nothing and is not an
    error; a second revocation succeeds again and changes nothing.  The
    revocation removes exactly the rows carrying the token. *)
Theorem revoke_then_validate (now : Z) (db : store) (token : string) :
  let db' := snd (Database.deleteSession None db token) in
  fst (Database.deleteSession None db token) = Resolved tt
  /\ fst (Database.validateSession None now db' token) = Resolved None
  /\ ((forall s, In s (sessions db) -> Session.token s <> token) -> db' = db)
  /\ Database.deleteSession None db' token = (Resolved tt, db')
  /\ (forall s, In s (sessions db') <->
                In s (sessions db) /\ Session.token s <> token)
  /\ users db' = users db /\ events db' = events db.
Proof.
  unfold Database.deleteSession, Database.run. simpl.
  assert (forall s,
             In s (filter (fun s => negb (Session.token s =? token)%string)
                     (sessions db)) <->
             In s (sessions db) /\ Session.token s <> token) as Hrows.
  { intro s. rewrite filter_In, negb_true_iff, String.eqb_neq. tauto. }
  split; [reflexivity|].
  split; [|split; [|split; [|split; [|split]]]].
  - unfold Database.validateSession, Database.run. simpl.
    destruct (Database.session_rows now token _) as [|v rows] eqn:Hv;
      [reflexivity|].
    exfalso.
    assert (In v (v :: rows)) as Hin by now left.
    rewrite <- Hv in Hin. apply session_rows_In in Hin.
    destruct Hin as (Hs & Htok & _).
    simpl in Hs. apply Hrows in Hs. now destruct Hs.
  - intro Hnone. rewrite filter_all.
    + apply with_sessions_same.
    + intros s Hs. apply negb_true_iff, String.eqb_neq. auto.
  - unfold with_sessions. simpl. now rewrite filter_idempotent.
  - exact Hrows.
  - reflexivity.
  - reflexivity.
Qed.

(** ** The authorization gate *)

Lemma prefix_split (p s : string) :
  String.prefix p s = true -> s = p ++ Js.substring (String.length p) s.
Proof.
  revert s. induction p as [|a p IH]; intros s H; simpl.
  - reflexivity.
  - destruct s as [|b s]; simpl in H; [discriminate|].
    destruct (ascii_dec a b) as [->|]; [|discriminate].
    f_equal. now apply IH.
Qed.

Lemma prefix_append (p s : string) : String.prefix p (p ++ s) = true.
Proof.
  induction p as [|a p IH]; simpl.
  - now destruct s.
  - destruct (ascii_dec a a); [assumption | congruence].
Qed.

(** A header has the shape [Bearer <token>] exactly when it passes the
    test of the gate, and the gate then extracts that token. *)
Lemma bearer_shape (h : string) :
  Js.startsWith h "Bearer " = true <-> exists token, h = "Bearer " ++ token.
Proof.
  unfold Js.startsWith. split.
  - intro H. exists (Js.substring 7 h). exact (prefix_split "Bearer " h H).
  - intros [token ->]. apply prefix_append.
Qed.

(** The gate on a header of the right shape. *)
Lemma authenticateAdmin_bearer err now db token :
  Server.authenticateAdmin err now db (Some ("Bearer " ++ token))
  = match fst (Database.validateSession err now db token) with
    | Resolved (Some v) =>
        Server.Next
          {| Server.ru_id := Session.user_id (Session.session v);
             Server.ru_username := Session.username v;
             Server.ru_fullName := Session.full_name v;
             Server.ru_role := Session.role v |}
    | Resolved None =>
        Server.Respond
          (Server.respond 401 (Server.error "Invalid or expired token."))
    | Rejected _ =>
        Server.Respond
          (Server.respond 500 (Server.error "Authentication failed"))
    end.
Proof.
  unfold Server.authenticateAdmin.
  replace (Js.startsWith (Server.str (Some ("Bearer " ++ token))) "Bearer ")
    with true.
  - reflexivity.
  - symmetry. exact (prefix_append "Bearer " token).
Qed.

(** C6.  The gate answers 401 exactly when the Authorization header is
    absent, is not of the shape [Bearer <token>], or [validateSession]
    resolves to no row for the extracted token; when it resolves to a row
    the gate calls the next handler with [{id, username, fullName, role}]
    taken from that row; when the validation is rejected by the storage
    layer the gate answers 500, which is not 401.  Whatever the gate answers
    is the answer of the create, update and delete endpoints, which then
    leave the store alone. *)
Theorem gate_contract (err : option Sqlite.fault) (now : Z) (db : store)
    (authorization : option string) :
  ((exists r, Server.authenticateAdmin err now db authorization
              = Server.Respond r /\ status r = 401)
   <-> (authorization = None
        \/ (exists h, authorization = Some h
                      /\ forall token, h <> "Bearer " ++ token)
        \/ (exists token,
              authorization = Some ("Bearer " ++ token)
              /\ fst (Database.validateSession err now db token)
                 = Resolved None)))
  /\ (forall token v,
        authorization = Some ("Bearer " ++ token) ->
        fst (Database.validateSession err now db token) = Resolved (Some v) ->
        Server.authenticateAdmin err now db authorization
        = Server.Next
            {| Server.ru_id := Session.user_id (Session.session v);
               Server.ru_username := Session.username v;
               Server.ru_fullName := Session.full_name v;
               Server.ru_role := Session.role v |})
  /\ (forall token e,
        authorization = Some ("Bearer " ++ token) ->
        fst (Database.validateSession err now db token) = Rejected e ->
        Server.authenticateAdmin err now db authorization
        = Server.Respond
            (Server.respond 500 (Server.error "Authentication failed")))
  /\ (forall token f,
        fst (Database.validateSession (Some f) now db token)
        = Rejected (Sqlite.Fault f))
  /\ (forall r,
        Server.authenticateAdmin err now db authorization = Server.Respond r ->
        forall err' id b,
          Server.post_events err err' now db authorization b = (r, db)
          /\ Server.put_events err err' now db authorization id b = (r, db)
          /\ Server.delete_events err err' now db authorization id = (r, db)).
Proof.
  split; [|split; [|split; [|split]]].
  - split.
    + intros (r & Hr & H401).
      destruct authorization as [h|]; [|now left]. right.
      destruct (Js.startsWith h "Bearer ") eqn:Hshape.
      * right. apply bearer_shape in Hshape. destruct Hshape as [token ->].
        exists token. split; [reflexivity|].
        rewrite authenticateAdmin_bearer in Hr.
        destruct (fst (Database.validateSession err now db token))
          as [[v|]|e]; [discriminate | reflexivity |].
        injection Hr as <-. discriminate.
      * left. exists h. split; [reflexivity|].
        intros token ->.
        rewrite (proj2 (bearer_shape _)) in Hshape; [discriminate|].
        now exists token.
    + intros [->|[(h & -> & Hshape)|(token & -> & Hnone)]].
      * eexists. split; reflexivity.
      * unfold Server.authenticateAdmin.
        destruct (Js.startsWith h "Bearer ") eqn:Hs.
        { apply bearer_shape in Hs. destruct Hs as [token ->].
          now destruct (Hshape token). }
        simpl Server.str. rewrite Hs, orb_true_r.
        eexists. split; reflexivity.
      * rewrite authenticateAdmin_bearer, Hnone.
        eexists. split; reflexivity.
  - intros token v -> Hv. now rewrite authenticateAdmin_bearer, Hv.
  - intros token e -> He. now rewrite authenticateAdmin_bearer, He.
  - reflexivity.
  - intros r Hr err' id b.
    unfold Server.post_events, Server.put_events, Server.delete_events,
      Server.protected.
    rewrite Hr. repeat split.
Qed.

(** ** Login *)

Lemma Forall2_map_r {A B : Type} (R : A -> B -> Prop) (f : A -> B)
    (l : list A) :
  (forall x, In x l -> R x (f x)) -> Forall2 R l (map f l).
Proof.
  induction l as [|x l IH]; simpl; intro H; constructor; auto.
Qed.

Lemma Forall2_same {A : Type} (R : A -> A -> Prop) (l : list A) :
  (forall x, In x l -> R x x) -> Forall2 R l l.
Proof.
  induction l as [|x l IH]; simpl; intro H; constructor; auto.
Qed.

Section Login.

Context {bcrypt : Bcrypt}.

Lemma supplies_truthy (b : Server.loginBody) (username password : string) :
  supplies b username password ->
  Js.truthy (Server.l_username b) = true
  /\ Js.truthy_json (Server.l_password b) = true
  /\ Server.str (Server.l_username b) = username
  /\ Server.val (Server.l_password b) = JStr password.
Proof.
  intros (Hu & Hune & Hp & Hpne). rewrite Hu, Hp. simpl.
  apply String.eqb_neq in Hune, Hpne. rewrite Hune, Hpne. auto.
Qed.

(** One failing attempt whose two fields are non-empty strings. *)
Lemma post_login_no_match err_stamp err_insert now token db b
    username password :
  supplies b username password ->
  no_match db username password ->
  Server.post_login None err_stamp err_insert now token db b
  = (Some InvalidCredentials, db).
Proof.
  intros Hb Hno. apply supplies_truthy in Hb.
  destruct Hb as (Hu & Hp & Hname & Hpass).
  unfold Server.post_login.
  rewrite Hu, Hp, Hname, Hpass. simpl negb. simpl orb. cbv iota.
  rewrite validateUser_resolved_none; [reflexivity|].
  intros u Hin Hun Hact. simpl. f_equal.
  destruct Hno as [Hno|[Hno|Hno]].
  - now destruct (Hno u Hin).
  - now destruct (Hno u Hin Hun).
  - exact (Hno u Hin Hun).
Qed.

(** One attempt with a field left empty: the store is not consulted. *)
Lemma post_login_empty_field err err_stamp err_insert now token db b :
  Js.truthy (Server.l_username b) = false
  \/ Js.truthy_json (Server.l_password b) = false ->
  Server.post_login err err_stamp err_insert now token db b
  = (Some ValidationError, db).
Proof.
  intro H. unfold Server.post_login.
  destruct H as [-> | ->]; simpl; [reflexivity|].
  now rewrite orb_true_r.
Qed.

(** C3, amended.  Any two login attempts whose username and password are
    non-empty strings and that fail because the username is unknown, the
    identity inactive or the password wrong get the same answer, 401 with
    the same body, and neither writes to the store: among such attempts no
    answer tells an existing username from an unknown one.  An attempt that
    leaves a field out or empty gets the 400 of the field validation,
    whatever the store holds. *)
Theorem login_rejections_indistinguishable
    err_stamp1 err_insert1 now1 token1 db1 b1 username1 password1
    err_stamp2 err_insert2 now2 token2 db2 b2 username2 password2 :
  supplies b1 username1 password1 ->
  supplies b2 username2 password2 ->
  no_match db1 username1 password1 ->
  no_match db2 username2 password2 ->
  Server.post_login None err_stamp1 err_insert1 now1 token1 db1 b1
  = (Some InvalidCredentials, db1)
  /\ Server.post_login None err_stamp2 err_insert2 now2 token2 db2 b2
     = (Some InvalidCredentials, db2)
  /\ (forall err err_stamp err_insert now token db b,
        Js.truthy (Server.l_username b) = false
        \/ Js.truthy_json (Server.l_password b) = false ->
        Server.post_login err err_stamp err_insert now token db b
        = (Some ValidationError, db)).
Proof.
  intros Hb1 Hb2 H1 H2.
  split; [|split].
  - now apply (post_login_no_match _ _ _ _ _ _ username1 password1).
  - now apply (post_login_no_match _ _ _ _ _ _ username2 password2).
  - intros. now apply post_login_empty_field.
Qed.

(** The stamp as a relation between the rows before and after. *)
Lemma stamp_last_login_stamped (now id : Z) (us : list User.t) :
  Forall2 (stamped now id) us (map (Database.stamp_last_login now id) us).
Proof.
  apply Forall2_map_r. intros u _.
  unfold stamped, Database.stamp_last_login.
  destruct (User.id u =? id) eqn:E.
  - apply Z.eqb_eq in E. right. simpl. repeat split; assumption.
  - apply Z.eqb_neq in E. left. split; [assumption | reflexivity].
Qed.

(** C7, amended.  It is [validateUser], the credential check of the
    [Database] class, that stamps [last_login] when the password matches:
    the stamp is the only write, it sets [last_login] of the rows under that
    identity's id and leaves every other column, every other row and the
    other tables as they were; a check that does not resolve to an identity
    writes nothing.  The login handler adds no write to [users] of its own.
    [createUser] sets [created_at] and leaves [last_login] null. *)
Theorem last_login_stamped_by_validateUser (now : Z) (db : store)
    (username : string) (password : json) :
  (forall user db1,
      Database.validateUser None None now db username password
      = (Settled (Resolved (Some user)), db1) ->
      In user (users db)
      /\ Forall2 (stamped now (User.id user)) (users db) (users db1)
      /\ events db1 = events db /\ sessions db1 = sessions db
      /\ seq_users db1 = seq_users db /\ seq_events db1 = seq_events db
      /\ seq_sessions db1 = seq_sessions db)
  /\ (forall err err_stamp outcome db1,
        Database.validateUser err err_stamp now db username password
        = (outcome, db1) ->
        (forall user, outcome <> Settled (Resolved (Some user))) ->
        db1 = db)
  /\ (forall err err_stamp err_insert token b,
        Js.truthy (Server.l_username b) = true ->
        Js.truthy_json (Server.l_password b) = true ->
        users (snd (Server.post_login err err_stamp err_insert now token db b))
        = users (snd (Database.validateUser err err_stamp now db
                        (Server.str (Server.l_username b))
                        (Server.val (Server.l_password b)))))
  /\ (forall salt userData created db1,
        Database.createUser None now salt db userData
        = (Resolved created, db1) ->
        exists row,
          users db1 = (users db ++ [row])%list
          /\ User.created_at row = Clock.CURRENT_TIMESTAMP now
          /\ User.last_login row = None).
Proof.
  split; [|split; [|split]].
  - intros user db1 Hv.
    unfold Database.validateUser in Hv.
    destruct (filter _ (users db)) as [|u rest] eqn:Hf; [discriminate|].
    destruct (Database.password_check password (User.password_hash u))
      as [[|]|]; try discriminate.
    injection Hv as <- <-. simpl.
    split; [exact (proj1 (filter_head_In _ _ _ _ Hf))|].
    split; [apply stamp_last_login_stamped|].
    repeat split; reflexivity.
  - intros err err_stamp outcome db1. apply validateUser_no_identity.
  - intros err err_stamp err_insert token b Hu Hp.
    unfold Server.post_login. rewrite Hu, Hp. simpl negb. simpl orb.
    cbv iota.
    destruct (Database.validateUser _ _ _ _ _ _) as [[[[user|]|e]|] db1];
      try reflexivity.
    unfold Database.createSession, Database.run.
    destruct err_insert; [reflexivity|].
    destruct (existsb _ (sessions db1)); reflexivity.
  - intros salt userData created db1 Hc.
    unfold Database.createUser, Database.run in Hc.
    destruct (existsb _ (users db)); [discriminate|].
    destruct (existsb _ (users db)); [discriminate|].
    injection Hc as _ <-. simpl.
    eexists. split; [reflexivity|]. split; reflexivity.
Qed.

(** The slip next to C3.  A password that is truthy and not a string passes
    the field validation and reaches [bcrypt.compare] only when an active
    identity has the username: an attempt under a username no active
    identity has is answered 401 like any other, an attempt under the
    username of an active identity is never answered, and neither writes to
    the store. *)
Theorem login_password_not_a_string
    err_stamp err_insert now token db b username password :
  Server.l_username b = Some username -> username <> "" ->
  Server.l_password b = Some password ->
  Js.truthy_json (Some password) = true ->
  (forall data, password <> JStr data) ->
  ((unknown_username db username \/ inactive_identity db username) ->
   Server.post_login None err_stamp err_insert now token db b
   = (Some InvalidCredentials, db))
  /\ ((exists u, In u (users db) /\ User.username u = username
                 /\ User.is_active u = 1) ->
      Server.post_login None err_stamp err_insert now token db b
      = (None, db)).
Proof.
  intros Hu Hune Hp Htruthy Hnot.
  assert (forall hash, Database.password_check password hash = None) as Hthrows.
  { intro h. destruct password; try reflexivity. now destruct (Hnot s). }
  unfold Server.post_login. rewrite Hu, Hp, Htruthy. simpl Js.truthy.
  apply String.eqb_neq in Hune. rewrite Hune. simpl negb. simpl orb.
  cbv iota. simpl Server.str. simpl Server.val.
  unfold Database.validateUser.
  destruct (filter _ (users db)) as [|u rest] eqn:Hf.
  - split; [reflexivity|].
    intros (u & Hin & Hname & Hact). exfalso.
    assert (In u []) as Habs; [|contradiction].
    rewrite <- Hf. apply filter_In. split; [assumption|].
    now rewrite Hname, String.eqb_refl, Hact.
  - rewrite Hthrows. split; [|reflexivity].
    apply filter_head_In in Hf. destruct Hf as [Hin Hcond].
    apply andb_true_iff in Hcond. destruct Hcond as [Hname Hact].
    apply String.eqb_eq in Hname. apply Z.eqb_eq in Hact.
    intros [Hno|Hno].
    + now destruct (Hno u Hin).
    + now destruct (Hno u Hin Hname).
Qed.

End Login.

(** ** Event mutations *)

Lemma existsb_id_false (id : Z) (es : list Event.t) :
  (forall e, In e es -> Event.id e <> id) ->
  existsb (fun e => Event.id e =? id) es = false.
Proof.
  intro H. destruct (existsb _ es) eqn:E; [|reflexivity].
  apply existsb_exists in E. destruct E as (e & Hin & Heq).
  apply Z.eqb_eq in Heq. now destruct (H e Hin).
Qed.

Lemma existsb_id_true (id : Z) (es : list Event.t) :
  (exists e, In e es /\ Event.id e = id) ->
  existsb (fun e => Event.id e =? id) es = true.
Proof.
  intros (e & Hin & Heq). apply existsb_exists. exists e.
  split; [assumption | now apply Z.eqb_eq].
Qed.

(** What the table accepts is what was bound, all five values present and
    the type one of the three listed. *)
Lemma constraints_accepted (d : Event.data) (a : Database.accepted) :
  Database.constraints d = inr a <->
  Event.d_title d = Some (Database.a_title a)
  /\ Event.d_description d = Some (Database.a_description a)
  /\ Event.d_date d = Some (Database.a_date a)
  /\ Event.d_time d = Some (Database.a_time a)
  /\ Event.d_type d = Some (Database.a_type a)
  /\ In (Database.a_type a) Database.EVENT_TYPES.
Proof.
  unfold Database.constraints. split.
  - destruct (Event.d_title d); [|discriminate].
    destruct (Event.d_description d); [|discriminate].
    destruct (Event.d_date d); [|discriminate].
    destruct (Event.d_time d); [|discriminate].
    destruct (Event.d_type d) as [ty|]; [|discriminate].
    destruct (existsb _ _) eqn:E; [|discriminate].
    intros [= <-]. simpl. repeat split.
    apply existsb_exists in E. destruct E as (x & Hx & Heq).
    apply String.eqb_eq in Heq. now subst.
  - intros (-> & -> & -> & -> & -> & Hin).
    replace (existsb _ _) with true; [now destruct a|].
    symmetry. apply existsb_exists. exists (Database.a_type a).
    split; [assumption | apply String.eqb_refl].
Qed.

(** What the PUT handler answers with after the gate let the request
    through. *)
Lemma put_events_next err_gate err now db authorization user id d :
  Server.authenticateAdmin err_gate now db authorization = Server.Next user ->
  Server.put_events err_gate err now db authorization id d
  = match Database.updateEvent err now db id d with
    | (Resolved (eventId, a), db') =>
        (Server.respond 200
           (JObj (("id", JNum eventId) :: Server.accepted_fields a)), db')
    | (Rejected e, db') =>
        (if (Sqlite.message e =? "Event not found")%string
         then Server.respond 404 (Server.error "Event not found")
         else Server.respond 500 (Server.error "Failed to update event"),
         db')
    end.
Proof.
  intro Hgate. unfold Server.put_events, Server.protected. now rewrite Hgate.
Qed.

(** C5, amended.  An update under an id no event row has is rejected with
    'Event not found' (404 at the endpoint) and leaves the file as it was.
    An update under an id that is present, with data the table accepts,
    rewrites the title, description, date, time, type and update time of the
    rows under that id and nothing else, and the endpoint answers 200 with
    the five values.  An update under an id that is present, with data a
    constraint of the table refuses, is rejected on that constraint (500 at
    the endpoint) and leaves the file as it was.  Whatever the data, no row
    under another id, no id, creator or creation time, and no other table
    changes. *)
Theorem update_event_contract (now : Z) (db : store) (id : Z)
    (d : Event.data) :
  ((forall e, In e (events db) -> Event.id e <> id) ->
   Database.updateEvent None now db id d = (Rejected Sqlite.EventNotFound, db)
   /\ forall err_gate authorization user,
        Server.authenticateAdmin err_gate now db authorization
        = Server.Next user ->
        Server.put_events err_gate None now db authorization id d
        = (Server.respond 404 (Server.error "Event not found"), db))
  /\ (forall a,
        (exists e, In e (events db) /\ Event.id e = id) ->
        Database.constraints d = inr a ->
        exists db',
          Database.updateEvent None now db id d = (Resolved (id, a), db')
          /\ Forall2 (updated now id d) (events db) (events db')
          /\ users db' = users db /\ sessions db' = sessions db
          /\ forall err_gate authorization user,
               Server.authenticateAdmin err_gate now db authorization
               = Server.Next user ->
               exists r,
                 Server.put_events err_gate None now db authorization id d
                 = (r, db')
                 /\ status r = 200
                 /\ field "title" (body r) = option_map JStr (Event.d_title d)
                 /\ field "description" (body r)
                    = option_map JStr (Event.d_description d)
                 /\ field "date" (body r) = option_map JStr (Event.d_date d)
                 /\ field "time" (body r) = option_map JStr (Event.d_time d)
                 /\ field "type" (body r) = option_map JStr (Event.d_type d))
  /\ (forall c,
        (exists e, In e (events db) /\ Event.id e = id) ->
        Database.constraints d = inl c ->
        Database.updateEvent None now db id d
        = (Rejected (Sqlite.Constraint c), db)
        /\ forall err_gate authorization user,
             Server.authenticateAdmin err_gate now db authorization
             = Server.Next user ->
             Server.put_events err_gate None now db authorization id d
             = (Server.respond 500 (Server.error "Failed to update event"),
                db))
  /\ (forall err,
        let db' := snd (Database.updateEvent err now db id d) in
        Forall2 (fun e e' =>
                   Event.id e' = Event.id e
                   /\ Event.created_by e' = Event.created_by e
                   /\ Event.created_at e' = Event.created_at e
                   /\ (Event.id e <> id -> e' = e))
          (events db) (events db')
        /\ users db' = users db /\ sessions db' = sessions db).
Proof.
  split; [|split; [|split]].
  - intro Habsent.
    assert (Database.updateEvent None now db id d
            = (Rejected Sqlite.EventNotFound, db)) as Hup.
    { unfold Database.updateEvent, Database.run.
      now rewrite existsb_id_false. }
    split; [assumption|].
    intros err_gate authorization user Hgate.
    rewrite (put_events_next _ _ _ _ _ _ _ _ Hgate), Hup. reflexivity.
  - intros a Hpresent Hok.
    assert (Database.updateEvent None now db id d
            = (Resolved (id, a),
               with_events db
                 (map (fun e => if Event.id e =? id
                                then Database.overwrite now a e else e)
                    (events db))
                 (seq_events db))) as Hup.
    { unfold Database.updateEvent, Database.run.
      rewrite existsb_id_true by assumption. now rewrite Hok. }
    eexists. split; [exact Hup|]. simpl.
    apply constraints_accepted in Hok.
    destruct Hok as (Ht & Hd & Hda & Hti & Hty & _).
    split; [|split; [reflexivity|split; [reflexivity|]]].
    + apply Forall2_map_r. intros e _.
      unfold updated.
      destruct (Event.id e =? id) eqn:E.
      * apply Z.eqb_eq in E. right. simpl. rewrite Hda, Hti.
        repeat split; assumption.
      * apply Z.eqb_neq in E. left. split; [assumption | reflexivity].
    + intros err_gate authorization user Hgate.
      rewrite (put_events_next _ _ _ _ _ _ _ _ Hgate), Hup.
      eexists. split; [reflexivity|]. simpl.
      rewrite Ht, Hd, Hda, Hti, Hty. repeat split; reflexivity.
  - intros c Hpresent Hbad.
    assert (Database.updateEvent None now db id d
            = (Rejected (Sqlite.Constraint c), db)) as Hup.
    { unfold Database.updateEvent, Database.run.
      rewrite existsb_id_true by assumption. now rewrite Hbad. }
    split; [assumption|].
    intros err_gate authorization user Hgate.
    rewrite (put_events_next _ _ _ _ _ _ _ _ Hgate), Hup.
    now destruct c.
  - intro err. unfold Database.updateEvent, Database.run.
    destruct err; simpl.
    { split; [|split; reflexivity].
      apply Forall2_same. intros; repeat split; reflexivity. }
    destruct (existsb _ (events db)); simpl.
    + destruct (Database.constraints d) as [c|a]; simpl.
      * split; [|split; reflexivity].
        apply Forall2_same. intros; repeat split; reflexivity.
      * split; [|split; reflexivity].
        apply Forall2_map_r. intros e _.
        destruct (Event.id e =? id) eqn:E; simpl.
        -- apply Z.eqb_eq in E. repeat split. intro. contradiction.
        -- repeat split; reflexivity.
    + split; [|split; reflexivity].
      apply Forall2_same. intros; repeat split; reflexivity.
Qed.

(** Data whose type is none of the three listed is turned down by a
    constraint of the table: by the [CHECK] on the type when all five values
    are bound, by the first [NOT NULL] that finds its column unbound
    otherwise. *)
Lemma constraints_unlisted_type (d : Event.data) :
  (forall ty, In ty Database.EVENT_TYPES -> Event.d_type d <> Some ty) ->
  exists c,
    Database.constraints d = inl c
    /\ (c = Sqlite.CHECK "events" <->
        Event.d_title d <> None /\ Event.d_description d <> None
        /\ Event.d_date d <> None /\ Event.d_time d <> None
        /\ Event.d_type d <> None)
    /\ (c <> Sqlite.CHECK "events" -> exists column, c = Sqlite.NOT_NULL column).
Proof.
  intro Hbad. unfold Database.constraints.
  destruct (Event.d_title d);
    [|eexists; split; [reflexivity|]; split;
      [split; [discriminate | intros (H & _); now destruct H]
      | intros _; eexists; reflexivity]].
  destruct (Event.d_description d);
    [|eexists; split; [reflexivity|]; split;
      [split; [discriminate | intros (_ & H & _); now destruct H]
      | intros _; eexists; reflexivity]].
  destruct (Event.d_date d);
    [|eexists; split; [reflexivity|]; split;
      [split; [discriminate | intros (_ & _ & H & _); now destruct H]
      | intros _; eexists; reflexivity]].
  destruct (Event.d_time d);
    [|eexists; split; [reflexivity|]; split;
      [split; [discriminate | intros (_ & _ & _ & H & _); now destruct H]
      | intros _; eexists; reflexivity]].
  destruct (Event.d_type d) as [ty|];
    [|eexists; split; [reflexivity|]; split;
      [split; [discriminate | intros (_ & _ & _ & _ & H); now destruct H]
      | intros _; eexists; reflexivity]].
  destruct (existsb _ _) eqn:E.
  - apply existsb_exists in E. destruct E as (x & Hx & Heq).
    apply String.eqb_eq in Heq. subst x. now destruct (Hbad ty Hx).
  - eexists. split; [reflexivity|]. split.
    + split; [intros _; repeat split; discriminate | reflexivity].
    + intro H. now destruct H.
Qed.

(** C10, amended.  An authenticated create request whose type is none of
    assignment, webinar, workshop is turned down by the storage layer on a
    constraint of the events table, inserts no row and is answered 500, not
    400.  The constraint is the [CHECK] on the type exactly when title,
    description, date, time and type are all supplied; when one of them is
    missing it is a [NOT NULL] constraint. *)
Theorem create_with_unlisted_type_is_500 (err_gate : option Sqlite.fault)
    (now : Z) (db : store) (authorization : option string)
    (user : Server.reqUser) (b : Event.data) :
  Server.authenticateAdmin err_gate now db authorization = Server.Next user ->
  (forall ty, In ty Database.EVENT_TYPES -> Event.d_type b <> Some ty) ->
  exists c,
    Database.createEvent None now db b (Server.ru_id user)
    = (Rejected (Sqlite.Constraint c), db)
    /\ Server.post_events err_gate None now db authorization b
       = (Server.respond 500 (Server.error "Failed to create event"), db)
    /\ (c = Sqlite.CHECK "events" <->
        Event.d_title b <> None /\ Event.d_description b <> None
        /\ Event.d_date b <> None /\ Event.d_time b <> None
        /\ Event.d_type b <> None)
    /\ (c <> Sqlite.CHECK "events" -> exists column, c = Sqlite.NOT_NULL column).
Proof.
  intros Hgate Hbad.
  destruct (constraints_unlisted_type b Hbad) as (c & Hc & Hcheck & Hnull).
  exists c.
  assert (Database.createEvent None now db b (Server.ru_id user)
          = (Rejected (Sqlite.Constraint c), db)) as Hcreate.
  { unfold Database.createEvent, Database.run. now rewrite Hc. }
  split; [assumption|]. split; [|split; assumption].
  unfold Server.post_events, Server.protected.
  now rewrite Hgate, Hcreate.
Qed.

(** ** Listing events *)

Lemma ascii_compare_lt_trans (a b c : ascii) :
  Ascii.compare a b = Lt -> Ascii.compare b c = Lt -> Ascii.compare a c = Lt.
Proof.
  unfold Ascii.compare. rewrite !N.compare_lt_iff. lia.
Qed.

Lemma compare_lt_trans (a b c : string) :
  String.compare a b = Lt -> String.compare b c = Lt ->
  String.compare a c = Lt.
Proof.
  revert b c. induction a as [|x a IH]; intros [|y b] [|z c]; simpl;
    try discriminate; try reflexivity.
  destruct (Ascii.compare x y) eqn:Exy; try discriminate;
    destruct (Ascii.compare y z) eqn:Eyz; try discriminate; intros Hab Hbc.
  - apply Ascii.compare_eq_iff in Exy, Eyz. subst.
    rewrite ascii_compare_refl. eauto.
  - apply Ascii.compare_eq_iff in Exy. subst. now rewrite Eyz.
  - apply Ascii.compare_eq_iff in Eyz. subst. now rewrite Exy.
  - now rewrite (ascii_compare_lt_trans x y z).
Qed.

Lemma leb_trans (a b c : string) :
  String.leb a b = true -> String.leb b c = true -> String.leb a c = true.
Proof.
  unfold String.leb.
  destruct (String.compare a b) eqn:Eab; try discriminate;
    destruct (String.compare b c) eqn:Ebc; try discriminate; intros _ _.
  - apply String.compare_eq_iff in Eab, Ebc. subst.
    now rewrite compare_refl.
  - apply String.compare_eq_iff in Eab. subst. now rewrite Ebc.
  - apply String.compare_eq_iff in Ebc. subst. now rewrite Eab.
  - now rewrite (compare_lt_trans a b c).
Qed.

Section Listing.

Context {numbers : Sqlite.Numbers}.

(** The order of the stored values is a total preorder. *)
Lemma value_compare_antisym (a b : Sqlite.value) :
  Sqlite.value_compare b a = CompOpp (Sqlite.value_compare a b).
Proof.
  destruct a, b; simpl; try reflexivity.
  - apply Sqlite.number_compare_antisym.
  - apply String.compare_antisym.
Qed.

Lemma value_compare_trans (a b c : Sqlite.value) :
  Sqlite.value_compare a b <> Gt -> Sqlite.value_compare b c <> Gt ->
  Sqlite.value_compare a c <> Gt.
Proof.
  destruct a as [x|x], b as [y|y], c as [z|z]; simpl; intros Hab Hbc;
    try discriminate; try congruence.
  - now apply (Sqlite.number_compare_trans x y z).
  - pose proof (leb_trans x y z) as T. unfold String.leb in T.
    destruct (String.compare x y); try congruence;
      destruct (String.compare y z); try congruence;
      destruct (String.compare x z); try discriminate;
      now specialize (T eq_refl eq_refl).
Qed.

Ltac compare_three x y z :=
  pose proof (value_compare_trans x y z);
  pose proof (value_compare_trans x z y);
  pose proof (value_compare_trans y x z);
  pose proof (value_compare_trans y z x);
  pose proof (value_compare_trans z x y);
  pose proof (value_compare_trans z y x);
  rewrite ?(value_compare_antisym x y), ?(value_compare_antisym x z),
    ?(value_compare_antisym y z) in *;
  destruct (Sqlite.value_compare x y), (Sqlite.value_compare x z),
    (Sqlite.value_compare y z); simpl in *;
  try reflexivity; try discriminate; exfalso; intuition congruence.

Lemma value_compare_eq_l (x y z : Sqlite.value) :
  Sqlite.value_compare x y = Eq ->
  Sqlite.value_compare x z = Sqlite.value_compare y z.
Proof. intro E. compare_three x y z. Qed.

Lemma value_compare_eq_r (x y z : Sqlite.value) :
  Sqlite.value_compare y z = Eq ->
  Sqlite.value_compare x z = Sqlite.value_compare x y.
Proof. intro E. compare_three x y z. Qed.

Lemma value_compare_lt_trans (x y z : Sqlite.value) :
  Sqlite.value_compare x y = Lt -> Sqlite.value_compare y z = Lt ->
  Sqlite.value_compare x z = Lt.
Proof. intros E1 E2. compare_three x y z. Qed.

Lemma date_time_le_spec (a b : Event.listed) :
  Database.date_time_le a b = true <-> date_then_time a b.
Proof.
  unfold Database.date_time_le, date_then_time.
  destruct (Sqlite.value_compare (Event.date (Event.event a))
              (Event.date (Event.event b))).
  - destruct (Sqlite.value_compare (Event.time (Event.event a))
                (Event.time (Event.event b)));
      split; intro H; try reflexivity; try discriminate.
    + right. split; [reflexivity | discriminate].
    + right. split; [reflexivity | discriminate].
    + destruct H as [H|[_ H]]; [discriminate | now destruct H].
  - split; [now left | reflexivity].
  - split; [discriminate|].
    intros [H|[H _]]; discriminate.
Qed.

Lemma date_time_le_total (a b : Event.listed) :
  Database.date_time_le a b = false -> Database.date_time_le b a = true.
Proof.
  unfold Database.date_time_le.
  rewrite (value_compare_antisym (Event.date (Event.event a))).
  rewrite (value_compare_antisym (Event.time (Event.event a))).
  destruct (Sqlite.value_compare (Event.date (Event.event a)) _); simpl;
    try discriminate; try reflexivity.
  destruct (Sqlite.value_compare (Event.time (Event.event a)) _); simpl;
    try discriminate; reflexivity.
Qed.

Lemma date_time_le_trans (a b c : Event.listed) :
  Database.date_time_le a b = true -> Database.date_time_le b c = true ->
  Database.date_time_le a c = true.
Proof.
  unfold Database.date_time_le.
  destruct (Sqlite.value_compare (Event.date (Event.event a))
              (Event.date (Event.event b))) eqn:Eab; try discriminate;
    destruct (Sqlite.value_compare (Event.date (Event.event b))
                (Event.date (Event.event c))) eqn:Ebc; try discriminate.
  - rewrite (value_compare_eq_l _ _ _ Eab), Ebc.
    destruct (Sqlite.value_compare (Event.time (Event.event a))
                (Event.time (Event.event b))) eqn:Tab; try discriminate;
      destruct (Sqlite.value_compare (Event.time (Event.event b))
                  (Event.time (Event.event c))) eqn:Tbc; try discriminate;
      intros _ _;
      pose proof (value_compare_trans (Event.time (Event.event a))
                    (Event.time (Event.event b))
                    (Event.time (Event.event c))) as T;
      rewrite Tab, Tbc in T;
      destruct (Sqlite.value_compare (Event.time (Event.event a))
                  (Event.time (Event.event c))); try reflexivity;
      exfalso; apply T; first [discriminate | reflexivity].
  - now rewrite (value_compare_eq_l _ _ _ Eab), Ebc.
  - now rewrite (value_compare_eq_r _ _ _ Ebc), Eab.
  - now rewrite (value_compare_lt_trans _ _ _ Eab Ebc).
Qed.

Lemma insert_ordered_perm (x : Event.listed) (l : list Event.listed) :
  Permutation (Database.insert_ordered x l) (x :: l).
Proof.
  induction l as [|y l IH]; simpl; [reflexivity|].
  destruct (Database.date_time_le x y); [reflexivity|].
  rewrite IH. apply perm_swap.
Qed.

Lemma order_by_date_time_perm (l : list Event.listed) :
  Permutation (Database.order_by_date_time l) l.
Proof.
  induction l as [|x l IH]; simpl; [reflexivity|].
  rewrite insert_ordered_perm. now constructor.
Qed.

Lemma insert_ordered_sorted (x : Event.listed) (l : list Event.listed) :
  Sorted (fun a b => Database.date_time_le a b = true) l ->
  Sorted (fun a b => Database.date_time_le a b = true)
    (Database.insert_ordered x l).
Proof.
  induction l as [|y l IH]; simpl; intro Hs.
  - repeat constructor.
  - destruct (Database.date_time_le x y) eqn:E.
    + constructor; [assumption | now constructor].
    + inversion Hs as [|? ? Hl Hhd]; subst.
      constructor; [now apply IH|].
      apply date_time_le_total in E.
      destruct l as [|z l]; simpl.
      * now constructor.
      * destruct (Database.date_time_le x z); constructor;
          [assumption | now inversion Hhd].
Qed.

Lemma order_by_date_time_sorted (l : list Event.listed) :
  StronglySorted date_then_time (Database.order_by_date_time l).
Proof.
  assert (StronglySorted (fun a b => Database.date_time_le a b = true)
            (Database.order_by_date_time l)) as H.
  { apply Sorted_StronglySorted.
    - intros a b c. apply date_time_le_trans.
    - induction l as [|x l IH]; simpl; [constructor|].
      now apply insert_ordered_sorted. }
  induction H as [|x r Hr IH Hall]; constructor; [assumption|].
  eapply Forall_impl; [|exact Hall].
  intros b Hb. now apply date_time_le_spec.
Qed.

(** Under the primary key of [users] the join gives each event one row. *)
Lemma left_join_one (us : list User.t) (e : Event.t) :
  NoDup (map User.id us) ->
  Database.left_join us e = [with_creator us e].
Proof.
  unfold Database.left_join, with_creator, creator_username.
  induction us as [|u us IH]; simpl; intro Hnd; [reflexivity|].
  inversion Hnd as [|? ? Hnotin Hnd']; subst.
  destruct (Database.creator e u) eqn:Eu.
  - simpl. rewrite filter_none; [reflexivity|].
    intros u' Hu'. destruct (Database.creator e u') eqn:Eu'; [|reflexivity].
    exfalso. apply Hnotin.
    unfold Database.creator in Eu, Eu'.
    destruct (Event.created_by e) as [c|]; [|discriminate].
    apply Z.eqb_eq in Eu, Eu'. rewrite <- Eu, Eu'. now apply in_map.
  - now apply IH.
Qed.

Lemma flat_map_singleton {A B : Type} (f : A -> list B) (g : A -> B)
    (l : list A) :
  (forall x, f x = [g x]) -> flat_map f l = map g l.
Proof.
  intro H. induction l as [|x l IH]; simpl; [reflexivity|].
  now rewrite H, IH.
Qed.

Lemma creator_username_none (us : list User.t) (e : Event.t) :
  Event.created_by e = None
  \/ (forall u, In u us -> Event.created_by e <> Some (User.id u)) ->
  creator_username us e = None.
Proof.
  intro H. unfold creator_username.
  destruct (find (Database.creator e) us) as [u|] eqn:F; [|reflexivity].
  exfalso. apply find_some in F. destruct F as [Hin Hc].
  unfold Database.creator in Hc.
  destruct H as [H|H].
  - now rewrite H in Hc.
  - destruct (Event.created_by e) as [c|]; [|discriminate].
    apply Z.eqb_eq in Hc. subst c. now apply (H u Hin).
Qed.

Lemma creator_username_some (us : list User.t) (e : Event.t) (u : User.t) :
  NoDup (map User.id us) -> In u us ->
  Event.created_by e = Some (User.id u) ->
  creator_username us e = Some (User.username u).
Proof.
  intros Hnd Hin Hc. unfold creator_username.
  induction us as [|u' us IH]; [contradiction|]. simpl.
  inversion Hnd as [|? ? Hnotin Hnd']; subst.
  unfold Database.creator at 1. rewrite Hc.
  destruct (User.id u =? User.id u') eqn:E.
  - apply Z.eqb_eq in E. destruct Hin as [->|Hin]; [reflexivity|].
    exfalso. apply Hnotin. rewrite <- E. now apply in_map.
  - destruct Hin as [->|Hin]; [now rewrite Z.eqb_refl in E|].
    now apply IH.
Qed.

(** On rows held as text the order of the stored values is the order of
    their texts. *)
Lemma date_then_time_lexicographic (a b : Event.listed) :
  held_as_text (Event.event a) -> held_as_text (Event.event b) ->
  date_then_time a b -> lexicographic a b.
Proof.
  intros (da & ta & Hda & Hta) (db' & tb & Hdb & Htb).
  unfold date_then_time. rewrite Hda, Hta, Hdb, Htb. simpl. intro H.
  exists da, ta, db', tb. do 4 (split; [assumption|]).
  destruct H as [H|[H1 H2]]; [now left|].
  right. split; [now apply String.compare_eq_iff | assumption].
Qed.

Lemma StronglySorted_within {A : Type} (R R' : A -> A -> Prop) (l : list A) :
  (forall a b, In a l -> In b l -> R a b -> R' a b) ->
  StronglySorted R l -> StronglySorted R' l.
Proof.
  intros Himp Hs. induction Hs as [|x r Hr IH Hall]; constructor.
  - apply IH. intros a b Ha Hb. apply Himp; now right.
  - rewrite Forall_forall in *. intros b Hb.
    apply Himp; [now left | now right | now apply Hall].
Qed.

(** C8, amended.  [getAllEvents] resolves to one row per event row, each
    carrying the username of the user row its creator id names and null when
    the creator id is null or names no user row, ordered by date ascending
    and then time ascending in the order of the stored values; when every
    date and time is held as text, that is the order of the texts, character
    by character. *)
Theorem getAllEvents_contract (db : store) :
  NoDup (map User.id (users db)) ->
  exists rows,
    Database.getAllEvents None db = (Resolved rows, db)
    /\ Permutation rows (map (with_creator (users db)) (events db))
    /\ StronglySorted date_then_time rows
    /\ (Forall held_as_text (events db) -> StronglySorted lexicographic rows)
    /\ (forall e,
          In e (events db) ->
          Event.created_by e = None
          \/ (forall u, In u (users db) ->
                        Event.created_by e <> Some (User.id u)) ->
          In {| Event.event := e; Event.created_by_username := None |} rows)
    /\ (forall e u,
          In e (events db) -> In u (users db) ->
          Event.created_by e = Some (User.id u) ->
          In {| Event.event := e;
                Event.created_by_username := Some (User.username u) |} rows).
Proof.
  intro Hnd. eexists. split; [reflexivity|].
  rewrite (flat_map_singleton _ (with_creator (users db)))
    by (intro e; now apply left_join_one).
  split; [apply order_by_date_time_perm|].
  split; [apply order_by_date_time_sorted|].
  split; [|split].
  - intro Htext.
    apply (StronglySorted_within date_then_time);
      [|apply order_by_date_time_sorted].
    assert (forall r,
               In r (Database.order_by_date_time
                       (map (with_creator (users db)) (events db))) ->
               held_as_text (Event.event r)) as Hrows.
    { intros r Hr.
      apply (Permutation_in _ (order_by_date_time_perm _)) in Hr.
      apply in_map_iff in Hr. destruct Hr as (e & <- & He).
      rewrite Forall_forall in Htext. now apply Htext. }
    intros a b Ha Hb. apply date_then_time_lexicographic; auto.
  - intros e Hin Hnone.
    apply (Permutation_in _ (Permutation_sym (order_by_date_time_perm _))).
    apply in_map_iff. exists e. split; [|assumption].
    unfold with_creator. now rewrite creator_username_none.
  - intros e u Hin Hu Hc.
    apply (Permutation_in _ (Permutation_sym (order_by_date_time_perm _))).
    apply in_map_iff. exists e. split; [|assumption].
    unfold with_creator. now rewrite (creator_username_some _ _ u).
Qed.

End Listing.

(** ** Registration *)

Section Registration.

Context {bcrypt : Bcrypt}.

(** C9.  A registration with all four fields filled in, a password of at
    least six characters, and a username and an email no identity holds is
    answered 201 and appends exactly one row to [users]: its secret is the
    bcrypt digest of the password at cost 10, which is not the password, its
    role is admin, it is active; the identity in the answer has the keys id,
    username, email and fullName and nothing else. *)
Theorem register_creates_one_identity (now : Z) (salt : string) (db : store)
    (b : Server.registerBody) :
  Js.truthy (Server.r_fullName b) = true ->
  Js.truthy (Server.r_email b) = true ->
  Js.truthy (Server.r_username b) = true ->
  Js.truthy (Server.r_password b) = true ->
  6 <= Js.length (Server.str (Server.r_password b)) ->
  (forall u, In u (users db) ->
             User.username u <> Server.str (Server.r_username b)
             /\ User.email u <> Server.str (Server.r_email b)) ->
  exists row view db',
    Server.post_register None now salt db b
    = (Server.respond 201
         (JObj [("success", JBool true);
                ("message", JStr "Account created successfully");
                ("user", view)]),
       db')
    /\ users db' = (users db ++ [row])%list
    /\ events db' = events db /\ sessions db' = sessions db
    /\ User.username row = Server.str (Server.r_username b)
    /\ User.email row = Server.str (Server.r_email b)
    /\ User.full_name row = Server.str (Server.r_fullName b)
    /\ User.password_hash row
       = hash (Server.str (Server.r_password b)) 10 salt
    /\ User.password_hash row <> Server.str (Server.r_password b)
    /\ User.role row = "admin"
    /\ User.is_active row = 1
    /\ view = JObj [("id", JNum (User.id row));
                    ("username", JStr (User.username row));
                    ("email", JStr (User.email row));
                    ("fullName", JStr (User.full_name row))]
    /\ keys view = ["id"; "username"; "email"; "fullName"].
Proof.
  intros Hf He Hu Hp Hlen Hfresh.
  unfold Server.post_register. rewrite Hf, He, Hu, Hp. simpl negb. simpl orb.
  cbv iota.
  replace (Js.length (Server.str (Server.r_password b)) <? 6) with false
    by (symmetry; apply Z.ltb_ge; assumption).
  unfold Database.createUser, Database.run.
  replace (existsb _ (users db)) with false.
  2:{ symmetry. destruct (existsb _ (users db)) eqn:E; [|reflexivity].
      apply existsb_exists in E. destruct E as (u & Hin & Heq).
      apply String.eqb_eq in Heq. simpl in Heq.
      now destruct (proj2 (Hfresh u Hin)). }
  replace (existsb _ (users db)) with false.
  2:{ symmetry. destruct (existsb _ (users db)) eqn:E; [|reflexivity].
      apply existsb_exists in E. destruct E as (u & Hin & Heq).
      apply String.eqb_eq in Heq. simpl in Heq.
      now destruct (proj1 (Hfresh u Hin)). }
  eexists. eexists. eexists. split; [reflexivity|]. simpl.
  repeat (split; [reflexivity|]).
  split; [apply hash_one_way|].
  repeat (split; [reflexivity|]). reflexivity.
Qed.

End Registration.

(** * The handlers run on the concrete deployment *)

Example scenario_statuses :
  Demo.scenario
  = ([Some 201; Some 200; Some 201; Some 200; Some 401; Some 200], []).
Proof. vm_compute. reflexivity. Qed.

(** The administrator's token validates right after the login and one
    second before its expiry; it stops validating only once the calendar day
    of the expiry is over. *)
Example token_valid_after_login :
  exists v, fst (Database.validateSession None Demo.t0 Demo.logged_in
                   Demo.token) = Resolved (Some v).
Proof. eexists. vm_compute. reflexivity. Qed.

Example token_valid_before_expiry :
  exists v, fst (Database.validateSession None
                   (Demo.t0 + Clock.SESSION_LIFETIME - 1000) Demo.logged_in
                   Demo.token) = Resolved (Some v).
Proof. eexists. vm_compute. reflexivity. Qed.

Example token_invalid_next_day :
  fst (Database.validateSession None
         (Demo.t0 + Clock.SESSION_LIFETIME + 15 * 3600 * 1000) Demo.logged_in
         Demo.token) = Resolved None.
Proof. vm_compute. reflexivity. Qed.

(** The login of 2025-09-01T09:00:00Z expires at 2025-09-02T09:00:00Z and
    its token still validates at 09:00:01. *)
Lemma login_session_outlives_expiry_witness :
  exists v,
    fst (Database.validateSession None
           (Demo.t0 + Clock.SESSION_LIFETIME + 1000) Demo.logged_in Demo.token)
    = Resolved (Some v)
    /\ Session.expires_at (Session.session v) = "2025-09-02T09:00:00.000Z".
Proof.
  apply (@login_session_outlives_expiry Demo.bcrypt None None None Demo.t0
           Demo.token Demo.seeded Demo.credentials Demo.welcome
           Demo.logged_in (Demo.t0 + Clock.SESSION_LIFETIME + 1000)).
  - vm_compute. reflexivity.
  - reflexivity.
  - reflexivity.
  - reflexivity.
  - reflexivity.
Defined.

(** The sweep of 2025-09-02 10:00:00 finds that session, expired for an
    hour, not expired: it removes nothing. *)
Lemma sweep_keeps_sessions_expired_today_witness :
  sessions Demo.logged_in = [Demo.session]
  /\ Clock.CURRENT_TIMESTAMP (Demo.t0 + Clock.SESSION_LIFETIME + 3600000)
     = "2025-09-02 10:00:00"
  /\ Database.cleanupExpiredSessions None
       (Demo.t0 + Clock.SESSION_LIFETIME + 3600000) Demo.logged_in
     = (Resolved 0, Demo.logged_in).
Proof.
  split; [reflexivity|]. split; [reflexivity|].
  apply (sweep_keeps_sessions_expired_today
           (Demo.t0 + Clock.SESSION_LIFETIME + 3600000) Demo.logged_in
           Demo.session (Demo.t0 + Clock.SESSION_LIFETIME)).
  - left. reflexivity.
  - reflexivity.
  - reflexivity.
  - discriminate.
  - reflexivity.
  - reflexivity.
Defined.

(** Two attempts on the administrator's account with a wrong password: the
    one whose password is empty is answered 400, the other 401. *)
Lemma login_empty_password_answered_400 :
  @no_match Demo.bcrypt Demo.seeded "admin" "letmein"
  /\ @no_match Demo.bcrypt Demo.seeded "admin" ""
  /\ fst (@Server.post_login Demo.bcrypt None None None Demo.t0 Demo.token
            Demo.seeded Demo.wrong_attempt) = Some InvalidCredentials
  /\ fst (@Server.post_login Demo.bcrypt None None None Demo.t0 Demo.token
            Demo.seeded Demo.empty_attempt) = Some ValidationError
  /\ fst (@Server.post_login Demo.bcrypt None None None Demo.t0 Demo.token
            Demo.seeded Demo.wrong_attempt)
     <> fst (@Server.post_login Demo.bcrypt None None None Demo.t0 Demo.token
               Demo.seeded Demo.empty_attempt).
Proof.
  split; [|split; [|split; [|split]]].
  - right. right. intros u [<-|[]] _. reflexivity.
  - right. right. intros u [<-|[]] _. reflexivity.
  - reflexivity.
  - reflexivity.
  - discriminate.
Qed.

(** A wrong password and an unknown username, both answered 401 with the
    same body. *)
Lemma login_rejections_indistinguishable_witness :
  @Server.post_login Demo.bcrypt None None None Demo.t0 Demo.token Demo.seeded
    Demo.wrong_attempt
  = (Some InvalidCredentials, Demo.seeded)
  /\ @Server.post_login Demo.bcrypt None None None Demo.t0 Demo.token
       Demo.seeded Demo.unknown_attempt
     = (Some InvalidCredentials, Demo.seeded).
Proof.
  destruct (@login_rejections_indistinguishable Demo.bcrypt
              None None Demo.t0 Demo.token Demo.seeded Demo.wrong_attempt
              "admin" "letmein"
              None None Demo.t0 Demo.token Demo.seeded Demo.unknown_attempt
              "nobody" "boxo2025")
    as (H1 & H2 & _).
  - repeat split; discriminate.
  - repeat split; discriminate.
  - right. right. intros u [<-|[]] _. reflexivity.
  - left. intros u [<-|[]]. discriminate.
  - split; assumption.
Defined.

(** The credential check on the right password writes the administrator's
    [last_login]. *)
Lemma validateUser_writes_last_login :
  fst (@Database.validateUser Demo.bcrypt None None Demo.t0 Demo.seeded
         "admin" (JStr "boxo2025")) = Settled (Resolved (Some Demo.admin))
  /\ map User.last_login (users Demo.seeded) = [None]
  /\ map User.last_login
       (users (snd (@Database.validateUser Demo.bcrypt None None Demo.t0
                      Demo.seeded "admin" (JStr "boxo2025"))))
     = [Some "2025-09-01 09:00:00"]
  /\ users (snd (@Database.validateUser Demo.bcrypt None None Demo.t0
                   Demo.seeded "admin" (JStr "boxo2025")))
     <> users Demo.seeded.
Proof.
  split; [reflexivity|]. split; [reflexivity|]. split; [reflexivity|].
  discriminate.
Qed.

Lemma last_login_stamped_by_validateUser_witness :
  Forall2 (stamped Demo.t0 1) (users Demo.seeded)
    (users (snd (@Database.validateUser Demo.bcrypt None None Demo.t0
                   Demo.seeded "admin" (JStr "boxo2025"))))
  /\ users (snd (@Server.post_login Demo.bcrypt None None None Demo.t0
                   Demo.token Demo.seeded Demo.credentials))
     = users (snd (@Database.validateUser Demo.bcrypt None None Demo.t0
                     Demo.seeded "admin" (JStr "boxo2025"))).
Proof.
  destruct (@last_login_stamped_by_validateUser Demo.bcrypt Demo.t0
              Demo.seeded "admin" (JStr "boxo2025"))
    as (Hstamp & _ & Hlogin & _).
  split.
  - destruct (Hstamp Demo.admin
                (snd (@Database.validateUser Demo.bcrypt None None Demo.t0
                        Demo.seeded "admin" (JStr "boxo2025"))) eq_refl)
      as (_ & Hrows & _).
    exact Hrows.
  - exact (Hlogin None None None Demo.token Demo.credentials
             eq_refl eq_refl).
Defined.

(** With the administrator's token: a create request without a type, and
    one with an unlisted type and no title, both fail on a [NOT NULL]
    constraint, not on the [CHECK]. *)
Lemma create_without_type_fails_on_not_null :
  Server.authenticateAdmin None Demo.t0 Demo.logged_in Demo.authorization
  = Server.Next {| Server.ru_id := 1; Server.ru_username := "admin";
                   Server.ru_fullName := "System Administrator";
                   Server.ru_role := "admin" |}
  /\ Database.createEvent None Demo.t0 Demo.logged_in Demo.untyped 1
     = (Rejected (Sqlite.Constraint (Sqlite.NOT_NULL "events.type")),
        Demo.logged_in)
  /\ Database.createEvent None Demo.t0 Demo.logged_in Demo.untitled_party 1
     = (Rejected (Sqlite.Constraint (Sqlite.NOT_NULL "events.title")),
        Demo.logged_in)
  /\ Sqlite.NOT_NULL "events.type" <> Sqlite.CHECK "events"
  /\ Sqlite.NOT_NULL "events.title" <> Sqlite.CHECK "events".
Proof.
  split; [reflexivity|]. split; [reflexivity|]. split; [reflexivity|].
  split; discriminate.
Qed.

(** With all five values supplied and the type 'party' it is the [CHECK]. *)
Lemma create_with_unlisted_type_is_500_witness :
  Database.createEvent None Demo.t0 Demo.logged_in Demo.party 1
  = (Rejected (Sqlite.Constraint (Sqlite.CHECK "events")), Demo.logged_in)
  /\ Server.post_events None None Demo.t0 Demo.logged_in Demo.authorization
       Demo.party
     = (Server.respond 500 (Server.error "Failed to create event"),
        Demo.logged_in).
Proof.
  destruct (create_with_unlisted_type_is_500 None Demo.t0 Demo.logged_in
              Demo.authorization
              {| Server.ru_id := 1; Server.ru_username := "admin";
                 Server.ru_fullName := "System Administrator";
                 Server.ru_role := "admin" |} Demo.party)
    as (c & Hcreate & Hpost & Hcheck & _).
  - reflexivity.
  - intros ty [<-|[<-|[<-|[]]]]; discriminate.
  - assert (c = Sqlite.CHECK "events") as ->.
    { apply Hcheck. repeat split; discriminate. }
    split; assumption.
Defined.

(** Logging the administrator out: the token no longer validates, and a
    second logout changes nothing. *)
Lemma revoke_then_validate_witness :
  sessions (snd (Database.deleteSession None Demo.logged_in Demo.token)) = []
  /\ fst (Database.validateSession None Demo.t0
            (snd (Database.deleteSession None Demo.logged_in Demo.token))
            Demo.token) = Resolved None
  /\ snd (Database.deleteSession None Demo.seeded Demo.token) = Demo.seeded.
Proof.
  split; [reflexivity|]. split.
  - exact (proj1 (proj2 (revoke_then_validate Demo.t0 Demo.logged_in
                           Demo.token))).
  - apply (proj1 (proj2 (proj2 (revoke_then_validate Demo.t0 Demo.seeded
                                  Demo.token)))).
    intros s [].
Defined.

(** The gate on the administrator's token, on no header, and on a header of
    another scheme. *)
Lemma gate_contract_witness :
  Server.authenticateAdmin None Demo.t0 Demo.logged_in Demo.authorization
  = Server.Next {| Server.ru_id := 1; Server.ru_username := "admin";
                   Server.ru_fullName := "System Administrator";
                   Server.ru_role := "admin" |}
  /\ (exists r, Server.authenticateAdmin None Demo.t0 Demo.logged_in
                  (Some "Basic YWRtaW4=") = Server.Respond r
                /\ status r = 401)
  /\ Server.authenticateAdmin
       (Some {| Sqlite.code := "SQLITE_BUSY";
                Sqlite.msg := "database is locked" |})
       Demo.t0 Demo.logged_in Demo.authorization
     = Server.Respond
         (Server.respond 500 (Server.error "Authentication failed")).
Proof.
  split; [|split].
  - apply (proj1 (proj2 (gate_contract None Demo.t0 Demo.logged_in
                           Demo.authorization))
             Demo.token
             {| Session.session := Demo.session;
                Session.username := "admin";
                Session.full_name := "System Administrator";
                Session.role := "admin" |});
      reflexivity.
  - apply (proj1 (gate_contract None Demo.t0 Demo.logged_in
                    (Some "Basic YWRtaW4="))).
    right. left. eexists. split; [reflexivity|].
    intros token. discriminate.
  - eapply (proj1 (proj2 (proj2 (gate_contract _ Demo.t0 Demo.logged_in
                                   Demo.authorization)))).
    + reflexivity.
    + reflexivity.
Defined.

(** An update of the second event that names the type 'party': the
    [CHECK] refuses it, the endpoint answers 500, and the event keeps its
    title, its type and its update time. *)
Lemma update_with_unlisted_type_changes_nothing :
  In (Demo.event 2 "2025-09-01" "14:30" (Some 7)) (events Demo.with_events)
  /\ Database.updateEvent None Demo.t0 Demo.with_events 2 Demo.new_year_party
     = (Rejected (Sqlite.Constraint (Sqlite.CHECK "events")),
        Demo.with_events)
  /\ Server.put_events None None Demo.t0 Demo.with_events Demo.authorization
       2 Demo.new_year_party
     = (Server.respond 500 (Server.error "Failed to update event"),
        Demo.with_events)
  /\ ~ Forall2 (updated Demo.t0 2 Demo.new_year_party)
        (events Demo.with_events)
        (events (snd (Database.updateEvent None Demo.t0 Demo.with_events 2
                        Demo.new_year_party))).
Proof.
  split; [right; left; reflexivity|].
  split; [vm_compute; reflexivity|].
  split; [vm_compute; reflexivity|].
  intro H. inversion H as [|e1 e1' r r' _ Hrest]; subst.
  inversion Hrest as [|e2 e2' r2 r2' H2 _]; subst.
  destruct H2 as [[Hid _]|(_ & _ & _ & _ & Htitle & _)].
  - now apply Hid.
  - discriminate Htitle.
Qed.

(** An update under an id no event has, and one under the id of the second
    event. *)
Lemma update_event_contract_witness :
  Database.updateEvent None Demo.t0 Demo.with_events 9 Demo.quiz
  = (Rejected Sqlite.EventNotFound, Demo.with_events)
  /\ exists db',
       fst (Database.updateEvent None Demo.t0 Demo.with_events 2 Demo.quiz)
       = Resolved (2, {| Database.a_title := "Quiz";
                         Database.a_description := "Ch.1";
                         Database.a_date := "2025-09-01";
                         Database.a_time := "09:00";
                         Database.a_type := "assignment" |})
       /\ snd (Database.updateEvent None Demo.t0 Demo.with_events 2 Demo.quiz)
          = db'
       /\ Forall2 (updated Demo.t0 2 Demo.quiz) (events Demo.with_events)
            (events db').
Proof.
  split.
  - apply (proj1 (update_event_contract Demo.t0 Demo.with_events 9
                    Demo.quiz)).
    intros e [<-|[<-|[<-|[]]]]; discriminate.
  - destruct (proj1 (proj2 (update_event_contract Demo.t0 Demo.with_events 2
                              Demo.quiz))
                {| Database.a_title := "Quiz";
                   Database.a_description := "Ch.1";
                   Database.a_date := "2025-09-01";
                   Database.a_time := "09:00";
                   Database.a_type := "assignment" |})
      as (db' & Hup & Hrows & _).
    + exists (Demo.event 2 "2025-09-01" "14:30" (Some 7)).
      split; [|reflexivity]. right. left. reflexivity.
    + reflexivity.
    + exists db'. rewrite Hup. repeat split. assumption.
Defined.

(** The listing of the three events: by date and time, the two events
    without a resolvable creator included with a null username. *)
Example listing_of_three_events :
  match fst (@Database.getAllEvents Demo.numbers None Demo.with_events) with
  | Resolved rows =>
      map (fun r => (Event.id (Event.event r), Event.date (Event.event r),
                     Event.time (Event.event r), Event.created_by_username r))
        rows
  | Rejected _ => []
  end
  = [(3, Sqlite.Text "2025-09-01", Sqlite.Text "09:00", None);
     (2, Sqlite.Text "2025-09-01", Sqlite.Text "14:30", None);
     (1, Sqlite.Text "2025-09-03", Sqlite.Text "10:00", Some "admin")].
Proof. vm_compute. reflexivity. Qed.

(** Two events created with the dates "10" and "9", in that order: as
    texts "10" comes before "9", but both columns store the numbers, and the
    listing has the event dated 9 first. *)
Lemma listing_of_numeric_dates_not_lexicographic :
  String.compare "10" "9" = Lt
  /\ map (fun e => (Event.id e, Event.date e)) (events Demo.numbered)
     = [(1, Sqlite.Number "10"); (2, Sqlite.Number "9")]
  /\ match fst (@Database.getAllEvents Demo.numbers None Demo.numbered) with
     | Resolved rows => map (fun r => Event.id (Event.event r)) rows
     | Rejected _ => []
     end
     = [2; 1]
  /\ fst (@Server.get_events Demo.numbers None Demo.numbered)
     = Server.respond 200
         (JArr [JObj [("id", JNum 2); ("title", JStr "Quiz");
                      ("description", JStr "Ch.1"); ("date", JNum 9);
                      ("time", JStr "09:00"); ("type", JStr "webinar");
                      ("created_by", JNum 1);
                      ("created_at", JStr "2025-09-01 09:02:00");
                      ("updated_at", JStr "2025-09-01 09:02:00");
                      ("created_by_username", JStr "admin")];
                JObj [("id", JNum 1); ("title", JStr "Quiz");
                      ("description", JStr "Ch.1"); ("date", JNum 10);
                      ("time", JStr "09:00"); ("type", JStr "webinar");
                      ("created_by", JNum 1);
                      ("created_at", JStr "2025-09-01 09:01:00");
                      ("updated_at", JStr "2025-09-01 09:01:00");
                      ("created_by_username", JStr "admin")]]).
Proof. repeat split; vm_compute; reflexivity. Qed.

Lemma getAllEvents_contract_witness :
  exists rows,
    @Database.getAllEvents Demo.numbers None Demo.with_events
    = (Resolved rows, Demo.with_events)
    /\ Permutation rows
         (map (with_creator (users Demo.with_events))
            (events Demo.with_events))
    /\ StronglySorted lexicographic rows
    /\ In {| Event.event := Demo.event 3 "2025-09-01" "09:00" None;
             Event.created_by_username := None |} rows
    /\ In {| Event.event := Demo.event 2 "2025-09-01" "14:30" (Some 7);
             Event.created_by_username := None |} rows.
Proof.
  destruct (@getAllEvents_contract Demo.numbers Demo.with_events)
    as (rows & Hget & Hperm & _ & Hsorted & Hnull & _).
  - vm_compute. constructor; [intros [] | constructor].
  - exists rows. split; [assumption|]. split; [assumption|].
    split; [|split].
    + apply Hsorted.
      repeat (constructor; [eexists; eexists; split; reflexivity|]).
      constructor.
    + apply Hnull.
      * right. right. left. reflexivity.
      * left. reflexivity.
    + apply Hnull.
      * right. left. reflexivity.
      * right. vm_compute. intros u [<-|[]]. discriminate.
Defined.

(** Registering alice on the seeded file. *)
Example alice_registered :
  @Server.post_register Demo.bcrypt None Demo.t0 "N9qo8uLOickgx2ZMRZoMye"
    Demo.seeded Demo.alice
  = (Server.respond 201
       (JObj [("success", JBool true);
              ("message", JStr "Account created successfully");
              ("user", JObj [("id", JNum 2); ("username", JStr "alice");
                             ("email", JStr "a@x.com");
                             ("fullName", JStr "Alice A")])]),
     {| users :=
          [Demo.admin;
           {| User.id := 2; User.username := "alice";
              User.email := "a@x.com";
              User.password_hash := "$2b$10$N9qo8uLOickgx2ZMRZoMye$secret1";
              User.full_name := "Alice A"; User.role := "admin";
              User.created_at := "2025-09-01 09:00:00";
              User.last_login := None; User.is_active := 1 |}];
        events := []; sessions := [];
        seq_users := 2; seq_events := 0; seq_sessions := 0 |}).
Proof. vm_compute. reflexivity. Qed.

Lemma register_creates_one_identity_witness :
  exists row,
    users (snd (@Server.post_register Demo.bcrypt None Demo.t0
                  "N9qo8uLOickgx2ZMRZoMye" Demo.seeded Demo.alice))
    = (users Demo.seeded ++ [row])%list
    /\ User.password_hash row <> "secret1"
    /\ User.role row = "admin" /\ User.is_active row = 1.
Proof.
  destruct (@register_creates_one_identity Demo.bcrypt Demo.t0
              "N9qo8uLOickgx2ZMRZoMye" Demo.seeded Demo.alice)
    as (row & view & db' & Hpost & Husers & _ & _ & _ & _ & _ & _ & Hne
        & Hrole & Hactive & _).
  - reflexivity.
  - reflexivity.
  - reflexivity.
  - reflexivity.
  - discriminate.
  - intros u [<-|[]]. split; discriminate.
  - exists row. rewrite Hpost. simpl snd.
    split; [assumption|]. repeat split; assumption.
Defined.

(** * Further properties of the handlers *)

(** ** The schema's promises are kept *)

Lemma fold_max_bounds (seq : Z) (ids : list Z) :
  seq <= fold_right Z.max seq ids
  /\ Forall (fun i => i <= fold_right Z.max seq ids) ids.
Proof.
  induction ids as [|i ids [IH1 IH2]]; simpl.
  - split; [lia | constructor].
  - split; [lia|]. constructor; [lia|].
    eapply Forall_impl; [|exact IH2]. simpl. intros. lia.
Qed.

(** A fresh rowid is above the counter and above every rowid in use. *)
Lemma next_rowid_fresh {A : Type} (id : A -> Z) (seq : Z) (l : list A) :
  seq < Sqlite.next_rowid seq (map id l)
  /\ Forall (fun x => id x < Sqlite.next_rowid seq (map id l)) l.
Proof.
  unfold Sqlite.next_rowid.
  destruct (fold_max_bounds seq (map id l)) as [H1 H2].
  split; [lia|].
  rewrite Forall_map in H2.
  eapply Forall_impl; [|exact H2]. simpl. intros. lia.
Qed.

Lemma NoDup_map_snoc {A B : Type} (f : A -> B) (l : list A) (x : A) :
  NoDup (map f l) -> ~ In (f x) (map f l) -> NoDup (map f (l ++ [x])).
Proof.
  intros Hnd Hnew. rewrite map_app. simpl.
  apply NoDup_app; [assumption | repeat constructor; intros [] |].
  intros b Hb [<-|[]]. contradiction.
Qed.

Lemma NoDup_map_filter {Row Key : Type} (key : Row -> Key)
    (keep : Row -> bool) (rows : list Row) :
  NoDup (map key rows) -> NoDup (map key (filter keep rows)).
Proof.
  intro Hkeys. induction rows as [|r rows IH]; simpl; [constructor|].
  simpl in Hkeys. apply NoDup_cons_iff in Hkeys as [Hnew Hrest].
  destruct (keep r); simpl; [|now apply IH].
  constructor; [|now apply IH].
  intro Hin. apply Hnew.
  apply in_map_iff in Hin. destruct Hin as (y & Hy & Hin).
  apply filter_In in Hin. apply in_map_iff. exists y. tauto.
Qed.

Lemma Forall_filter {A : Type} (P : A -> Prop) (p : A -> bool) (l : list A) :
  Forall P l -> Forall P (filter p l).
Proof.
  rewrite !Forall_forall. intros H x Hx. apply filter_In in Hx.
  apply H. tauto.
Qed.

Lemma existsb_text_false {A : Type} (f : A -> string) (l : list A)
    (s : string) :
  existsb (fun x => (f x =? s)%string) l = false -> ~ In s (map f l).
Proof.
  intros Hex Hin. apply in_map_iff in Hin. destruct Hin as (x & Hx & Hin).
  assert (existsb (fun x => (f x =? s)%string) l = true) as Habs.
  { apply existsb_exists. exists x. split; [assumption|].
    now apply String.eqb_eq. }
  congruence.
Qed.

Lemma fresh_not_in {A : Type} (id : A -> Z) (l : list A) (k : Z) :
  Forall (fun x => id x < k) l -> ~ In k (map id l).
Proof.
  intros H Hin. apply in_map_iff in Hin. destruct Hin as (x & Hx & Hin).
  rewrite Forall_forall in H. specialize (H x Hin). lia.
Qed.

Lemma Forall_snoc_below {A : Type} (id : A -> Z) (l : list A) (x : A)
    (seq : Z) :
  Forall (fun y => id y < id x) l ->
  Forall (fun y => id y <= id x) (l ++ [x]).
Proof.
  intro H. apply Forall_app. split.
  - eapply Forall_impl; [|exact H]. simpl. intros. lia.
  - repeat constructor. lia.
Qed.

Section Consistency.

Context {bcrypt : Bcrypt}.

Lemma stamp_keeps_columns (now id : Z) (l : list User.t) :
  map User.id (map (Database.stamp_last_login now id) l) = map User.id l
  /\ map User.username (map (Database.stamp_last_login now id) l)
     = map User.username l
  /\ map User.email (map (Database.stamp_last_login now id) l)
     = map User.email l.
Proof.
  rewrite !map_map. repeat split; apply map_ext; intro u;
    pose proof (stamp_last_login_frame now id u) as F; simpl in F; tauto.
Qed.

Lemma createUser_consistent err now salt db userData :
  consistent db ->
  consistent (snd (Database.createUser err now salt db userData)).
Proof.
  intros [K U E S SK ST SS EK EC ES].
  unfold Database.createUser, Database.run.
  destruct err; [now constructor|].
  destruct (existsb (fun u => (User.email u =? _)%string) _) eqn:He;
    [now constructor|].
  destruct (existsb (fun u => (User.username u =? _)%string) _) eqn:Hu;
    [now constructor|].
  destruct (next_rowid_fresh User.id (seq_users db) (users db)) as [_ Hfresh].
  constructor; simpl; try assumption.
  - apply NoDup_map_snoc; [assumption|]. simpl. now apply fresh_not_in.
  - apply NoDup_map_snoc; [assumption|]. simpl.
    now apply existsb_text_false.
  - apply NoDup_map_snoc; [assumption|]. simpl.
    now apply existsb_text_false.
  - apply Forall_app. split.
    + eapply Forall_impl; [|exact Hfresh]. simpl. intros. lia.
    + repeat constructor. simpl. lia.
Qed.

Lemma validateUser_consistent err err_stamp now db username password :
  consistent db ->
  consistent
    (snd (Database.validateUser err err_stamp now db username password)).
Proof.
  intros [K U E S SK ST SS EK EC ES].
  unfold Database.validateUser.
  destruct err; [now constructor|].
  destruct (filter _ (users db)) as [|user rest]; [now constructor|].
  destruct (Database.password_check password (User.password_hash user))
    as [[|]|]; try (now constructor).
  destruct err_stamp; [now constructor|].
  destruct (stamp_keeps_columns now (User.id user) (users db))
    as (Hid & Hname & Hmail).
  constructor; simpl; try assumption; try congruence.
  apply Forall_map. eapply Forall_impl; [|exact S]. intros u Hu.
  pose proof (stamp_last_login_frame now (User.id user) u) as F.
  simpl in F. destruct F as (-> & _). exact Hu.
Qed.

Lemma createSession_consistent err now db userId token expiresAt :
  consistent db ->
  consistent
    (snd (Database.createSession err now db userId token expiresAt)).
Proof.
  intros [K U E S SK ST SS EK EC ES].
  unfold Database.createSession, Database.run.
  destruct err; [now constructor|].
  destruct (existsb _ (sessions db)) eqn:Ht; [now constructor|].
  destruct (next_rowid_fresh Session.id (seq_sessions db) (sessions db))
    as [_ Hfresh].
  constructor; simpl; try assumption.
  - apply NoDup_map_snoc; [assumption|]. simpl. now apply fresh_not_in.
  - apply NoDup_map_snoc; [assumption|]. simpl.
    now apply existsb_text_false.
  - apply Forall_app. split.
    + eapply Forall_impl; [|exact Hfresh]. simpl. intros. lia.
    + repeat constructor. simpl. lia.
Qed.

Lemma deleteSession_consistent err db token :
  consistent db -> consistent (snd (Database.deleteSession err db token)).
Proof.
  intros [K U E S SK ST SS EK EC ES].
  unfold Database.deleteSession, Database.run.
  destruct err; [now constructor|].
  constructor; simpl; try assumption.
  - now apply NoDup_map_filter.
  - now apply NoDup_map_filter.
  - now apply Forall_filter.
Qed.

Lemma cleanupExpiredSessions_consistent err now db :
  consistent db ->
  consistent (snd (Database.cleanupExpiredSessions err now db)).
Proof.
  intros [K U E S SK ST SS EK EC ES].
  unfold Database.cleanupExpiredSessions, Database.run.
  destruct err; [now constructor|].
  constructor; simpl; try assumption.
  - now apply NoDup_map_filter.
  - now apply NoDup_map_filter.
  - now apply Forall_filter.
Qed.

Lemma createEvent_consistent err now db eventData createdBy :
  consistent db ->
  consistent (snd (Database.createEvent err now db eventData createdBy)).
Proof.
  intros [K U E S SK ST SS EK EC ES].
  unfold Database.createEvent, Database.run.
  destruct err; [now constructor|].
  destruct (Database.constraints eventData) as [c|a] eqn:Hc;
    [now constructor|].
  apply constraints_accepted in Hc.
  destruct (next_rowid_fresh Event.id (seq_events db) (events db))
    as [_ Hfresh].
  constructor; simpl; try assumption.
  - apply NoDup_map_snoc; [assumption|]. simpl. now apply fresh_not_in.
  - apply Forall_app. split; [assumption|].
    constructor; [|constructor]. simpl. tauto.
  - apply Forall_app. split.
    + eapply Forall_impl; [|exact Hfresh]. simpl. intros. lia.
    + repeat constructor. simpl. lia.
Qed.

Lemma updateEvent_consistent err now db eventId eventData :
  consistent db ->
  consistent (snd (Database.updateEvent err now db eventId eventData)).
Proof.
  intros [K U E S SK ST SS EK EC ES].
  unfold Database.updateEvent, Database.run.
  destruct err; [now constructor|].
  destruct (existsb _ (events db)); [|now constructor].
  destruct (Database.constraints eventData) as [c|a] eqn:Hc;
    [now constructor|].
  apply constraints_accepted in Hc.
  assert (forall e,
             Event.id (if Event.id e =? eventId
                       then Database.overwrite now a e else e)
             = Event.id e) as Hid.
  { intro e. now destruct (Event.id e =? eventId). }
  constructor; simpl; try assumption.
  - rewrite map_map. erewrite map_ext; [exact EK|]. exact Hid.
  - apply Forall_map. eapply Forall_impl; [|exact EC]. intros e He.
    destruct (Event.id e =? eventId); [|exact He].
    simpl. tauto.
  - apply Forall_map. eapply Forall_impl; [|exact ES]. intros e He.
    now rewrite Hid.
Qed.

Lemma deleteEvent_consistent err db eventId :
  consistent db -> consistent (snd (Database.deleteEvent err db eventId)).
Proof.
  intros [K U E S SK ST SS EK EC ES].
  unfold Database.deleteEvent, Database.run.
  destruct err; [now constructor|].
  destruct (existsb _ (events db)); [|now constructor].
  constructor; simpl; try assumption.
  - now apply NoDup_map_filter.
  - now apply Forall_filter.
  - now apply Forall_filter.
Qed.

End Consistency.

Section ConsistentHandlers.

Context {bcrypt : Bcrypt} {numbers : Sqlite.Numbers}.

Lemma protected_consistent err_gate now db authorization handler :
  consistent db ->
  (forall user, consistent (snd (handler user))) ->
  consistent
    (snd (Server.protected err_gate now db authorization handler)).
Proof.
  intros Hdb Hhandler. unfold Server.protected.
  destruct (Server.authenticateAdmin err_gate now db authorization);
    [exact Hdb | apply Hhandler].
Qed.

(** Every route and the hourly sweep take a file that keeps the schema's
    promises (primary keys, unique usernames, emails and tokens, listed
    event types, counters above every rowid in use) to a file that keeps
    them, whatever the request, the clock and the driver do; the three
    reading routes return the file as it was. *)
Theorem handlers_keep_store_consistent (db : store) :
  consistent db ->
  (forall err now salt b,
      consistent (snd (Server.post_register err now salt db b)))
  /\ (forall err err_stamp err_insert now token b,
        consistent
          (snd (Server.post_login err err_stamp err_insert now token db b)))
  /\ (forall err_gate err now authorization,
        consistent (snd (Server.post_logout err_gate err now db authorization)))
  /\ (forall err_gate err now authorization b,
        consistent
          (snd (Server.post_events err_gate err now db authorization b)))
  /\ (forall err_gate err now authorization id b,
        consistent
          (snd (Server.put_events err_gate err now db authorization id b)))
  /\ (forall err_gate err now authorization id,
        consistent
          (snd (Server.delete_events err_gate err now db authorization id)))
  /\ (forall err now, consistent (Server.cleanup_task err now db))
  /\ (forall err err_gate now authorization type,
        snd (Server.get_events err db) = db
        /\ snd (Server.get_events_type err db type) = db
        /\ snd (Server.get_verify err_gate now db authorization) = db).
Proof.
  intro Hdb.
  split; [|split; [|split; [|split; [|split; [|split; [|split]]]]]].
  - intros err now salt b. unfold Server.post_register.
    destruct (_ || _); [exact Hdb|]. destruct (_ <? _); [exact Hdb|].
    pose proof (createUser_consistent err now salt db
                  {| Database.ud_username := Server.str (Server.r_username b);
                     Database.ud_email := Server.str (Server.r_email b);
                     Database.ud_password := Server.str (Server.r_password b);
                     Database.ud_fullName := Server.str (Server.r_fullName b) |}
                  Hdb) as H.
    destruct (Database.createUser _ _ _ _ _) as [[u|e] db']; exact H.
  - intros err err_stamp err_insert now token b. unfold Server.post_login.
    destruct (_ || _); [exact Hdb|].
    pose proof (validateUser_consistent err err_stamp now db
                  (Server.str (Server.l_username b))
                  (Server.val (Server.l_password b)) Hdb) as H1.
    destruct (Database.validateUser _ _ _ _ _ _) as [[[[user|]|e]|] db1];
      try exact H1.
    simpl in H1.
    pose proof (createSession_consistent err_insert now db1 (User.id user)
                  token (Clock.toISOString (now + 24 * 60 * 60 * 1000)) H1)
      as H2.
    destruct (Database.createSession _ _ _ _ _ _) as [[k|e] db2]; exact H2.
  - intros err_gate err now authorization. unfold Server.post_logout.
    apply protected_consistent; [exact Hdb|]. intros _.
    pose proof (deleteSession_consistent err db
                  (Js.substring 7 (Server.str authorization)) Hdb) as H.
    destruct (Database.deleteSession _ _ _) as [[u|e] db']; exact H.
  - intros err_gate err now authorization b. unfold Server.post_events.
    apply protected_consistent; [exact Hdb|]. intros user.
    pose proof (createEvent_consistent err now db b (Server.ru_id user) Hdb)
      as H.
    destruct (Database.createEvent _ _ _ _ _) as [[ev|e] db']; exact H.
  - intros err_gate err now authorization id b. unfold Server.put_events.
    apply protected_consistent; [exact Hdb|]. intros _.
    pose proof (updateEvent_consistent err now db id b Hdb) as H.
    destruct (Database.updateEvent _ _ _ _ _) as [[[k a]|e] db']; exact H.
  - intros err_gate err now authorization id. unfold Server.delete_events.
    apply protected_consistent; [exact Hdb|]. intros _.
    pose proof (deleteEvent_consistent err db id Hdb) as H.
    destruct (Database.deleteEvent _ _ _) as [[u|e] db']; exact H.
  - intros err now. unfold Server.cleanup_task.
    now apply cleanupExpiredSessions_consistent.
  - intros err err_gate now authorization type.
    unfold Server.get_events, Server.get_events_type, Server.get_verify,
      Server.protected, Database.getAllEvents, Database.getEventsByType,
      Database.run.
    split; [|split].
    + now destruct err.
    + now destruct err.
    + now destruct (Server.authenticateAdmin err_gate now db authorization).
Qed.

End ConsistentHandlers.

(** ** Tokens and their owners *)

(** What a resolved row tells: it joins a session row carrying the token,
    unexpired for the text comparison, with the active user row it names. *)
Lemma validateSession_resolved_some err now db token v :
  fst (Database.validateSession err now db token) = Resolved (Some v) ->
  exists u,
    In (Session.session v) (sessions db) /\ In u (users db)
    /\ Session.token (Session.session v) = token
    /\ Session.user_id (Session.session v) = User.id u
    /\ User.is_active u = 1
    /\ Sqlite.text_gt (Session.expires_at (Session.session v))
         (Clock.CURRENT_TIMESTAMP now) = true
    /\ Session.username v = User.username u
    /\ Session.full_name v = User.full_name u
    /\ Session.role v = User.role u.
Proof.
  unfold Database.validateSession, Database.run.
  destruct err; [discriminate|]. simpl. intros [= Hv].
  apply hd_error_In in Hv. unfold Database.session_rows in Hv.
  apply in_flat_map in Hv. destruct Hv as (s & Hs & Hv).
  apply in_flat_map in Hv. destruct Hv as (u & Hu & Hv).
  destruct (_ && _) eqn:Hcond; [|contradiction].
  destruct Hv as [<-|[]].
  apply andb_true_iff in Hcond. destruct Hcond as [Hid Hlive].
  unfold Database.live in Hlive.
  apply andb_true_iff in Hlive. destruct Hlive as [Hlive Hact].
  apply andb_true_iff in Hlive. destruct Hlive as [Htok Hexp].
  apply Z.eqb_eq in Hid, Hact. apply String.eqb_eq in Htok.
  exists u. simpl. repeat split; auto.
Qed.

(** What a request let through tells: its header had the shape, and the
    identity attached is read off the row the validation resolved to. *)
Lemma authenticateAdmin_next err now db authorization user :
  Server.authenticateAdmin err now db authorization = Server.Next user ->
  exists token v,
    authorization = Some ("Bearer " ++ token)
    /\ fst (Database.validateSession err now db token) = Resolved (Some v)
    /\ user = {| Server.ru_id := Session.user_id (Session.session v);
                 Server.ru_username := Session.username v;
                 Server.ru_fullName := Session.full_name v;
                 Server.ru_role := Session.role v |}.
Proof.
  intro Hgate.
  destruct authorization as [h|]; [|discriminate].
  destruct (Js.startsWith h "Bearer ") eqn:Hshape.
  2:{ unfold Server.authenticateAdmin in Hgate. simpl Server.str in Hgate.
      rewrite Hshape, orb_true_r in Hgate. discriminate. }
  apply bearer_shape in Hshape. destruct Hshape as [token ->].
  rewrite authenticateAdmin_bearer in Hgate.
  destruct (fst (Database.validateSession err now db token)) as [[v|]|e]
    eqn:Hrow; try discriminate.
  injection Hgate as <-. exists token, v. repeat split. exact Hrow.
Qed.

(** The identity the gate hands to the next handler is that of an active
    user row owning a session row that carries the presented token and has
    not expired for the text comparison: the gate never lets a request
    through under another identity, for a deactivated user, or for a session
    whose user row is gone. *)
Theorem gate_identity_is_owner (err : option Sqlite.fault) (now : Z)
    (db : store) (authorization : option string) (user : Server.reqUser) :
  Server.authenticateAdmin err now db authorization = Server.Next user ->
  exists token s u,
    authorization = Some ("Bearer " ++ token)
    /\ In s (sessions db) /\ In u (users db)
    /\ Session.token s = token
    /\ Session.user_id s = User.id u
    /\ User.is_active u = 1
    /\ Sqlite.text_gt (Session.expires_at s) (Clock.CURRENT_TIMESTAMP now)
       = true
    /\ Server.ru_id user = User.id u
    /\ Server.ru_username user = User.username u
    /\ Server.ru_fullName user = User.full_name u
    /\ Server.ru_role user = User.role u.
Proof.
  intro Hgate.
  destruct (authenticateAdmin_next _ _ _ _ _ Hgate)
    as (token & v & Hheader & Hrow & ->).
  destruct (validateSession_resolved_some _ _ _ _ _ Hrow)
    as (u & Hs & Hu & Htok & Hid & Hact & Hexp & Hname & Hfull & Hrole).
  exists token, (Session.session v), u. simpl.
  repeat split; assumption.
Qed.

Lemma flat_map_filter_idle {A B : Type} (f : A -> list B) (p : A -> bool)
    (l : list A) :
  (forall x, In x l -> p x = false -> f x = []) ->
  flat_map f (filter p l) = flat_map f l.
Proof.
  induction l as [|x l IH]; simpl; intro H; [reflexivity|].
  destruct (p x) eqn:E; simpl.
  - f_equal. apply IH. auto.
  - rewrite (H x (or_introl eq_refl) E). simpl. apply IH. auto.
Qed.

Lemma flat_map_nothing {A B : Type} (f : A -> list B) (l : list A) :
  (forall x, In x l -> f x = []) -> flat_map f l = [].
Proof.
  induction l as [|x l IH]; simpl; intro H; [reflexivity|].
  rewrite (H x (or_introl eq_refl)). simpl. apply IH. auto.
Qed.

(** A session row that fails the [WHERE] clause for every user adds no row
    to the join. *)
Lemma dead_session_adds_nothing now token (us : list User.t) (s : Session.t) :
  (Session.token s =? token)%string
  && Sqlite.text_gt (Session.expires_at s) (Clock.CURRENT_TIMESTAMP now)
  = false ->
  flat_map
    (fun u =>
       if (Session.user_id s =? User.id u) && Database.live now token s u
       then [ {| Session.session := s;
                 Session.username := User.username u;
                 Session.full_name := User.full_name u;
                 Session.role := User.role u |} ]
       else [])
    us = [].
Proof.
  intro Hdead. apply flat_map_nothing. intros u _.
  unfold Database.live. rewrite Hdead. simpl.
  now rewrite andb_false_r.
Qed.

Lemma text_le_not_gt (a b : string) :
  Sqlite.text_le a b = true -> Sqlite.text_gt a b = false.
Proof.
  unfold Sqlite.text_le, Sqlite.text_gt, String.leb, String.ltb.
  rewrite (String.compare_antisym b a).
  destruct (String.compare a b); simpl; congruence.
Qed.

(** Revoking one token leaves the validation of every other token as it
    was: a logout ends one session, not the others. *)
Theorem revoke_spares_other_tokens (err : option Sqlite.fault) (now : Z)
    (db : store) (token token' : string) :
  token' <> token ->
  fst (Database.validateSession err now
         (snd (Database.deleteSession None db token)) token')
  = fst (Database.validateSession err now db token').
Proof.
  intro Hne.
  unfold Database.validateSession, Database.deleteSession, Database.run.
  destruct err; [reflexivity|]. simpl. do 2 f_equal.
  unfold Database.session_rows. simpl.
  apply flat_map_filter_idle. intros s _ Hs.
  apply negb_false_iff, String.eqb_eq in Hs.
  apply dead_session_adds_nothing.
  replace (Session.token s =? token')%string with false; [reflexivity|].
  symmetry. apply String.eqb_neq. congruence.
Qed.

(** The sweep never ends a session that still validates: at the instant of
    the sweep every token validates after it exactly as before it. *)
Theorem sweep_keeps_live_sessions (err : option Sqlite.fault) (now : Z)
    (db : store) (token : string) :
  fst (Database.validateSession err now
         (snd (Database.cleanupExpiredSessions None now db)) token)
  = fst (Database.validateSession err now db token).
Proof.
  unfold Database.validateSession, Database.cleanupExpiredSessions,
    Database.run.
  destruct err; [reflexivity|]. simpl. do 2 f_equal.
  unfold Database.session_rows. simpl.
  apply flat_map_filter_idle. intros s _ Hs.
  apply negb_false_iff in Hs. unfold Database.expired in Hs.
  apply dead_session_adds_nothing.
  now rewrite (text_le_not_gt _ _ Hs), andb_false_r.
Qed.

(** A second sweep at the same instant finds nothing to remove: it
    resolves to 0 and leaves the file as the first sweep left it. *)
Theorem sweep_twice_is_sweep_once (now : Z) (db : store) :
  Database.cleanupExpiredSessions None now
    (snd (Database.cleanupExpiredSessions None now db))
  = (Resolved 0, snd (Database.cleanupExpiredSessions None now db)).
Proof.
  unfold Database.cleanupExpiredSessions, Database.run. simpl.
  rewrite filter_idempotent.
  rewrite (filter_none (Database.expired now)).
  - reflexivity.
  - intros s Hs. apply filter_In in Hs. destruct Hs as [_ Hs].
    now apply negb_true_iff in Hs.
Qed.

Lemma validateSession_after_delete (now : Z) (db : store) (token : string)
    (seq : Z) :
  fst (Database.validateSession None now
         (with_sessions db
            (filter (fun s => negb (Session.token s =? token)%string)
               (sessions db)) seq) token)
  = Resolved None.
Proof.
  unfold Database.validateSession, Database.run, Database.session_rows.
  simpl. rewrite flat_map_nothing; [reflexivity|].
  intros s Hs. apply filter_In in Hs. destruct Hs as [_ Hs].
  apply negb_true_iff in Hs.
  apply dead_session_adds_nothing. now rewrite Hs.
Qed.

(** A logout that is answered 200 removes the sessions under the presented
    token and nothing else, and from then on the gate answers that token
    with 401 at any time. *)
Theorem logout_ends_session (err_gate err : option Sqlite.fault) (now : Z)
    (db : store) (token : string) (r : response) (db' : store) :
  Server.post_logout err_gate err now db (Some ("Bearer " ++ token))
  = (r, db') ->
  status r = 200 ->
  (forall now',
      Server.authenticateAdmin None now' db' (Some ("Bearer " ++ token))
      = Server.Respond
          (Server.respond 401 (Server.error "Invalid or expired token.")))
  /\ sessions db'
     = filter (fun s => negb (Session.token s =? token)%string) (sessions db)
  /\ users db' = users db /\ events db' = events db.
Proof.
  unfold Server.post_logout, Server.protected.
  rewrite authenticateAdmin_bearer.
  destruct (fst (Database.validateSession err_gate now db token))
    as [[v|]|e]; try (intros [= <- _]; discriminate).
  replace (Js.substring 7 (Server.str (Some ("Bearer " ++ token))))
    with token by reflexivity.
  unfold Database.deleteSession, Database.run.
  destruct err; [intros [= <- _]; discriminate|].
  intros [= <- <-] _.
  split; [|simpl; repeat split].
  intro now'. rewrite authenticateAdmin_bearer.
  now rewrite validateSession_after_delete.
Qed.

(** ** Requests that fail *)

Section Failures.

Context {bcrypt : Bcrypt}.

(** A request that is not answered with its success status writes
    nothing: a registration not answered 201, an event creation not
    answered 201, an update, a deletion or a logout not answered 200 leave
    the file as it was, and so does a login answered 400 or 401 or not
    answered at all.  A login not answered 200 leaves the sessions and the
    events as they were. *)
Theorem failed_requests_write_nothing (db : store) :
  (forall err now salt b,
      status (fst (Server.post_register err now salt db b)) <> 201 ->
      snd (Server.post_register err now salt db b) = db)
  /\ (forall err_gate err now authorization b,
        status (fst (Server.post_events err_gate err now db authorization b))
        <> 201 ->
        snd (Server.post_events err_gate err now db authorization b) = db)
  /\ (forall err_gate err now authorization id b,
        status
          (fst (Server.put_events err_gate err now db authorization id b))
        <> 200 ->
        snd (Server.put_events err_gate err now db authorization id b) = db)
  /\ (forall err_gate err now authorization id,
        status
          (fst (Server.delete_events err_gate err now db authorization id))
        <> 200 ->
        snd (Server.delete_events err_gate err now db authorization id) = db)
  /\ (forall err_gate err now authorization,
        status (fst (Server.post_logout err_gate err now db authorization))
        <> 200 ->
        snd (Server.post_logout err_gate err now db authorization) = db)
  /\ (forall err err_stamp err_insert now token b,
        let answer :=
          Server.post_login err err_stamp err_insert now token db b in
        (forall r, fst answer = Some r ->
                   status r = 400 \/ status r = 401 -> snd answer = db)
        /\ (fst answer = None -> snd answer = db)
        /\ ((forall r, fst answer = Some r -> status r <> 200) ->
            sessions (snd answer) = sessions db
            /\ events (snd answer) = events db)).
Proof.
  split; [|split; [|split; [|split; [|split]]]].
  - intros err now salt b. unfold Server.post_register.
    destruct (_ || _); [reflexivity|]. destruct (_ <? _); [reflexivity|].
    unfold Database.createUser, Database.run.
    destruct err; [reflexivity|].
    destruct (existsb (fun u => (User.email u =? _)%string) _);
      [reflexivity|].
    destruct (existsb (fun u => (User.username u =? _)%string) _);
      [reflexivity|].
    simpl. intro H. now destruct H.
  - intros err_gate err now authorization b.
    unfold Server.post_events, Server.protected.
    destruct (Server.authenticateAdmin _ _ _ _); [reflexivity|].
    unfold Database.createEvent, Database.run.
    destruct err; [reflexivity|].
    destruct (Database.constraints b); [reflexivity|].
    simpl. intro H. now destruct H.
  - intros err_gate err now authorization id b.
    unfold Server.put_events, Server.protected.
    destruct (Server.authenticateAdmin _ _ _ _); [reflexivity|].
    unfold Database.updateEvent, Database.run.
    destruct err; [reflexivity|].
    destruct (existsb _ (events db)); [|reflexivity].
    destruct (Database.constraints b); [reflexivity|].
    simpl. intro H. now destruct H.
  - intros err_gate err now authorization id.
    unfold Server.delete_events, Server.protected.
    destruct (Server.authenticateAdmin _ _ _ _); [reflexivity|].
    unfold Database.deleteEvent, Database.run.
    destruct err; [reflexivity|].
    destruct (existsb _ (events db)); [|reflexivity].
    simpl. intro H. now destruct H.
  - intros err_gate err now authorization.
    unfold Server.post_logout, Server.protected.
    destruct (Server.authenticateAdmin _ _ _ _); [reflexivity|].
    unfold Database.deleteSession, Database.run.
    destruct err; [reflexivity|].
    simpl. intro H. now destruct H.
  - intros err err_stamp err_insert now token b. simpl.
    unfold Server.post_login.
    destruct (_ || _).
    { split; [reflexivity|]. split; [reflexivity|]. intros _. now split. }
    destruct (Database.validateUser _ _ _ _ _ _) as [[[[user|]|e]|] db1] eqn:Hv.
    + apply validateUser_resolved_some in Hv.
      destruct Hv as (_ & _ & _ & _ & Hev & Hse & _).
      unfold Database.createSession, Database.run.
      destruct err_insert; simpl.
      { split; [intros r [= <-] [H|H]; discriminate|].
        split; [discriminate | intros _; now split]. }
      destruct (existsb _ (sessions db1)); simpl.
      * split; [intros r [= <-] [H|H]; discriminate|].
        split; [discriminate | intros _; now split].
      * split; [intros r [= <-] [H|H]; discriminate|].
        split; [discriminate|].
        intro H. now destruct (H _ eq_refl).
    + apply validateUser_no_identity in Hv; [|discriminate]. subst db1.
      simpl. split; [reflexivity|]. split; [reflexivity | now split].
    + apply validateUser_no_identity in Hv; [|discriminate]. subst db1.
      simpl. split; [reflexivity|]. split; [reflexivity | now split].
    + apply validateUser_no_identity in Hv; [|discriminate]. subst db1.
      simpl. split; [reflexivity|]. split; [reflexivity | now split].
Qed.

End Failures.

(** ** Events: deleting, creating, listing by type *)

(** The gate reads the users and the sessions only. *)
Lemma authenticateAdmin_ignores_events err now db es seq authorization :
  Server.authenticateAdmin err now (with_events db es seq) authorization
  = Server.authenticateAdmin err now db authorization.
Proof.
  unfold Server.authenticateAdmin, Database.validateSession, Database.run.
  now destruct err.
Qed.

(** A deletion under an id no event row has is rejected with 'Event not
    found', 404 at the endpoint, and leaves the file as it was.  A deletion
    under an id that is present is answered 200, removes exactly the rows
    under that id and touches neither the other rows nor the other tables;
    repeating it is answered 404. *)
Theorem delete_event_contract (err_gate : option Sqlite.fault) (now : Z)
    (db : store) (authorization : option string) (user : Server.reqUser)
    (id : Z) :
  Server.authenticateAdmin err_gate now db authorization = Server.Next user ->
  ((forall e, In e (events db) -> Event.id e <> id) ->
   Server.delete_events err_gate None now db authorization id
   = (Server.respond 404 (Server.error "Event not found"), db))
  /\ ((exists e, In e (events db) /\ Event.id e = id) ->
      exists db',
        Server.delete_events err_gate None now db authorization id
        = (Server.respond 200
             (JObj [("message", JStr "Event deleted successfully")]), db')
        /\ (forall e, In e (events db') <->
                      In e (events db) /\ Event.id e <> id)
        /\ users db' = users db /\ sessions db' = sessions db
        /\ Server.delete_events err_gate None now db' authorization id
           = (Server.respond 404 (Server.error "Event not found"), db')).
Proof.
  intro Hgate. split.
  - intro Habsent. unfold Server.delete_events, Server.protected.
    rewrite Hgate. unfold Database.deleteEvent, Database.run.
    now rewrite existsb_id_false.
  - intro Hpresent. unfold Server.delete_events, Server.protected.
    rewrite Hgate. unfold Database.deleteEvent, Database.run.
    rewrite existsb_id_true by assumption.
    eexists. split; [reflexivity|]. simpl.
    assert (forall e,
               In e (filter (fun e => negb (Event.id e =? id)) (events db))
               <-> In e (events db) /\ Event.id e <> id) as Hrows.
    { intro e. rewrite filter_In, negb_true_iff, Z.eqb_neq. tauto. }
    split; [exact Hrows|]. split; [reflexivity|]. split; [reflexivity|].
    rewrite authenticateAdmin_ignores_events, Hgate.
    rewrite existsb_id_false; [reflexivity|].
    intros e He. now apply Hrows in He.
Qed.

(** The id of a deleted event is not given out again: on a file that keeps
    the schema's promises, an event created after a deletion gets an id
    above the deleted one and above every id still in use. *)
Theorem deleted_event_id_not_reused (now : Z) (db db1 db2 : store)
    (e : Event.t) (d : Event.data) (createdBy : Z)
    (created : Database.createdEvent) :
  consistent db ->
  In e (events db) ->
  Database.deleteEvent None db (Event.id e) = (Resolved tt, db1) ->
  Database.createEvent None now db1 d createdBy = (Resolved created, db2) ->
  Event.id e < Database.ce_id created
  /\ (forall e', In e' (events db1) -> Event.id e' < Database.ce_id created)
  /\ exists row, events db2 = (events db1 ++ [row])%list
                 /\ Event.id row = Database.ce_id created.
Proof.
  intros Hdb He Hdel Hcreate.
  unfold Database.deleteEvent, Database.run in Hdel.
  destruct (existsb _ (events db)); [|discriminate].
  injection Hdel as <-.
  unfold Database.createEvent, Database.run in Hcreate.
  destruct (Database.constraints d) as [c|a]; [discriminate|].
  injection Hcreate as <- <-. simpl.
  destruct (next_rowid_fresh Event.id (seq_events db)
              (filter (fun e0 => negb (Event.id e0 =? Event.id e))
                 (events db))) as [Hseq Hfresh].
  split; [|split].
  - pose proof (events_sequence db Hdb) as Hbelow.
    rewrite Forall_forall in Hbelow. specialize (Hbelow e He). lia.
  - intros e' He'. rewrite Forall_forall in Hfresh. now apply Hfresh.
  - eexists. split; reflexivity.
Qed.

Section ListedEvents.

Context {numbers : Sqlite.Numbers}.

Lemma order_by_date_time_strongly_sorted (l : list Event.listed) :
  StronglySorted (fun a b => Database.date_time_le a b = true)
    (Database.order_by_date_time l).
Proof.
  apply Sorted_StronglySorted.
  - intros a b c. apply date_time_le_trans.
  - induction l as [|x l IH]; simpl; [constructor|].
    now apply insert_ordered_sorted.
Qed.

Lemma insert_before_all (x : Event.listed) (l : list Event.listed) :
  Forall (fun z => Database.date_time_le x z = true) l ->
  Database.insert_ordered x l = x :: l.
Proof.
  destruct l as [|z l]; simpl; [reflexivity|].
  intro H. inversion H as [|? ? Hz _]; subst. now rewrite Hz.
Qed.

(** Leaving rows out commutes with the ordering: rows that stay keep their
    relative order. *)
Lemma filter_insert_ordered (p : Event.listed -> bool) (x : Event.listed)
    (l : list Event.listed) :
  StronglySorted (fun a b => Database.date_time_le a b = true) l ->
  filter p (Database.insert_ordered x l)
  = if p x then Database.insert_ordered x (filter p l) else filter p l.
Proof.
  induction l as [|y l IH]; intro Hs.
  - simpl. now destruct (p x).
  - inversion Hs as [|? ? Hl Hy]; subst. simpl.
    destruct (Database.date_time_le x y) eqn:E.
    + change (filter p (x :: y :: l))
        with (if p x then x :: filter p (y :: l) else filter p (y :: l)).
      destruct (p x); [|reflexivity].
      symmetry. apply insert_before_all.
      apply Forall_filter. constructor; [assumption|].
      eapply Forall_impl; [|exact Hy]. intros z Hz.
      now apply (date_time_le_trans x y z).
    + simpl. rewrite (IH Hl).
      destruct (p y), (p x); simpl; try reflexivity.
      now rewrite E.
Qed.

Lemma order_by_date_time_filter (p : Event.listed -> bool)
    (l : list Event.listed) :
  Database.order_by_date_time (filter p l)
  = filter p (Database.order_by_date_time l).
Proof.
  induction l as [|x l IH]; simpl; [reflexivity|].
  rewrite filter_insert_ordered
    by apply order_by_date_time_strongly_sorted.
  destruct (p x); simpl; now rewrite IH.
Qed.

(** The listing by type is the full listing with the rows of the other
    types left out, in the same order; a type no event has, listed or not
    among the three, gives an empty array and 200, not an error. *)
Theorem getEventsByType_filters_listing (db : store) (type : string) :
  exists every rows,
    Database.getAllEvents None db = (Resolved every, db)
    /\ Database.getEventsByType None db type = (Resolved rows, db)
    /\ rows
       = filter (fun r => (Event.type (Event.event r) =? type)%string) every
    /\ ((forall e, In e (events db) -> Event.type e <> type) ->
        Server.get_events_type None db type
        = (Server.respond 200 (JArr []), db)).
Proof.
  eexists. eexists. split; [reflexivity|]. split; [reflexivity|].
  split; [apply order_by_date_time_filter|].
  intro Hnone.
  unfold Server.get_events_type, Database.getEventsByType, Database.run.
  rewrite filter_none; [reflexivity|].
  intros r Hr. apply in_flat_map in Hr. destruct Hr as (e & He & Hr).
  assert (Event.event r = e) as ->.
  { unfold Database.left_join in Hr.
    destruct (filter (Database.creator e) (users db)) as [|u us].
    - now destruct Hr as [<-|[]].
    - apply in_map_iff in Hr. now destruct Hr as (u' & <- & _). }
  apply String.eqb_neq. auto.
Qed.

(** An event created through the gate shows up in the public listing: the
    creation is answered 201 with an id above every id in use, and the
    listing of the resulting file holds one more row than there were
    events, among them the new event, with the date and the time as their
    columns store them, under the username of the identity the gate let
    through. *)
Theorem created_event_is_listed (err_gate : option Sqlite.fault) (now : Z)
    (db : store) (authorization : option string) (user : Server.reqUser)
    (b : Event.data) (a : Database.accepted) :
  consistent db ->
  Server.authenticateAdmin err_gate now db authorization = Server.Next user ->
  Database.constraints b = inr a ->
  exists id db' rows,
    Server.post_events err_gate None now db authorization b
    = (Server.respond 201
         (JObj (("id", JNum id)
                :: Server.accepted_fields a
                ++ [("created_by", JNum (Server.ru_id user));
                    ("created_at", JStr (Clock.toISOString now))])), db')
    /\ (forall e, In e (events db) -> Event.id e < id)
    /\ Database.getAllEvents None db' = (Resolved rows, db')
    /\ List.length rows = S (List.length (events db))
    /\ In {| Event.event :=
               {| Event.id := id;
                  Event.title := Database.a_title a;
                  Event.description := Database.a_description a;
                  Event.date := Sqlite.numeric (Database.a_date a);
                  Event.time := Sqlite.numeric (Database.a_time a);
                  Event.type := Database.a_type a;
                  Event.created_by := Some (Server.ru_id user);
                  Event.created_at := Clock.CURRENT_TIMESTAMP now;
                  Event.updated_at := Clock.CURRENT_TIMESTAMP now |};
             Event.created_by_username := Some (Server.ru_username user) |}
         rows.
Proof.
  intros Hdb Hgate Hok.
  destruct (authenticateAdmin_next _ _ _ _ _ Hgate)
    as (token & v & _ & Hrow & Huser).
  destruct (validateSession_resolved_some _ _ _ _ _ Hrow)
    as (u & _ & Hu & _ & Hid & _ & _ & Hname & _).
  rewrite Huser in *. simpl in Hid, Hname |- *.
  destruct (next_rowid_fresh Event.id (seq_events db) (events db))
    as [_ Hfresh].
  unfold Server.post_events, Server.protected. rewrite Hgate.
  unfold Database.createEvent, Database.run. rewrite Hok.
  eexists. eexists. eexists. split; [reflexivity|].
  split; [now apply Forall_forall|].
  split; [reflexivity|]. simpl.
  pose proof (users_key db Hdb) as Hkey.
  rewrite (flat_map_singleton _ (with_creator (users db)))
    by (intro e; now apply left_join_one).
  split.
  - rewrite (Permutation_length (order_by_date_time_perm _)).
    rewrite length_map, length_app. simpl. lia.
  - apply (Permutation_in _ (Permutation_sym (order_by_date_time_perm _))).
    apply in_map_iff. eexists. split; [|apply in_or_app; right; now left].
    unfold with_creator. simpl.
    rewrite (creator_username_some _ _ u); simpl; try assumption.
    + now rewrite Hname.
    + now rewrite Hid.
Qed.

End ListedEvents.

(** ** Registration and the first login *)

Section Accounts.

Context {bcrypt : Bcrypt}.

Lemma existsb_text_true {A : Type} (f : A -> string) (l : list A)
    (s : string) :
  (exists x, In x l /\ f x = s) ->
  existsb (fun x => (f x =? s)%string) l = true.
Proof.
  intros (x & Hin & Heq). apply existsb_exists. exists x.
  split; [assumption | now apply String.eqb_eq].
Qed.

Lemma existsb_text_false_intro {A : Type} (f : A -> string) (l : list A)
    (s : string) :
  (forall x, In x l -> f x <> s) ->
  existsb (fun x => (f x =? s)%string) l = false.
Proof.
  intro H. destruct (existsb _ l) eqn:E; [|reflexivity].
  apply existsb_exists in E. destruct E as (x & Hin & Heq).
  apply String.eqb_eq in Heq. now destruct (H x Hin).
Qed.

(** A registration that passes the field checks but names an email some
    identity holds is answered 400 'Email already exists', whether or not
    its username is taken as well; one whose email is free but whose
    username some identity holds is answered 400 'Username already exists'.
    Neither writes. *)
Theorem register_duplicate_is_400 (now : Z) (salt : string) (db : store)
    (b : Server.registerBody) :
  Js.truthy (Server.r_fullName b) = true ->
  Js.truthy (Server.r_email b) = true ->
  Js.truthy (Server.r_username b) = true ->
  Js.truthy (Server.r_password b) = true ->
  6 <= Js.length (Server.str (Server.r_password b)) ->
  ((exists u, In u (users db)
              /\ User.email u = Server.str (Server.r_email b)) ->
   Server.post_register None now salt db b
   = (Server.respond 400 (Server.error "Email already exists"), db))
  /\ ((forall u, In u (users db) ->
                 User.email u <> Server.str (Server.r_email b)) ->
      (exists u, In u (users db)
                 /\ User.username u = Server.str (Server.r_username b)) ->
      Server.post_register None now salt db b
      = (Server.respond 400 (Server.error "Username already exists"), db)).
Proof.
  intros Hf He Hu Hp Hlen.
  unfold Server.post_register. rewrite Hf, He, Hu, Hp. simpl negb. simpl orb.
  cbv iota.
  replace (Js.length (Server.str (Server.r_password b)) <? 6) with false
    by (symmetry; apply Z.ltb_ge; assumption).
  unfold Database.createUser, Database.run. simpl.
  split.
  - intro Htaken.
    rewrite (existsb_text_true User.email) by assumption.
    reflexivity.
  - intros Hfree Htaken.
    rewrite (existsb_text_false_intro User.email) by assumption.
    rewrite (existsb_text_true User.username) by assumption.
    reflexivity.
Qed.

(** What a 201 from the registration tells. *)
Lemma post_register_201 err now salt db b r db1 :
  Server.post_register err now salt db b = (r, db1) ->
  status r = 201 ->
  Js.truthy (Server.r_username b) = true
  /\ Js.truthy (Server.r_password b) = true
  /\ (forall u, In u (users db) ->
                User.username u <> Server.str (Server.r_username b))
  /\ sessions db1 = sessions db /\ events db1 = events db
  /\ seq_sessions db1 = seq_sessions db
  /\ exists row,
       users db1 = (users db ++ [row])%list
       /\ User.username row = Server.str (Server.r_username b)
       /\ User.email row = Server.str (Server.r_email b)
       /\ User.full_name row = Server.str (Server.r_fullName b)
       /\ User.password_hash row
          = hash (Server.str (Server.r_password b)) 10 salt
       /\ User.is_active row = 1
       /\ field "user" (body r)
          = Some (JObj [("id", JNum (User.id row));
                        ("username", JStr (User.username row));
                        ("email", JStr (User.email row));
                        ("fullName", JStr (User.full_name row))]).
Proof.
  unfold Server.post_register.
  destruct (Js.truthy (Server.r_fullName b));
    [|intros [= <- _]; discriminate].
  destruct (Js.truthy (Server.r_email b));
    [|intros [= <- _]; discriminate].
  destruct (Js.truthy (Server.r_username b));
    [|intros [= <- _]; discriminate].
  destruct (Js.truthy (Server.r_password b));
    [|intros [= <- _]; discriminate].
  simpl negb. simpl orb. cbv iota.
  destruct (_ <? 6); [intros [= <- _]; discriminate|].
  unfold Database.createUser, Database.run.
  destruct err as [f|].
  { cbv iota beta. intros [= <- _].
    destruct (Js.includes _ "UNIQUE constraint failed"); [|discriminate].
    destruct (Js.includes _ "username"); [discriminate|].
    destruct (Js.includes _ "email"); discriminate. }
  destruct (existsb (fun u => (User.email u =? _)%string) _) eqn:He;
    [simpl; intros [= <- _]; discriminate|].
  destruct (existsb (fun u => (User.username u =? _)%string) _) eqn:Hu;
    [simpl; intros [= <- _]; discriminate|].
  intros [= <- <-] _. simpl.
  split; [reflexivity|]. split; [reflexivity|]. split.
  { intros u Hin Heq. apply (existsb_text_false _ _ _ Hu).
    apply in_map_iff. now exists u. }
  repeat (split; [reflexivity|]).
  eexists. split; [reflexivity|]. simpl. repeat split; reflexivity.
Qed.

(** Registration and login fit together: after a registration answered
    201, a login under the same username and password is answered 200 with
    the token drawn for it, provided bcrypt recognises the password in the
    digest it made of it and no session carries that token yet; the login
    adds one session row, owned by the new identity and expiring 24 hours
    after the login. *)
Theorem register_then_login (now now' : Z) (salt token : string)
    (db db1 : store) (b : Server.registerBody) (r : response) :
  Server.post_register None now salt db b = (r, db1) ->
  status r = 201 ->
  compare (Server.str (Server.r_password b))
    (hash (Server.str (Server.r_password b)) 10 salt) = true ->
  (forall s, In s (sessions db) -> Session.token s <> token) ->
  exists row s db2,
    users db1 = (users db ++ [row])%list
    /\ Server.post_login None None None now' token db1
         {| Server.l_username := Server.r_username b;
            Server.l_password := option_map JStr (Server.r_password b) |}
       = (Some
            (Server.respond 200
               (JObj [("success", JBool true);
                      ("token", JStr token);
                      ("user",
                       JObj [("id", JNum (User.id row));
                             ("username", JStr (User.username row));
                             ("fullName", JStr (User.full_name row));
                             ("email", JStr (User.email row))]);
                      ("message", JStr "Login successful")])),
          db2)
    /\ sessions db2 = (sessions db ++ [s])%list
    /\ Session.user_id s = User.id row
    /\ Session.token s = token
    /\ Session.expires_at s
       = Clock.toISOString (now' + Clock.SESSION_LIFETIME).
Proof.
  intros Hreg H201 Hbcrypt Hfresh.
  destruct (post_register_201 _ _ _ _ _ _ _ Hreg H201)
    as (Hu & Hp & Hfree & Hsess & _ & Hseq & row & Husers & Hname & _ & _
        & Hhash & Hact & _).
  exists row.
  unfold Server.post_login. simpl Server.l_username. simpl Server.l_password.
  destruct (Server.r_password b) as [password|]; [|discriminate Hp].
  simpl option_map. simpl Server.val. simpl Server.str in Hhash, Hbcrypt.
  change (Js.truthy_json (Some (JStr password)))
    with (Js.truthy (Some password)).
  rewrite Hu, Hp. simpl negb. simpl orb. cbv iota.
  unfold Database.validateUser, Database.password_check.
  rewrite <- Hname.
  rewrite Husers, filter_app.
  rewrite (filter_none _ (users db)).
  2:{ intros u Hin. apply andb_false_iff. left.
      apply String.eqb_neq. rewrite Hname. now apply Hfree. }
  simpl. rewrite String.eqb_refl, Hact. simpl.
  rewrite Hhash, Hbcrypt.
  unfold Database.createSession, Database.run. simpl.
  rewrite Hsess.
  rewrite (existsb_text_false_intro Session.token) by assumption.
  eexists. eexists. split; [reflexivity|]. split; [reflexivity|]. simpl.
  repeat split; reflexivity.
Qed.

End Accounts.

(** ** A fresh token works for 24 hours *)

(** Year of the era, month and day of a day of the 400-year era: what
    [civil_from_days] computes before it adds the era's years. *)
Definition civil_of_doe (doe : Z) : Z * Z * Z :=
  let yoe := (doe - doe / 1460 + doe / 36524 - doe / 146096) / 365 in
  let doy := doe - (365 * yoe + yoe / 4 - yoe / 100) in
  let mp := (5 * doy + 2) / 153 in
  let d := doy - (153 * mp + 2) / 5 + 1 in
  let m := if mp <? 10 then mp + 3 else mp - 9 in
  (yoe + (if m <=? 2 then 1 else 0), m, d).

Definition in_calendar (c : Z * Z * Z) : bool :=
  let '(y, m, d) := c in
  (0 <=? y) && (y <=? 400) && (1 <=? m) && (m <=? 12) && (1 <=? d)
  && (d <=? 31).

(** [c'] is the date after [c]: the next day of the month, the first of the
    next month, or the first of January of the next year. *)
Definition follows (c c' : Z * Z * Z) : bool :=
  let '(y, m, d) := c in
  let '(y', m', d') := c' in
  ((y' =? y) && (m' =? m) && (d' =? d + 1))
  || ((y' =? y) && (m' =? m + 1) && (d' =? 1))
  || ((y' =? y + 1) && (m' =? 1) && (d' =? 1)).

Fixpoint days_follow (fuel : nat) (doe : Z) (c : Z * Z * Z) : bool :=
  match fuel with
  | O => true
  | S fuel' =>
      let c' := civil_of_doe (doe + 1) in
      in_calendar c && in_calendar c' && follows c c'
      && days_follow fuel' (doe + 1) c'
  end.

Fixpoint all_from (p : Z -> bool) (fuel : nat) (n : Z) : bool :=
  match fuel with
  | O => true
  | S fuel' => p n && all_from p fuel' (n + 1)
  end.

Lemma civil_from_days_era (days : Z) :
  Clock.civil_from_days days
  = let z := days + 719468 in
    let '(y, m, d) := civil_of_doe (z mod 146097) in
    (y + z / 146097 * 400, m, d).
Proof.
  unfold Clock.civil_from_days, civil_of_doe. cbv zeta.
  replace (days + 719468 - (days + 719468) / 146097 * 146097)
    with ((days + 719468) mod 146097)
    by (rewrite Z.mod_eq by lia; lia).
  f_equal. f_equal. lia.
Qed.

Lemma days_follow_sound (fuel : nat) (doe : Z) :
  days_follow fuel doe (civil_of_doe doe) = true ->
  forall k, doe <= k < doe + Z.of_nat fuel ->
    in_calendar (civil_of_doe k) = true
    /\ in_calendar (civil_of_doe (k + 1)) = true
    /\ follows (civil_of_doe k) (civil_of_doe (k + 1)) = true.
Proof.
  revert doe. induction fuel as [|fuel IH]; intros doe H k Hk.
  - simpl in Hk. lia.
  - cbn [days_follow] in H. cbv zeta in H.
    apply andb_true_iff in H. destruct H as [H Hrest].
    apply andb_true_iff in H. destruct H as [H Hf].
    apply andb_true_iff in H. destruct H as [Hc Hc'].
    destruct (Z.eq_dec k doe) as [->|Hne]; [auto|].
    apply (IH (doe + 1) Hrest). lia.
Qed.

Lemma all_from_sound (p : Z -> bool) (fuel : nat) (n : Z) :
  all_from p fuel n = true ->
  forall k, n <= k < n + Z.of_nat fuel -> p k = true.
Proof.
  revert n. induction fuel as [|fuel IH]; intros n H k Hk.
  - simpl in Hk. lia.
  - simpl in H. apply andb_true_iff in H. destruct H as [Hn Hrest].
    destruct (Z.eq_dec k n) as [->|Hne]; [assumption|].
    apply (IH (n + 1) Hrest). lia.
Qed.

Lemma era_days_follow :
  days_follow (Z.to_nat 146096) 0 (civil_of_doe 0) = true.
Proof. vm_compute. reflexivity. Qed.

Lemma pad2_ascends :
  all_from (fun n => String.ltb (Clock.pad2 n) (Clock.pad2 (n + 1)))
    (Z.to_nat 99) 0 = true.
Proof. vm_compute. reflexivity. Qed.

Lemma pad4_ascends :
  all_from (fun n => String.ltb (Clock.pad4 n) (Clock.pad4 (n + 1)))
    (Z.to_nat 9999) 0 = true.
Proof. vm_compute. reflexivity. Qed.

Lemma ltb_lt (a b : string) : String.ltb a b = true -> String.compare a b = Lt.
Proof.
  unfold String.ltb. now destruct (String.compare a b).
Qed.

Lemma pad2_next (n : Z) :
  0 <= n <= 98 -> String.compare (Clock.pad2 n) (Clock.pad2 (n + 1)) = Lt.
Proof.
  intro H. apply ltb_lt.
  apply (all_from_sound _ _ _ pad2_ascends n).
  rewrite Z2Nat.id; lia.
Qed.

Lemma pad4_next (n : Z) :
  0 <= n <= 9998 -> String.compare (Clock.pad4 n) (Clock.pad4 (n + 1)) = Lt.
Proof.
  intro H. apply ltb_lt.
  apply (all_from_sound _ _ _ pad4_ascends n).
  rewrite Z2Nat.id; lia.
Qed.

(** Texts of one length are ordered by themselves, whatever follows them. *)
Lemma compare_lt_append (a b x y : string) :
  String.compare a b = Lt -> String.length a = String.length b ->
  String.compare (a ++ x) (b ++ y) = Lt.
Proof.
  revert b. induction a as [|c a IH]; intros [|c' b]; simpl;
    try discriminate.
  destruct (Ascii.compare c c'); try discriminate; try reflexivity.
  intros Hlt Hlen. apply IH; [assumption | now injection Hlen].
Qed.

(** The date after a date, as [civil_from_days] sees it. *)
Lemma civil_from_days_next (days : Z) :
  exists y m d y' m' d',
    Clock.civil_from_days days = (y, m, d)
    /\ Clock.civil_from_days (days + 1) = (y', m', d')
    /\ 1 <= m <= 12 /\ 1 <= d <= 31 /\ 1 <= m' <= 12 /\ 1 <= d' <= 31
    /\ ((y' = y /\ m' = m /\ d' = d + 1)
        \/ (y' = y /\ m' = m + 1 /\ d' = 1)
        \/ (y' = y + 1 /\ m' = 1 /\ d' = 1)).
Proof.
  rewrite !civil_from_days_era. cbv zeta.
  set (z := days + 719468).
  replace (days + 1 + 719468) with (z + 1) by (unfold z; lia).
  pose proof (Z.mod_pos_bound z 146097 ltac:(lia)) as Hr.
  pose proof (Z.div_mod z 146097 ltac:(lia)) as Hz.
  destruct (Z.eq_dec (z mod 146097) 146096) as [Hlast|Hnot].
  - assert ((z + 1) mod 146097 = 0) as ->.
    { symmetry. apply (Z.mod_unique _ _ (z / 146097 + 1)); lia. }
    assert ((z + 1) / 146097 = z / 146097 + 1) as ->.
    { symmetry. apply (Z.div_unique _ _ _ 0); lia. }
    rewrite Hlast.
    change (civil_of_doe 146096) with (400, 2, 29).
    change (civil_of_doe 0) with (0, 3, 1).
    do 6 eexists. split; [reflexivity|]. split; [reflexivity|].
    repeat split; try lia.
  - assert ((z + 1) mod 146097 = z mod 146097 + 1) as ->.
    { symmetry. apply (Z.mod_unique _ _ (z / 146097)); lia. }
    assert ((z + 1) / 146097 = z / 146097) as ->.
    { symmetry. apply (Z.div_unique _ _ _ (z mod 146097 + 1)); lia. }
    destruct (days_follow_sound _ _ era_days_follow (z mod 146097))
      as (Hc & Hc' & Hf).
    { rewrite Z2Nat.id; lia. }
    destruct (civil_of_doe (z mod 146097)) as [[y m] d].
    destruct (civil_of_doe (z mod 146097 + 1)) as [[y' m'] d'].
    unfold in_calendar in Hc, Hc'. unfold follows in Hf.
    do 6 eexists. split; [reflexivity|]. split; [reflexivity|].
    lia.
Qed.

Lemma ymd_length (days : Z) : String.length (Clock.ymd days) = 10%nat.
Proof.
  unfold Clock.ymd. now destruct (Clock.civil_from_days days) as [[y m] d].
Qed.

(** Within the years written with four digits, the date of a day is below
    the date of the next day as text. *)
Lemma ymd_next (days : Z) :
  (let '(y, _, _) := Clock.civil_from_days days in 0 <= y) ->
  (let '(y, _, _) := Clock.civil_from_days (days + 1) in y <= 9999) ->
  String.compare (Clock.ymd days) (Clock.ymd (days + 1)) = Lt.
Proof.
  unfold Clock.ymd.
  destruct (civil_from_days_next days)
    as (y & m & d & y' & m' & d' & -> & -> & Hm & Hd & Hm' & Hd' & Hnext).
  intros Hy Hy'.
  destruct Hnext as [(-> & -> & ->)|[(-> & -> & ->)|(-> & -> & ->)]].
  - rewrite compare_common_prefix.
    rewrite (compare_common_prefix "-").
    rewrite compare_common_prefix.
    rewrite (compare_common_prefix "-").
    apply pad2_next. lia.
  - rewrite compare_common_prefix.
    rewrite (compare_common_prefix "-").
    apply compare_lt_append; [apply pad2_next; lia | reflexivity].
  - apply compare_lt_append; [apply pad4_next; lia | reflexivity].
Qed.

(** On the day before the day of an ISO timestamp every SQLite timestamp
    is below it. *)
Lemma iso_above_timestamp_of_day_before (e t : Z) :
  Clock.four_digit_year t = true ->
  Clock.four_digit_year e = true ->
  e / Clock.MS_PER_DAY = t / Clock.MS_PER_DAY + 1 ->
  Sqlite.text_gt (Clock.toISOString e) (Clock.CURRENT_TIMESTAMP t) = true.
Proof.
  intros Ht He Hday.
  unfold Sqlite.text_gt, String.ltb, Clock.CURRENT_TIMESTAMP, Clock.toISOString.
  pose proof (ymd_next (t / Clock.MS_PER_DAY)) as Hnext.
  unfold Clock.four_digit_year in Ht, He.
  rewrite Hday in *.
  destruct (Clock.civil_from_days (t / Clock.MS_PER_DAY)) as [[y m] d].
  destruct (Clock.civil_from_days (t / Clock.MS_PER_DAY + 1)) as [[y' m'] d'].
  rewrite He.
  rewrite compare_lt_append; [reflexivity | |].
  - apply Hnext; lia.
  - now rewrite !ymd_length.
Qed.

Lemma NoDup_map_injective {A B : Type} (f : A -> B) (l : list A) (a b : A) :
  NoDup (map f l) -> In a l -> In b l -> f a = f b -> a = b.
Proof.
  induction l as [|x l IH]; simpl; intros Hnd Ha Hb Heq; [contradiction|].
  inversion Hnd as [|? ? Hnotin Hnd']; subst.
  destruct Ha as [->|Ha], Hb as [->|Hb]; auto.
  - exfalso. apply Hnotin. rewrite Heq. now apply in_map.
  - exfalso. apply Hnotin. rewrite <- Heq. now apply in_map.
Qed.

Section FreshToken.

Context {bcrypt : Bcrypt}.

(** After a successful credential check the row of the identity is in the
    table, active, under the same id and name. *)
Lemma validated_user_row err err_stamp now db username password user db1 :
  Database.validateUser err err_stamp now db username password
  = (Settled (Resolved (Some user)), db1) ->
  exists u, In u (users db1) /\ User.id u = User.id user
            /\ User.username u = username /\ User.is_active u = 1.
Proof.
  intro Hv. apply validateUser_resolved_some in Hv.
  destruct Hv as (Hin & Hname & Hact & _ & _ & _ & _ & [Hus|Hus]).
  - exists user. rewrite Hus. auto.
  - exists (Database.stamp_last_login now (User.id user) user).
    rewrite Hus. split; [now apply in_map|].
    pose proof (stamp_last_login_frame now (User.id user) user) as F.
    simpl in F. destruct F as (Fid & Fname & _ & _ & _ & _ & _ & Fact).
    repeat split; congruence.
Qed.

(** A login answered 200 gives a token that works: on a file that keeps the
    schema's promises, from the instant of the login to the instant of the
    expiry 24 hours later the gate lets the token through, under the id,
    username, full name and role of the identity that logged in, and the
    verify route answers 200 with them. *)
Theorem fresh_token_passes_gate
    err err_stamp err_insert now token db b resp db' t :
  consistent db ->
  Server.post_login err err_stamp err_insert now token db b
  = (Some resp, db') ->
  status resp = 200 ->
  Clock.four_digit_year now = true ->
  Clock.four_digit_year (now + Clock.SESSION_LIFETIME) = true ->
  now <= t <= now + Clock.SESSION_LIFETIME ->
  exists u,
    In u (users db')
    /\ User.username u = Server.str (Server.l_username b)
    /\ Server.authenticateAdmin None t db' (Some ("Bearer " ++ token))
       = Server.Next {| Server.ru_id := User.id u;
                        Server.ru_username := User.username u;
                        Server.ru_fullName := User.full_name u;
                        Server.ru_role := User.role u |}
    /\ Server.get_verify None t db' (Some ("Bearer " ++ token))
       = (Server.respond 200
            (JObj [("success", JBool true);
                   ("message", JStr "Token is valid");
                   ("user",
                    JObj [("id", JNum (User.id u));
                          ("username", JStr (User.username u));
                          ("fullName", JStr (User.full_name u));
                          ("role", JStr (User.role u))])]),
          db').
Proof.
  intros Hdb Hlogin H200 Hy Hye Ht.
  destruct (post_login_200 _ _ _ _ _ _ _ _ _ Hlogin H200)
    as (user & db1 & k & Hv & Hc).
  pose proof (validateUser_consistent err err_stamp now db
                (Server.str (Server.l_username b))
                (Server.val (Server.l_password b)) Hdb) as Hdb1.
  rewrite Hv in Hdb1. simpl in Hdb1.
  destruct (validated_user_row _ _ _ _ _ _ _ _ Hv)
    as (u & Hu & Huid & Huname & Hact).
  apply createSession_resolved in Hc.
  destruct Hc as (Husers & _ & Hfresh & row & Hrows & Hrid & Hrtok & Hrexp).
  change (24 * 60 * 60 * 1000) with Clock.SESSION_LIFETIME in Hrexp.
  assert (In row (sessions db')) as Hrow.
  { rewrite Hrows. apply in_or_app. right. now left. }
  assert (Sqlite.text_gt (Session.expires_at row) (Clock.CURRENT_TIMESTAMP t)
          = true) as Hexp.
  { rewrite Hrexp.
    assert ((now + Clock.SESSION_LIFETIME) / Clock.MS_PER_DAY
            = now / Clock.MS_PER_DAY + 1) as Hday.
    { unfold Clock.SESSION_LIFETIME, Clock.MS_PER_DAY.
      replace (now + 24 * 60 * 60 * 1000) with (now + 1 * 86400000) by lia.
      now rewrite Z.div_add by lia. }
    assert (now / Clock.MS_PER_DAY <= t / Clock.MS_PER_DAY
            <= now / Clock.MS_PER_DAY + 1) as Hdays.
    { rewrite <- Hday. unfold Clock.MS_PER_DAY.
      split; apply Z.div_le_mono; lia. }
    destruct (Z.eq_dec (t / Clock.MS_PER_DAY) (now / Clock.MS_PER_DAY))
      as [Hsame|Hnext].
    - apply iso_above_timestamp_of_day_before; try assumption; [|lia].
      unfold Clock.four_digit_year in *. now rewrite Hsame.
    - apply iso_above_timestamp_of_same_day; [assumption | lia]. }
  destruct (session_rows_intro t token db' row u) as (v0 & Hv0 & _);
    try assumption; try congruence.
  destruct (In_hd_error _ _ Hv0) as (v & Hhd).
  assert (fst (Database.validateSession None t db' token)
          = Resolved (Some v)) as Hval.
  { unfold Database.validateSession, Database.run. simpl. now rewrite Hhd. }
  destruct (validateSession_resolved_some _ _ _ _ _ Hval)
    as (u' & Hs & Hu' & Htok & Hid & _ & _ & Hname & Hfull & Hrole).
  assert (Session.session v = row) as Hsession.
  { rewrite Hrows in Hs. apply in_app_or in Hs.
    destruct Hs as [Hs|[<-|[]]]; [|reflexivity].
    exfalso. exact (Hfresh _ Hs Htok). }
  assert (u' = u) as ->.
  { apply (NoDup_map_injective User.id (users db')); try assumption.
    - rewrite Husers. exact (users_key _ Hdb1).
    - congruence.
    - congruence. }
  assert (Server.authenticateAdmin None t db' (Some ("Bearer " ++ token))
          = Server.Next {| Server.ru_id := User.id u;
                           Server.ru_username := User.username u;
                           Server.ru_fullName := User.full_name u;
                           Server.ru_role := User.role u |}) as Hgate.
  { rewrite authenticateAdmin_bearer, Hval.
    rewrite Hname, Hfull, Hrole, Hid. reflexivity. }
  exists u. split; [congruence|]. split; [assumption|].
  split; [assumption|].
  unfold Server.get_verify, Server.protected. now rewrite Hgate.
Qed.

End FreshToken.

(** * The further properties on the concrete deployment *)

Ltac distinct :=
  repeat (constructor; [simpl; intuition (discriminate || lia)|]);
  constructor.

Ltac each := repeat (constructor; [simpl; (lia || tauto)|]); constructor.

Lemma seeded_consistent : consistent Demo.seeded.
Proof. constructor; simpl; first [distinct | each]. Qed.

Lemma logged_in_consistent : consistent Demo.logged_in.
Proof. constructor; vm_compute; first [distinct | each]. Qed.

Lemma with_events_consistent : consistent Demo.with_events.
Proof. constructor; vm_compute; first [distinct | each]. Qed.

Lemma handlers_keep_store_consistent_witness :
  consistent
    (snd (@Server.post_register Demo.bcrypt None Demo.t0
            "N9qo8uLOickgx2ZMRZoMye" Demo.seeded Demo.alice))
  /\ consistent Demo.logged_in
  /\ consistent
       (snd (Server.post_events None None Demo.t0 Demo.logged_in
               Demo.authorization Demo.quiz)).
Proof.
  split; [|split].
  - exact (proj1 (@handlers_keep_store_consistent Demo.bcrypt Demo.numbers
                    Demo.seeded seeded_consistent)
             None Demo.t0 "N9qo8uLOickgx2ZMRZoMye" Demo.alice).
  - exact (proj1 (proj2 (@handlers_keep_store_consistent Demo.bcrypt
                           Demo.numbers Demo.seeded seeded_consistent))
             None None None Demo.t0 Demo.token Demo.credentials).
  - exact (proj1 (proj2 (proj2 (proj2
                    (@handlers_keep_store_consistent Demo.bcrypt
                       Demo.numbers Demo.logged_in logged_in_consistent))))
             None None Demo.t0 Demo.authorization Demo.quiz).
Defined.

(** Registering under the administrator's username and email at once,
    then under his email and another username, then under his username and
    another email. *)
Lemma register_duplicate_is_400_witness :
  @Server.post_register Demo.bcrypt None Demo.t0 "N9qo8uLOickgx2ZMRZoMye"
    Demo.seeded
    {| Server.r_fullName := Some "Second Admin";
       Server.r_email := Some "admin@boxo.com";
       Server.r_username := Some "admin";
       Server.r_password := Some "secret1" |}
  = (Server.respond 400 (Server.error "Email already exists"), Demo.seeded)
  /\ @Server.post_register Demo.bcrypt None Demo.t0 "N9qo8uLOickgx2ZMRZoMye"
       Demo.seeded
       {| Server.r_fullName := Some "Second Admin";
          Server.r_email := Some "admin@boxo.com";
          Server.r_username := Some "second";
          Server.r_password := Some "secret1" |}
     = (Server.respond 400 (Server.error "Email already exists"),
        Demo.seeded)
  /\ @Server.post_register Demo.bcrypt None Demo.t0 "N9qo8uLOickgx2ZMRZoMye"
       Demo.seeded
       {| Server.r_fullName := Some "Second Admin";
          Server.r_email := Some "second@boxo.com";
          Server.r_username := Some "admin";
          Server.r_password := Some "secret1" |}
     = (Server.respond 400 (Server.error "Username already exists"),
        Demo.seeded).
Proof.
  split; [|split].
  - apply (proj1 (@register_duplicate_is_400 Demo.bcrypt Demo.t0
                    "N9qo8uLOickgx2ZMRZoMye" Demo.seeded
                    {| Server.r_fullName := Some "Second Admin";
                       Server.r_email := Some "admin@boxo.com";
                       Server.r_username := Some "admin";
                       Server.r_password := Some "secret1" |}
                    eq_refl eq_refl eq_refl eq_refl
                    ltac:(vm_compute; discriminate))).
    exists Demo.admin. split; [now left | reflexivity].
  - apply (proj1 (@register_duplicate_is_400 Demo.bcrypt Demo.t0
                    "N9qo8uLOickgx2ZMRZoMye" Demo.seeded
                    {| Server.r_fullName := Some "Second Admin";
                       Server.r_email := Some "admin@boxo.com";
                       Server.r_username := Some "second";
                       Server.r_password := Some "secret1" |}
                    eq_refl eq_refl eq_refl eq_refl
                    ltac:(vm_compute; discriminate))).
    exists Demo.admin. split; [now left | reflexivity].
  - apply (proj2 (@register_duplicate_is_400 Demo.bcrypt Demo.t0
                    "N9qo8uLOickgx2ZMRZoMye" Demo.seeded
                    {| Server.r_fullName := Some "Second Admin";
                       Server.r_email := Some "second@boxo.com";
                       Server.r_username := Some "admin";
                       Server.r_password := Some "secret1" |}
                    eq_refl eq_refl eq_refl eq_refl
                    ltac:(vm_compute; discriminate))).
    + intros u [<-|[]]. discriminate.
    + exists Demo.admin. split; [now left | reflexivity].
Defined.

(** A registration without a password and a creation under an unlisted
    type leave the file alone. *)
Lemma failed_requests_write_nothing_witness :
  snd (@Server.post_register Demo.bcrypt None Demo.t0
         "N9qo8uLOickgx2ZMRZoMye" Demo.seeded
         {| Server.r_fullName := Some "Alice A";
            Server.r_email := Some "a@x.com";
            Server.r_username := Some "alice";
            Server.r_password := None |}) = Demo.seeded
  /\ snd (Server.post_events None None Demo.t0 Demo.logged_in
            Demo.authorization Demo.party) = Demo.logged_in.
Proof.
  split.
  - apply (proj1 (@failed_requests_write_nothing Demo.bcrypt Demo.seeded)).
    vm_compute. discriminate.
  - apply (proj1 (proj2 (@failed_requests_write_nothing Demo.bcrypt
                           Demo.logged_in))).
    vm_compute. discriminate.
Defined.

(** The file after alice registered at [t0]. *)
Definition registered : store :=
  snd (@Server.post_register Demo.bcrypt None Demo.t0
         "N9qo8uLOickgx2ZMRZoMye" Demo.seeded Demo.alice).

(** A login under the number 123456 as password: under a username no
    identity has it is answered 401; under the administrator's it is never
    answered. *)
Lemma login_password_not_a_string_witness :
  @Server.post_login Demo.bcrypt None None None Demo.t0 Demo.token
    Demo.seeded Demo.numeric_unknown_attempt
  = (Some InvalidCredentials, Demo.seeded)
  /\ @Server.post_login Demo.bcrypt None None None Demo.t0 Demo.token
       Demo.seeded Demo.numeric_attempt
     = (None, Demo.seeded).
Proof.
  split.
  - apply (proj1 (@login_password_not_a_string Demo.bcrypt None None Demo.t0
                    Demo.token Demo.seeded Demo.numeric_unknown_attempt
                    "nobody" (JNum 123456) eq_refl ltac:(discriminate)
                    eq_refl eq_refl ltac:(intro; discriminate))).
    left. intros u [<-|[]]. discriminate.
  - apply (proj2 (@login_password_not_a_string Demo.bcrypt None None Demo.t0
                    Demo.token Demo.seeded Demo.numeric_attempt
                    "admin" (JNum 123456) eq_refl ltac:(discriminate)
                    eq_refl eq_refl ltac:(intro; discriminate))).
    exists Demo.admin. split; [now left|]. split; reflexivity.
Defined.

(** Alice logs in a minute after she registered. *)
Lemma register_then_login_witness :
  exists row s db2,
    @Server.post_login Demo.bcrypt None None None (Demo.t0 + 60000)
      Demo.token registered
      {| Server.l_username := Server.r_username Demo.alice;
         Server.l_password := option_map JStr (Server.r_password Demo.alice) |}
    = (Some
         (Server.respond 200
            (JObj [("success", JBool true);
                   ("token", JStr Demo.token);
                   ("user",
                    JObj [("id", JNum (User.id row));
                          ("username", JStr (User.username row));
                          ("fullName", JStr (User.full_name row));
                          ("email", JStr (User.email row))]);
                   ("message", JStr "Login successful")])),
       db2)
    /\ sessions db2 = [s]
    /\ Session.user_id s = User.id row.
Proof.
  destruct (@register_then_login Demo.bcrypt Demo.t0 (Demo.t0 + 60000)
              "N9qo8uLOickgx2ZMRZoMye" Demo.token Demo.seeded registered
              Demo.alice
              (fst (@Server.post_register Demo.bcrypt None Demo.t0
                      "N9qo8uLOickgx2ZMRZoMye" Demo.seeded Demo.alice)))
    as (row & s & db2 & Husers & Hlogin & Hsessions & Howner & _).
  - vm_compute; reflexivity.
  - vm_compute; reflexivity.
  - vm_compute; reflexivity.
  - intros s [].
  - exists row, s, db2.
    split; [exact Hlogin|]. split; assumption.
Defined.

(** The administrator's token one hour after the login of [t0]. *)
Lemma fresh_token_passes_gate_witness :
  exists u,
    In u (users Demo.logged_in)
    /\ User.username u = "admin"
    /\ Server.authenticateAdmin None (Demo.t0 + 3600000) Demo.logged_in
         Demo.authorization
       = Server.Next {| Server.ru_id := User.id u;
                        Server.ru_username := User.username u;
                        Server.ru_fullName := User.full_name u;
                        Server.ru_role := User.role u |}.
Proof.
  destruct (@fresh_token_passes_gate Demo.bcrypt None None None Demo.t0
              Demo.token Demo.seeded Demo.credentials Demo.welcome
              Demo.logged_in (Demo.t0 + 3600000))
    as (u & Hu & Hname & Hgate & _).
  - exact seeded_consistent.
  - vm_compute. reflexivity.
  - vm_compute. reflexivity.
  - vm_compute. reflexivity.
  - vm_compute. reflexivity.
  - split; vm_compute; discriminate.
  - exists u. repeat split; assumption.
Defined.

(** The administrator logs out. *)
Lemma logout_ends_session_witness :
  sessions (snd (Server.post_logout None None Demo.t0 Demo.logged_in
                   Demo.authorization)) = []
  /\ Server.authenticateAdmin None (Demo.t0 + 1000)
       (snd (Server.post_logout None None Demo.t0 Demo.logged_in
               Demo.authorization)) Demo.authorization
     = Server.Respond
         (Server.respond 401 (Server.error "Invalid or expired token.")).
Proof.
  destruct (logout_ends_session None None Demo.t0 Demo.logged_in Demo.token
              (fst (Server.post_logout None None Demo.t0 Demo.logged_in
                      Demo.authorization))
              (snd (Server.post_logout None None Demo.t0 Demo.logged_in
                      Demo.authorization)))
    as (Hgate & Hsessions & _).
  - vm_compute. reflexivity.
  - vm_compute. reflexivity.
  - split; [rewrite Hsessions; vm_compute; reflexivity | apply Hgate].
Defined.

Definition administrator : Server.reqUser :=
  {| Server.ru_id := 1; Server.ru_username := "admin";
     Server.ru_fullName := "System Administrator";
     Server.ru_role := "admin" |}.

Lemma administrator_let_through :
  Server.authenticateAdmin None Demo.t0 Demo.with_events Demo.authorization
  = Server.Next administrator.
Proof. vm_compute. reflexivity. Qed.

(** Deleting an event no row holds, and the second of the three events,
    twice. *)
Lemma delete_event_contract_witness :
  Server.delete_events None None Demo.t0 Demo.with_events Demo.authorization 9
  = (Server.respond 404 (Server.error "Event not found"), Demo.with_events)
  /\ exists db',
       Server.delete_events None None Demo.t0 Demo.with_events
         Demo.authorization 2
       = (Server.respond 200
            (JObj [("message", JStr "Event deleted successfully")]), db')
       /\ Server.delete_events None None Demo.t0 db' Demo.authorization 2
          = (Server.respond 404 (Server.error "Event not found"), db').
Proof.
  destruct (delete_event_contract None Demo.t0 Demo.with_events
              Demo.authorization administrator 9 administrator_let_through)
    as (Habsent & _).
  destruct (delete_event_contract None Demo.t0 Demo.with_events
              Demo.authorization administrator 2 administrator_let_through)
    as (_ & Hpresent).
  split.
  - apply Habsent. intros e [<-|[<-|[<-|[]]]]; discriminate.
  - destruct Hpresent as (db' & Hdel & _ & _ & _ & Hagain).
    + exists (Demo.event 2 "2025-09-01" "14:30" (Some 7)).
      split; [right; left; reflexivity | reflexivity].
    + exists db'. split; assumption.
Defined.

(** The third event is deleted and a quiz created: it gets the id 4. *)
Lemma deleted_event_id_not_reused_witness :
  exists created db2,
    Database.createEvent None Demo.t0
      (snd (Database.deleteEvent None Demo.with_events 3)) Demo.quiz 1
    = (Resolved created, db2)
    /\ 3 < Database.ce_id created.
Proof.
  destruct (Database.createEvent None Demo.t0
              (snd (Database.deleteEvent None Demo.with_events 3))
              Demo.quiz 1) as [[created|e] db2] eqn:Hcreate;
    [|vm_compute in Hcreate; discriminate].
  exists created, db2. split; [reflexivity|].
  apply (deleted_event_id_not_reused Demo.t0 Demo.with_events
           (snd (Database.deleteEvent None Demo.with_events 3)) db2
           (Demo.event 3 "2025-09-01" "09:00" None) Demo.quiz 1 created).
  - exact with_events_consistent.
  - right. right. left. reflexivity.
  - vm_compute. reflexivity.
  - exact Hcreate.
Defined.

(** The webinars among the three events are all three, in the order of
    the full listing; a type none has gives an empty array. *)
Example webinars_of_three_events :
  match fst (@Database.getEventsByType Demo.numbers None Demo.with_events
               "webinar") with
  | Resolved rows => map (fun r => Event.id (Event.event r)) rows
  | Rejected _ => []
  end = [3; 2; 1].
Proof. vm_compute. reflexivity. Qed.

Lemma getEventsByType_filters_listing_witness :
  @Server.get_events_type Demo.numbers None Demo.with_events "party"
  = (Server.respond 200 (JArr []), Demo.with_events).
Proof.
  destruct (@getEventsByType_filters_listing Demo.numbers Demo.with_events
              "party")
    as (_ & _ & _ & _ & _ & Hnone).
  apply Hnone. intros e [<-|[<-|[<-|[]]]]; discriminate.
Defined.

(** The administrator creates the quiz on the file of the three events. *)
Lemma created_event_is_listed_witness :
  exists id db' rows,
    status (fst (Server.post_events None None Demo.t0 Demo.with_events
                   Demo.authorization Demo.quiz)) = 201
    /\ @Database.getAllEvents Demo.numbers None db' = (Resolved rows, db')
    /\ List.length rows = 4%nat
    /\ In (id, Some "admin")
         (map (fun r => (Event.id (Event.event r),
                         Event.created_by_username r)) rows)
    /\ 3 < id.
Proof.
  destruct (@created_event_is_listed Demo.numbers None Demo.t0
              Demo.with_events
              Demo.authorization administrator Demo.quiz
              {| Database.a_title := "Quiz";
                 Database.a_description := "Ch.1";
                 Database.a_date := "2025-09-01";
                 Database.a_time := "09:00";
                 Database.a_type := "assignment" |}
              with_events_consistent administrator_let_through eq_refl)
    as (id & db' & rows & Hpost & Hfresh & Hlist & Hlen & Hin).
  exists id, db', rows.
  split; [now rewrite Hpost|]. split; [assumption|].
  split; [assumption|]. split.
  - apply in_map_iff. eexists. split; [|exact Hin]. reflexivity.
  - apply (Hfresh (Demo.event 3 "2025-09-01" "09:00" None)).
    right. right. left. reflexivity.
Defined.

(** The identity the gate attached to the administrator's request. *)
Lemma gate_identity_is_owner_witness :
  exists s u,
    In s (sessions Demo.with_events) /\ In u (users Demo.with_events)
    /\ Session.token s = Demo.token
    /\ Session.user_id s = User.id u
    /\ User.id u = 1 /\ User.username u = "admin".
Proof.
  destruct (gate_identity_is_owner None Demo.t0 Demo.with_events
              Demo.authorization administrator administrator_let_through)
    as (token & s & u & Hheader & Hs & Hu & Htok & Hid & _ & _ & Huid
        & Hname & _).
  exists s, u. injection Hheader as <-.
  repeat split; try assumption; symmetry; assumption.
Defined.

(** Logging another token out does not end the administrator's session. *)
Lemma revoke_spares_other_tokens_witness :
  exists v,
    fst (Database.validateSession None Demo.t0
           (snd (Database.deleteSession None Demo.logged_in "00"))
           Demo.token)
    = Resolved (Some v).
Proof.
  rewrite (revoke_spares_other_tokens None Demo.t0 Demo.logged_in "00"
             Demo.token).
  - eexists. vm_compute. reflexivity.
  - discriminate.
Defined.

(** ** One token, one row *)

Lemma filter_unique_key {A B : Type} (f : A -> B) (p : A -> bool)
    (l : list A) :
  NoDup (map f l) ->
  (forall x y, In x l -> In y l -> p x = true -> p y = true -> f x = f y) ->
  (List.length (filter p l) <= 1)%nat.
Proof.
  induction l as [|x l IH]; simpl; intros Hnd Hkey; [lia|].
  inversion Hnd as [|? ? Hnotin Hnd']; subst.
  destruct (p x) eqn:Hx.
  - rewrite filter_none; [simpl; lia|].
    intros y Hy. destruct (p y) eqn:Hpy; [|reflexivity].
    exfalso. apply Hnotin.
    rewrite (Hkey x y (or_introl eq_refl) (or_intror Hy) Hx Hpy).
    now apply in_map.
  - apply IH; [assumption|]. intros a b Ha Hb. apply Hkey; now right.
Qed.

Lemma flat_map_length_filter {A B : Type} (g : A -> list B) (p : A -> bool)
    (l : list A) :
  (forall x, p x = false -> g x = []) ->
  (forall x, (List.length (g x) <= 1)%nat) ->
  (List.length (flat_map g l) <= List.length (filter p l))%nat.
Proof.
  intros Hidle Hone. induction l as [|x l IH]; simpl; [lia|].
  rewrite length_app. destruct (p x) eqn:Hx; simpl.
  - specialize (Hone x). lia.
  - rewrite (Hidle x Hx). simpl. lia.
Qed.

(** On a file that keeps the schema's promises the join of
    [validateSession] has at most one row: the row [db.get] picks is the
    only one, so a token never stands for two identities. *)
Theorem token_resolves_to_one_row (now : Z) (db : store) (token : string)
    (v : Session.view) :
  consistent db ->
  In v (Database.session_rows now token db) ->
  Database.session_rows now token db = [v]
  /\ fst (Database.validateSession None now db token) = Resolved (Some v).
Proof.
  intros Hdb Hv.
  assert (List.length (Database.session_rows now token db) <= 1)%nat as Hlen.
  { unfold Database.session_rows.
    etransitivity.
    - apply (flat_map_length_filter _
               (fun s => (Session.token s =? token)%string)).
      + intros s Hs. apply dead_session_adds_nothing. now rewrite Hs.
      + intro s. etransitivity.
        * apply (flat_map_length_filter _
                   (fun u => Session.user_id s =? User.id u)).
          -- intros u Hu. now rewrite Hu.
          -- intro u. destruct (_ && _); simpl; lia.
        * apply (filter_unique_key User.id); [exact (users_key _ Hdb)|].
          intros x y _ _ Hx Hy. apply Z.eqb_eq in Hx, Hy. congruence.
    - apply (filter_unique_key Session.token);
        [exact (sessions_unique_token _ Hdb)|].
      intros x y _ _ Hx Hy. apply String.eqb_eq in Hx, Hy. congruence. }
  assert (Database.session_rows now token db = [v]) as Hrows.
  { destruct (Database.session_rows now token db) as [|a [|b rest]];
      simpl in Hlen; try lia; [contradiction|].
    destruct Hv as [->|[]]. reflexivity. }
  split; [assumption|].
  unfold Database.validateSession, Database.run. simpl. now rewrite Hrows.
Qed.

(** The one row of the administrator's token. *)
Lemma token_resolves_to_one_row_witness :
  Database.session_rows Demo.t0 Demo.token Demo.logged_in
  = [ {| Session.session := Demo.session; Session.username := "admin";
         Session.full_name := "System Administrator";
         Session.role := "admin" |} ].
Proof.
  apply (token_resolves_to_one_row Demo.t0 Demo.logged_in Demo.token).
  - exact logged_in_consistent.
  - vm_compute. left. reflexivity.
Defined.
